(** * qa-mcp-server: prompt construction, analysis handlers and ticket workflows

    A shallow embedding of [src/qa_mcp/prompts.py], [src/qa_mcp/handlers.py],
    [src/qa_mcp/clients/jira.py] and the tracker tools of
    [src/qa_mcp/server.py], followed by the properties the specification
    states about them.

    Conventions of the embedding.
    - Python values are the JSON-like values the code manipulates ([pyval]).
      A character is a code point below 256 (one [ascii]); a [dict] is an
      association list in insertion order whose lookup takes the first
      binding of a key.
    - A Python computation that may raise returns a [result]; code that talks
      to a collaborator (language model, tracker, REST endpoint) runs in the
      state-and-exception monad [M], whose state records every outbound call
      in order.  A collaborator is an [oracle]: a function of the calls made
      so far and of the present call that answers with a value or raises. *)

From Stdlib Require Import String Ascii List ZArith Lia Bool Arith DecimalString.
Import ListNotations.

Local Open Scope string_scope.
Local Open Scope list_scope.

(** String concatenation, written apart from list concatenation. *)
Notation "a +:+ b" := (String.append a b) (at level 60, right associativity).

(* ================================================================== *)
(** ** Python values, exceptions and results *)
(* ================================================================== *)

Module Py.

Set Warnings "-register-all".

Inductive pyval : Type :=
| VNone
| VBool (b : bool)
| VInt (z : Z)
| VStr (s : string)
| VList (l : list pyval)
| VDict (d : list (string * pyval)).

Definition pydict : Type := list (string * pyval).

Inductive exn_class : Type :=
| Exception | ValueError | TypeError | AttributeError | KeyError | IndexError | HTTPError.

(** An exception: its class and [str(e)]. *)
Record exn : Type := Exn { exn_cls : exn_class; exn_msg : string }.

Inductive result (A : Type) : Type :=
| Ok (a : A)
| Raise (e : exn).
Arguments Ok {A} a.
Arguments Raise {A} e.

Definition rbind {A B} (r : result A) (k : A -> result B) : result B :=
  match r with
  | Ok a => k a
  | Raise e => Raise e
  end.

(** [try: body  except Exception as e: handler(e)] *)
Definition try_except {A} (body : result A) (handler : exn -> result A) : result A :=
  match body with
  | Ok a => Ok a
  | Raise e => handler e
  end.

(** *** Characters and strings *)

Definition nl : string := String "010" EmptyString.
Definition squote : ascii := "039".
Definition dquote : ascii := "034".
Definition backslash : ascii := "092".

(** [f"..."]: the pieces of a formatted string, in order. *)
Definition fstr (parts : list string) : string := String.concat EmptyString parts.

(** [sep.join(parts)] *)
Definition join (sep : string) (parts : list string) : string := String.concat sep parts.

(** A text block written line by line. *)
Definition text (lines : list string) : string := join nl lines.

(** [s[:n]] *)
Definition str_take (n : nat) (s : string) : string := substring 0 n s.

Definition in_range (lo hi n : nat) : bool := Nat.leb lo n && Nat.leb n hi.

(** [str.lower] on code points below 256: A-Z and the Latin-1 capitals
    (U+00C0..U+00DE except the multiplication sign U+00D7). *)
Definition lower_char (c : ascii) : ascii :=
  let n := nat_of_ascii c in
  if in_range 65 90 n || (in_range 192 222 n && negb (Nat.eqb n 215))
  then ascii_of_nat (n + 32)
  else c.

Fixpoint lower (s : string) : string :=
  match s with
  | EmptyString => EmptyString
  | String c r => String (lower_char c) (lower r)
  end.

(** [str.isspace] on one character below 256. *)
Definition is_space (c : ascii) : bool :=
  let n := nat_of_ascii c in
  in_range 9 13 n || in_range 28 32 n || Nat.eqb n 133 || Nat.eqb n 160.

Fixpoint lstrip (s : string) : string :=
  match s with
  | EmptyString => EmptyString
  | String c r => if is_space c then lstrip r else s
  end.

Fixpoint rstrip (s : string) : string :=
  match s with
  | EmptyString => EmptyString
  | String c r =>
      match rstrip r with
      | EmptyString => if is_space c then EmptyString else String c EmptyString
      | r' => String c r'
      end
  end.

(** [str.strip()] *)
Definition strip (s : string) : string := rstrip (lstrip s).

Fixpoint str_mem (c : ascii) (s : string) : bool :=
  match s with
  | EmptyString => false
  | String d r => Ascii.eqb c d || str_mem c r
  end.

Definition hex_digit (n : nat) : ascii :=
  nth n ["0"; "1"; "2"; "3"; "4"; "5"; "6"; "7"; "8"; "9"; "a"; "b"; "c"; "d"; "e"; "f"]%char "0"%char.

Definition printable (n : nat) : bool :=
  in_range 32 126 n || (in_range 161 255 n && negb (Nat.eqb n 173)).

(** One character of [repr(s)], for the enclosing quote [q]. *)
Definition repr_char (q c : ascii) : string :=
  let n := nat_of_ascii c in
  if Ascii.eqb c q || Ascii.eqb c backslash then String backslash (String c EmptyString)
  else if Nat.eqb n 9 then String backslash "t"
  else if Nat.eqb n 10 then String backslash "n"
  else if Nat.eqb n 13 then String backslash "r"
  else if printable n then String c EmptyString
  else String backslash (String "x" (String (hex_digit (n / 16)) (String (hex_digit (n mod 16)) EmptyString))).

Fixpoint repr_chars (q : ascii) (s : string) : string :=
  match s with
  | EmptyString => EmptyString
  | String c r => repr_char q c +:+ repr_chars q r
  end.

(** [repr] of a [str]: single quotes unless the string has a single quote
    and no double quote. *)
Definition repr_str (s : string) : string :=
  let q := if str_mem squote s && negb (str_mem dquote s) then dquote else squote in
  String q (repr_chars q s +:+ String q EmptyString).

Definition str_of_Z (z : Z) : string := NilZero.string_of_int (Z.to_int z).
Definition str_of_nat (n : nat) : string := NilZero.string_of_uint (Nat.to_uint n).

(** [repr(v)] *)
Fixpoint py_repr (v : pyval) : string :=
  match v with
  | VNone => "None"
  | VBool true => "True"
  | VBool false => "False"
  | VInt z => str_of_Z z
  | VStr s => repr_str s
  | VList l => "[" +:+ join ", " (map py_repr l) +:+ "]"
  | VDict d =>
      "{" +:+ join ", " (map (fun kv => match kv with
                                        | (k, x) => repr_str k +:+ ": " +:+ py_repr x
                                        end) d) +:+ "}"
  end.

(** [str(v)], which is what an f-string field [{v}] renders. *)
Definition py_str (v : pyval) : string :=
  match v with
  | VStr s => s
  | _ => py_repr v
  end.

(** [type(v).__name__] *)
Definition type_name (v : pyval) : string :=
  match v with
  | VNone => "NoneType"
  | VBool _ => "bool"
  | VInt _ => "int"
  | VStr _ => "str"
  | VList _ => "list"
  | VDict _ => "dict"
  end.

(** Truth value of [v] in a condition. *)
Definition truthy (v : pyval) : bool :=
  match v with
  | VNone => false
  | VBool b => b
  | VInt z => negb (z =? 0)%Z
  | VStr s => negb (String.eqb s EmptyString)
  | VList l => match l with [] => false | _ => true end
  | VDict d => match d with [] => false | _ => true end
  end.

(** [a or b] *)
Definition py_or (a b : pyval) : pyval := if truthy a then a else b.

(** *** Dictionaries *)

Fixpoint dict_get (k : string) (d : pydict) : option pyval :=
  match d with
  | [] => None
  | (k', v) :: r => if String.eqb k k' then Some v else dict_get k r
  end.

(** [d.get(k, default)] *)
Definition get_or (d : pydict) (k : string) (default : pyval) : pyval :=
  match dict_get k d with
  | Some v => v
  | None => default
  end.

(** [d.get(k)] *)
Definition get_none (d : pydict) (k : string) : pyval := get_or d k VNone.

(** [d[k] = v] *)
Fixpoint dict_set (k : string) (v : pyval) (d : pydict) : pydict :=
  match d with
  | [] => [(k, v)]
  | (k', v') :: r => if String.eqb k k' then (k, v) :: r else (k', v') :: dict_set k v r
  end.

(** [list(d.keys())] *)
Definition keys {A} (d : list (string * A)) : list string := map fst d.

Definition attribute_error (v : pyval) (attr : string) : exn :=
  Exn AttributeError (fstr ["'"; type_name v; "' object has no attribute '"; attr; "'"]).

(** [v.get(k, default)] on a value that need not be a dict. *)
Definition py_get (v : pyval) (k : string) (default : pyval) : result pyval :=
  match v with
  | VDict d => Ok (get_or d k default)
  | _ => Raise (attribute_error v "get")
  end.

(** [len(v)] *)
Definition py_len (v : pyval) : result nat :=
  match v with
  | VStr s => Ok (String.length s)
  | VList l => Ok (List.length l)
  | VDict d => Ok (List.length d)
  | _ => Raise (Exn TypeError (fstr ["object of type '"; type_name v; "' has no len()"]))
  end.

Definition not_subscriptable (v : pyval) : exn :=
  Exn TypeError (fstr ["'"; type_name v; "' object is not subscriptable"]).

(** Slicing a dict raises: [TypeError] up to Python 3.11 (the message below),
    [KeyError] from 3.12 on.  No result of the code depends on which. *)
Definition unhashable_slice : exn := Exn TypeError "unhashable type: 'slice'".

(** The items that [for x in v[:n]] visits. *)
Definition py_take_items (n : nat) (v : pyval) : result (list pyval) :=
  match v with
  | VList l => Ok (firstn n l)
  | VStr s => Ok (map (fun c => VStr (String c EmptyString)) (list_ascii_of_string (str_take n s)))
  | VDict _ => Raise unhashable_slice
  | _ => Raise (not_subscriptable v)
  end.

(** [v[:n] + "..."] *)
Definition py_take_plus_dots (n : nat) (v : pyval) : result pyval :=
  match v with
  | VStr s => Ok (VStr (str_take n s +:+ "..."))
  | VList _ =>
      Raise (Exn TypeError
               (fstr ["can only concatenate list (not "; String dquote "str"; String dquote ") to list"]))
  | VDict _ => Raise unhashable_slice
  | _ => Raise (not_subscriptable v)
  end.

End Py.

Import Py.

(* ================================================================== *)
(** ** Outbound calls and the monad of effectful code *)
(* ================================================================== *)

Module Effects.

Inductive http_method : Type := GET | POST | PUT.

(** Every way the code reaches a collaborator.  [Http] is a REST call of
    [JiraClient] (method, path under [/rest/api/2], JSON body or query
    parameters); the others are the methods the handlers call on their
    [ai_client] and [jira_client] objects. *)
Inductive call : Type :=
| Http (m : http_method) (url : string) (payload : pyval)
| AskOpenAI (prompt : string)
| JiraJql (jql : string)
| JiraIssue (key : pyval)
| FetchIssueDetails (key : pyval).

(** A collaborator answers a call, knowing the calls made before it, with
    a value (for [Http], the decoded JSON of a 2xx response) or raises. *)
Definition oracle : Type := list call -> call -> result pyval.

(** The state threaded through effectful code: the calls made so far and
    the [results] dictionary local to the running workflow. *)
Record world : Type := World { calls : list call; results : pydict }.

Definition M (A : Type) : Type := world -> result A * world.

Definition ret {A} (a : A) : M A := fun w => (Ok a, w).

Definition raise {A} (e : exn) : M A := fun w => (Raise e, w).

Definition bind {A B} (m : M A) (k : A -> M B) : M B :=
  fun w =>
    match m w with
    | (Ok a, w') => k a w'
    | (Raise e, w') => (Raise e, w')
    end.

(** A pure computation that may raise, run inside [M]. *)
Definition lift {A} (r : result A) : M A := fun w => (r, w).

(** [try: body  except Exception as e: handler(e)] for effectful code: the
    handler runs in the state the body left. *)
Definition try_catch {A} (body : M A) (handler : exn -> M A) : M A :=
  fun w =>
    match body w with
    | (Ok a, w') => (Ok a, w')
    | (Raise e, w') => handler e w'
    end.

(** Issue one call: it is recorded, then answered by the collaborator. *)
Definition perform (o : oracle) (c : call) : M pyval :=
  fun w => (o (calls w) c, World (calls w ++ [c]) (results w)).

Definition get_results : M pydict := fun w => (Ok (results w), w).

Definition put_results (d : pydict) : M unit := fun w => (Ok tt, World (calls w) d).

End Effects.

Import Effects.

Declare Scope py_scope.
Delimit Scope py_scope with py.
Notation "x <- m ;; k" := (bind m (fun x => k))
  (at level 61, m at next level, right associativity) : py_scope.
Notation "m ;; k" := (bind m (fun _ => k))
  (at level 61, right associativity) : py_scope.
Notation "x <~ r ;; k" := (rbind r (fun x => k))
  (at level 61, r at next level, right associativity) : py_scope.
Local Open Scope py_scope.

(* ================================================================== *)
(** ** prompts.py *)
(* ================================================================== *)

Module Prompts.

Inductive Persona : Type :=
| SENIOR_QA
| SENIOR_DEV
| SENIOR_PO
| DEVELOPMENT_TEAM
| SCRUM_MASTER
| BUSINESS_ANALYST
| SECURITY_ENGINEER
| DEVOPS_ENGINEER
| TECHNICAL_LEADER.

(** [persona.value] *)
Definition Persona_value (p : Persona) : string :=
  match p with
  | SENIOR_QA => "Senior QA Technical Lead"
  | SENIOR_DEV => "Senior Developer Technical Lead"
  | SENIOR_PO => "Senior Product Owner"
  | DEVELOPMENT_TEAM => "Senior development team"
  | SCRUM_MASTER => "Senior Scrum Master"
  | BUSINESS_ANALYST => "Senior Business Analyst"
  | SECURITY_ENGINEER => "Senior Security Engineer"
  | DEVOPS_ENGINEER => "Senior Devops Engineer"
  | TECHNICAL_LEADER => "Senior Technical Lead"
  end.

(** The members of the enumeration, in declaration order. *)
Definition all_personas : list Persona :=
  [SENIOR_QA; SENIOR_DEV; SENIOR_PO; DEVELOPMENT_TEAM; SCRUM_MASTER;
   BUSINESS_ANALYST; SECURITY_ENGINEER; DEVOPS_ENGINEER; TECHNICAL_LEADER].

(** [persona.name] *)
Definition Persona_name (p : Persona) : string :=
  match p with
  | SENIOR_QA => "SENIOR_QA"
  | SENIOR_DEV => "SENIOR_DEV"
  | SENIOR_PO => "SENIOR_PO"
  | DEVELOPMENT_TEAM => "DEVELOPMENT_TEAM"
  | SCRUM_MASTER => "SCRUM_MASTER"
  | BUSINESS_ANALYST => "BUSINESS_ANALYST"
  | SECURITY_ENGINEER => "SECURITY_ENGINEER"
  | DEVOPS_ENGINEER => "DEVOPS_ENGINEER"
  | TECHNICAL_LEADER => "TECHNICAL_LEADER"
  end.

(** Enumeration members are compared by identity. *)
Definition Persona_eqb (p q : Persona) : bool :=
  match p, q with
  | SENIOR_QA, SENIOR_QA
  | SENIOR_DEV, SENIOR_DEV
  | SENIOR_PO, SENIOR_PO
  | DEVELOPMENT_TEAM, DEVELOPMENT_TEAM
  | SCRUM_MASTER, SCRUM_MASTER
  | BUSINESS_ANALYST, BUSINESS_ANALYST
  | SECURITY_ENGINEER, SECURITY_ENGINEER
  | DEVOPS_ENGINEER, DEVOPS_ENGINEER
  | TECHNICAL_LEADER, TECHNICAL_LEADER => true
  | _, _ => false
  end.

Record persona_context : Type :=
  PersonaContext { introduction : string; style_guide : string }.

Record template : Type :=
  Template { instructions : string; output_format : string }.

Definition _define_personas : list (Persona * persona_context) :=
  [ (SENIOR_QA,
     PersonaContext
       (text
          [ "You are a Senior QA Engineer with 8+ years of experience in software testing, test automation, and quality assurance. You have deep expertise in:";
            "- Test strategy and planning";
            "- Test case design and execution";
            "- Risk assessment and mitigation";
            "- Quality metrics and reporting";
            "- Test automation frameworks";
            "- Performance and security testing" ])
       (text
          [ "Provide analysis that is:";
            "- Thorough and methodical";
            "- Risk-focused with mitigation strategies";
            "- Includes specific test scenarios and cases";
            "- Considers edge cases and boundary conditions";
            "- Emphasizes quality gates and acceptance criteria";
            "- Uses testing terminology and best practices" ]));
    (SENIOR_DEV,
     PersonaContext
       "You are a Senior Software Developer with 10+ years of experience in software architecture, design patterns, and implementation best practices."
       "Provide analysis that is technically detailed and accurate.");
    (SENIOR_PO,
     PersonaContext
       "You are a Senior Product Owner with 7+ years of experience in product development, requirements analysis, and stakeholder communication."
       "Provide analysis that is business-value focused and user-centric.");
    (DEVELOPMENT_TEAM,
     PersonaContext
       "You represent a cross-functional Development Team with collective expertise in development, testing, design, and delivery."
       "Provide analysis that is collaborative and team-oriented.");
    (SCRUM_MASTER,
     PersonaContext
       "You are an experienced Scrum Master with 6+ years of experience in Agile coaching and team facilitation."
       "Provide analysis that is process and workflow focused.");
    (BUSINESS_ANALYST,
     PersonaContext
       "You are a Senior Business Analyst with 8+ years of experience in requirements analysis and stakeholder communication."
       "Provide analysis that is process and workflow oriented.");
    (TECHNICAL_LEADER,
     PersonaContext
       "You are a Senior Technical Lead with deep expertise in debugging, root cause analysis, and system architecture."
       "Provide analysis that is technically rigorous and actionable.") ].

Definition _define_templates : list (string * template) :=
  [ ("test-cases",
     Template
       (text
          [ "Generate 8-12 comprehensive test cases for the ticket. Cover:";
            EmptyString;
            "1. **Happy Path** - Main user flows and expected behavior";
            "2. **Edge Cases** - Boundaries, empty/invalid inputs, and unusual conditions";
            "3. **Error Handling** - Invalid actions, system errors, and fallback behavior";
            "4. **Integration / E2E** - Cross-system workflows and complete user journeys";
            EmptyString;
            "Each test case should be specific, verifiable, and aligned with the ticket's goals." ])
       (text
          [ "Format each test case as:";
            "**Scenario: [Title]**";
            "- **Given:** [Setup or context]";
            "- **When:** [Action taken]";
            "- **Then:** [Expected outcome]";
            "- **Priority:** [High/Medium/Low]" ]));
    ("comment-summary",
     Template
       (text
          [ "Summarize the Jira ticket comments. Extract:";
            "- Decisions made";
            "- Questions raised or resolved";
            "- Blockers or dependencies";
            "- Notable contributors" ])
       (text
          [ "Start with: Summary Of Comments In This Ticket";
            "Format as a bullet list of key insights." ]));
    ("root-cause-analysis",
     Template
       (text
          [ "Perform a Root Cause Analysis (RCA) for the bug. Structure your analysis:";
            EmptyString;
            "**Root Cause** - What went wrong at a technical or process level";
            "**Contributing Factors** - Conditions that enabled the issue";
            "**Preventive Actions** - Steps to avoid recurrence" ])
       (text
          [ "Format using markdown:";
            "### Jira Ticket Overview";
            "### Root Cause";
            "### Contributing Factors";
            "### Preventive Actions" ]));
    ("reproduction-steps",
     Template
       (text
          [ "Write clear reproduction steps for the bug:";
            EmptyString;
            "**Environment Details** - Where the issue occurs";
            "**Step-by-Step Instructions** - Clear, sequential actions";
            "**Expected vs. Actual Behavior** - What should and does happen" ])
       (text
          [ "Format as:";
            "### Environment";
            "### Steps to Reproduce";
            "### Expected vs. Actual" ]));
    ("epic-analysis",
     Template
       (text
          [ "Analyze this epic for comprehensive planning:";
            EmptyString;
            "1. **Epic Scope and Objectives** - Business goals and success criteria";
            "2. **Story Breakdown Strategy** - Recommended decomposition";
            "3. **Release Planning Approach** - MVP and phased delivery";
            "4. **Success Metrics** - Key performance indicators" ])
       "Format as a comprehensive epic analysis with strategic recommendations.");
    ("default",
     Template
       "Analyze this Jira ticket and provide comprehensive insights."
       "Provide a structured analysis with clear sections.") ].

(** [PromptBuilder]: the two registries, set once by [__init__]. *)
Record PromptBuilder : Type :=
  Builder { personas : list (Persona * persona_context);
            templates : list (string * template) }.

(** [PromptBuilder()] *)
Definition new_PromptBuilder : PromptBuilder :=
  Builder _define_personas _define_templates.

(** [self.personas.get(p)]: [None] when [p] has no entry. *)
Fixpoint personas_get (reg : list (Persona * persona_context)) (p : Persona)
  : option persona_context :=
  match reg with
  | [] => None
  | (q, c) :: r => if Persona_eqb p q then Some c else personas_get r p
  end.

Fixpoint templates_get (reg : list (string * template)) (k : string) : option template :=
  match reg with
  | [] => None
  | (k', t) :: r => if String.eqb k k' then Some t else templates_get r k
  end.

(** [reg[p]] *)
Definition personas_index (reg : list (Persona * persona_context)) (p : Persona)
  : result persona_context :=
  match personas_get reg p with
  | Some c => Ok c
  | None => Raise (Exn KeyError (fstr ["<Persona."; Persona_name p; ": "; repr_str (Persona_value p); ">"]))
  end.

(** [reg[k]] *)
Definition templates_index (reg : list (string * template)) (k : string) : result template :=
  match templates_get reg k with
  | Some t => Ok t
  | None => Raise (Exn KeyError (repr_str k))
  end.

(** [reg.get(p, default)] *)
Definition personas_get_or (reg : list (Persona * persona_context)) (p : Persona)
           (default : persona_context) : persona_context :=
  match personas_get reg p with
  | Some c => c
  | None => default
  end.

Definition templates_get_or (reg : list (string * template)) (k : string)
           (default : template) : template :=
  match templates_get reg k with
  | Some t => t
  | None => default
  end.

(** One pass of the loop over [enumerate(comments[:3], 1)]: the line
    [f"{i}. {author}: {content}\n"] for one comment. *)
Definition format_comment (i : nat) (comment : pyval) : result string :=
  author <~ py_get comment "author" (VStr "Unknown") ;;
  content <~ py_get comment "content" (VStr EmptyString) ;;
  n <~ py_len content ;;
  content <~ (if Nat.ltb 200 n then py_take_plus_dots 200 content else Ok content) ;;
  Ok (fstr [str_of_nat i; ". "; py_str author; ": "; py_str content; nl]).

(** The loop itself: [acc] is the text built so far, [i] the running index. *)
Fixpoint enumerate_comments (i : nat) (items : list pyval) (acc : string) : result string :=
  match items with
  | [] => Ok acc
  | comment :: rest =>
      line <~ format_comment i comment ;;
      enumerate_comments (S i) rest (acc +:+ line)
  end.

(** The ticket-information header of [_format_ticket_context]. *)
Definition ticket_information (ticket_data : pydict) : string :=
  let ticket_key := get_or ticket_data "ticketKey" (VStr "Unknown") in
  let title := get_or ticket_data "title" (VStr "No title provided") in
  let description := get_or ticket_data "description" (VStr "No description available") in
  let issue_type := get_or ticket_data "issueType" (VStr "story") in
  fstr [ nl;
         "**Ticket Information:**"; nl;
         "- **Key:** "; py_str ticket_key; nl;
         "- **Title:** "; py_str title; nl;
         "- **Type:** "; py_str issue_type; nl;
         "- **Description:** "; py_str description; nl ].

Definition _format_ticket_context (ticket_data : pydict) (context : option pydict)
  : result string :=
  let comments := get_or ticket_data "comments" (VList []) in
  let formatted_context := ticket_information ticket_data in
  if truthy comments then
    items <~ py_take_items 3 comments ;;
    enumerate_comments 1 items (formatted_context +:+ fstr [nl; "**Recent Comments:**"; nl])
  else Ok formatted_context.

Definition _get_fallback_prompt (ticket_data : pydict) (analysis_type : string) : string :=
  let ticket_key := get_or ticket_data "ticketKey" (VStr "Unknown") in
  let title := get_or ticket_data "title" (VStr "No title") in
  fstr [ "Analyze the following Jira ticket for "; analysis_type; ":"; nl;
         nl;
         "Ticket: "; py_str ticket_key; nl;
         "Title: "; py_str title; nl;
         "Description: ";
         py_str (get_or ticket_data "description" (VStr "No description provided")); nl;
         nl;
         "Please provide a detailed "; analysis_type;
         " analysis with specific recommendations." ].

(** The body of the [try] block of [build_analysis_prompt]. *)
Definition build_analysis_prompt_body (self : PromptBuilder) (ticket_data : pydict)
           (analysis_type : string) (persona : Persona) (context : option pydict)
  : result string :=
  default_persona <~ personas_index (personas self) SENIOR_QA ;;
  let persona_context := personas_get_or (personas self) persona default_persona in
  default_template <~ templates_index (templates self) "default" ;;
  let template := templates_get_or (templates self) analysis_type default_template in
  ticket_context <~ _format_ticket_context ticket_data context ;;
  Ok (fstr [ introduction persona_context; nl; nl;
             instructions template; nl; nl;
             ticket_context; nl; nl;
             output_format template; nl; nl;
             style_guide persona_context ]).

Definition build_analysis_prompt (self : PromptBuilder) (ticket_data : pydict)
           (analysis_type : string) (persona : Persona) (context : option pydict)
  : result string :=
  try_except
    (build_analysis_prompt_body self ticket_data analysis_type persona context)
    (fun e => Ok (_get_fallback_prompt ticket_data analysis_type)).

Definition build_story_analysis_prompt (self : PromptBuilder) (ticket_data : pydict)
           (persona : Persona) : result string :=
  try_except
    (default_persona <~ personas_index (personas self) DEVELOPMENT_TEAM ;;
     let persona_context := personas_get_or (personas self) persona default_persona in
     Ok (introduction persona_context))
    (fun e => Ok (_get_fallback_prompt ticket_data "story_analysis")).

Definition build_test_cases_prompt (self : PromptBuilder) (ticket_data : pydict)
           (persona : Persona) : result string :=
  build_analysis_prompt self ticket_data "test-cases" persona None.

Definition build_comment_summary_prompt (self : PromptBuilder) (ticket_data : pydict)
           (persona : Persona) : result string :=
  build_analysis_prompt self ticket_data "comment-summary" persona None.

Definition build_root_cause_prompt (self : PromptBuilder) (ticket_data : pydict)
           (persona : Persona) : result string :=
  build_analysis_prompt self ticket_data "root-cause-analysis" persona None.

Definition build_reproduction_steps_prompt (self : PromptBuilder) (ticket_data : pydict)
           (persona : Persona) : result string :=
  build_analysis_prompt self ticket_data "reproduction-steps" persona None.

Definition build_epic_analysis_prompt (self : PromptBuilder) (ticket_data : pydict)
           (persona : Persona) : result string :=
  build_analysis_prompt self ticket_data "epic-analysis" persona None.

End Prompts.

Import Prompts.

(* ================================================================== *)
(** ** handlers.py *)
(* ================================================================== *)

Module Handlers.

(** What every handler object holds.  A client is [None] or an object
    answering the methods called on it; [PromptBuilder()] is built by each
    [__init__]. *)
Record Handler : Type :=
  MkHandler { ai_client : option oracle; jira_client : option oracle }.

Definition prompt_builder (self : Handler) : PromptBuilder := new_PromptBuilder.

(** [client.method(...)] on a client that may be [None]. *)
Definition call_method (client : option oracle) (method : string) (c : call) : M pyval :=
  match client with
  | Some o => perform o c
  | None => raise (attribute_error VNone method)
  end.

(** The tail shared by the four template handlers:
    [if self.ai_client: result = ask_openai(prompt); if result: return result]
    and then [return f"Unable to generate <kind> for {ticket_key}"]. *)
Definition ask_or_unable (self : Handler) (prompt : string) (kind : string)
           (ticket_key : pyval) : M pyval :=
  let unable := VStr (fstr ["Unable to generate "; kind; " for "; py_str ticket_key]) in
  match ai_client self with
  | Some ai =>
      result <- perform ai (AskOpenAI prompt) ;;
      if truthy result then ret result else ret unable
  | None => ret unable
  end.

(** The [except Exception as e] clause shared by the four template handlers.
    The [ticket_key] it formats was bound by the first statement of the
    [try] block, [request_data.get(ticketKey, default)], which cannot raise. *)
Definition error_generating (kind : string) (ticket_key : pyval) (e : exn) : pyval :=
  VStr (fstr ["Error generating "; kind; " for '"; py_str ticket_key; "': "; exn_msg e]).

(** *** CommentSummaryHandler *)

Definition handle_comment_summary_body (self : Handler) (request_data : pydict) : M pyval :=
  let ticket_key := get_or request_data "ticketKey" (VStr EmptyString) in
  let comments := get_or request_data "comments" (VList []) in
  comments <-
    (if negb (truthy comments) then
       match jira_client self with
       | Some jira =>
           issue <- perform jira (FetchIssueDetails ticket_key) ;;
           lift (py_get issue "comments" (VList []))
       | None => ret comments
       end
     else ret comments) ;;
  if negb (truthy comments) then
    ret (VStr (fstr ["No comments found for "; py_str ticket_key]))
  else
    let ticket_data :=
      [ ("ticketKey", ticket_key);
        ("comments", comments);
        ("title", get_or request_data "title" (VStr EmptyString));
        ("description", get_or request_data "description" (VStr EmptyString)) ] in
    prompt <- lift (build_comment_summary_prompt (prompt_builder self) ticket_data BUSINESS_ANALYST) ;;
    ask_or_unable self prompt "comment summary" ticket_key.

Definition handle_comment_summary (self : Handler) (request_data : pydict) : M pyval :=
  try_catch
    (handle_comment_summary_body self request_data)
    (fun e => ret (error_generating "comment summary"
                     (get_or request_data "ticketKey" (VStr EmptyString)) e)).

(** *** TestCasesHandler, RootCauseHandler, ReproductionStepsHandler *)

Definition handle_test_cases_body (self : Handler) (request_data : pydict) : M pyval :=
  let ticket_key := get_or request_data "ticketKey" (VStr EmptyString) in
  prompt <- lift (build_test_cases_prompt (prompt_builder self) request_data SENIOR_QA) ;;
  ask_or_unable self prompt "test cases" ticket_key.

Definition handle_test_cases (self : Handler) (request_data : pydict) : M pyval :=
  try_catch
    (handle_test_cases_body self request_data)
    (fun e => ret (error_generating "test cases"
                     (get_or request_data "ticketKey" (VStr EmptyString)) e)).

Definition handle_root_cause_body (self : Handler) (request_data : pydict) : M pyval :=
  let ticket_key := get_or request_data "ticketKey" (VStr EmptyString) in
  prompt <- lift (build_root_cause_prompt (prompt_builder self) request_data TECHNICAL_LEADER) ;;
  ask_or_unable self prompt "root cause analysis" ticket_key.

Definition handle_root_cause (self : Handler) (request_data : pydict) : M pyval :=
  try_catch
    (handle_root_cause_body self request_data)
    (fun e => ret (error_generating "root cause analysis"
                     (get_or request_data "ticketKey" (VStr EmptyString)) e)).

Definition handle_reproduction_steps_body (self : Handler) (request_data : pydict) : M pyval :=
  let ticket_key := get_or request_data "ticketKey" (VStr EmptyString) in
  prompt <- lift (build_reproduction_steps_prompt (prompt_builder self) request_data
                    TECHNICAL_LEADER) ;;
  ask_or_unable self prompt "reproduction steps" ticket_key.

Definition handle_reproduction_steps (self : Handler) (request_data : pydict) : M pyval :=
  try_catch
    (handle_reproduction_steps_body self request_data)
    (fun e => ret (error_generating "reproduction steps"
                     (get_or request_data "ticketKey" (VStr EmptyString)) e)).

(** *** StoryAnalysisHandler *)

Definition not_iterable (v : pyval) : exn :=
  Exn TypeError (fstr ["'"; type_name v; "' object is not iterable"]).

(** The items [for x in v] visits. *)
Definition py_iter (v : pyval) : result (list pyval) :=
  match v with
  | VList l => Ok l
  | VStr s => Ok (map (fun c => VStr (String c EmptyString)) (list_ascii_of_string s))
  | VDict d => Ok (map VStr (keys d))
  | _ => Raise (not_iterable v)
  end.

(** [v[0]] *)
Definition py_first (v : pyval) : result pyval :=
  match v with
  | VList (x :: _) => Ok x
  | VList [] => Raise (Exn IndexError "list index out of range")
  | VStr (String c _) => Ok (VStr (String c EmptyString))
  | VStr EmptyString => Raise (Exn IndexError "string index out of range")
  | VDict _ => Raise (Exn KeyError "0")
  | _ => Raise (not_subscriptable v)
  end.

(** [[fv.get("name", "N/A") for fv in items]] *)
Fixpoint fix_version_names (items : list pyval) : result (list pyval) :=
  match items with
  | [] => Ok []
  | fv :: rest =>
      name <~ py_get fv "name" (VStr "N/A") ;;
      names <~ fix_version_names rest ;;
      Ok (name :: names)
  end.

(** [check_fix_version] returns a pair: the diagnostic and [None], a list
    of names or one name. *)
Definition check_fix_version_body (self : Handler) (ticket : pydict) : M (string * pyval) :=
  issue_details <-
    call_method (jira_client self) "jira"
      (JiraIssue (get_or ticket "ticketKey" (VStr "N/A"))) ;;
  fields <- lift (py_get issue_details "fields" (VDict [])) ;;
  fix_versions <- lift (py_get fields "fixVersions" (VList [])) ;;
  if negb (truthy fix_versions) then ret ("Missing fix version", VNone)
  else
    n <- lift (py_len fix_versions) ;;
    if Nat.ltb 1 n then
      items <- lift (py_iter fix_versions) ;;
      names <- lift (fix_version_names items) ;;
      ret ("Multiple fix versions", VList names)
    else
      fv <- lift (py_first fix_versions) ;;
      name <- lift (py_get fv "name" (VStr EmptyString)) ;;
      ret ("Fix version is valid", name).

Definition check_fix_version (self : Handler) (ticket : pydict) : M (string * pyval) :=
  try_catch
    (check_fix_version_body self ticket)
    (fun e => ret ("Could not check fix version", VNone)).

(** [', '.join(items)] *)
Fixpoint strs_of (i : nat) (items : list pyval) : result (list string) :=
  match items with
  | [] => Ok []
  | VStr s :: rest => r <~ strs_of (S i) rest ;; Ok (s :: r)
  | x :: _ =>
      Raise (Exn TypeError
               (fstr ["sequence item "; str_of_nat i; ": expected str instance, ";
                      type_name x; " found"]))
  end.

Definition py_join (sep : string) (items : list pyval) : result string :=
  strs <~ strs_of 0 items ;; Ok (join sep strs).

(** [v.strip()] *)
Definition py_strip (v : pyval) : result pyval :=
  match v with
  | VStr s => Ok (VStr (strip s))
  | _ => Raise (attribute_error v "strip")
  end.

(** [StoryAnalysisHandler.handle]: there is no [try] around its body. *)
Definition handle (self : Handler) (ticket_data : pydict) : M pyval :=
  let ticket_key := get_or ticket_data "ticketKey" (VStr "N/A") in
  let title := get_or ticket_data "title" (VStr EmptyString) in
  let description := get_or ticket_data "description" (VStr EmptyString) in
  let team := py_or (get_or ticket_data "team" (VStr EmptyString))
                    (get_or ticket_data "assignedTeam" (VStr EmptyString)) in
  let status := get_or ticket_data "status" (VStr EmptyString) in
  let comments := get_or ticket_data "comments" (VList []) in
  let issue_type := get_or ticket_data "issueType" (VStr "story") in
  comment_text <-
    lift (if truthy comments then
            items <~ py_take_items 3 comments ;;
            enumerate_comments 1 items EmptyString
          else Ok EmptyString) ;;
  prompt <- lift (build_story_analysis_prompt (prompt_builder self) ticket_data
                    DEVELOPMENT_TEAM) ;;
  let prompt :=
    prompt +:+
    fstr [ "Analyze the following Jira story and provide a structured analysis. ";
           "Focus on cross-team needs, ambiguities, dependencies, risks, and follow-up questions.";
           nl; nl;
           "**Ticket Key:** "; py_str ticket_key; nl;
           "**Title:** "; py_str title; nl;
           "**Type:** "; py_str issue_type; nl;
           "**Team:** "; py_str team; nl;
           "**Status:** "; py_str status; nl;
           "**Description:** "; py_str description; nl; nl;
           "**Recent Comments:**"; nl;
           (if String.eqb comment_text EmptyString then "No recent comments." else comment_text);
           nl; nl;
           "---"; nl;
           "## Story Analysis"; nl;
           "### 1. Cross-Team Coordination"; nl;
           "### 2. Ambiguities & Scope"; nl;
           "### 3. Dependencies & Blockers"; nl;
           "### 4. Risks & Issues"; nl;
           "### 5. Testability & Acceptance"; nl;
           "### 6. Follow-Up Questions"; nl ] in
  check_result <- check_fix_version self ticket_data ;;
  let prompt := prompt +:+ fstr [nl; nl; "**Fix Version Check:** "; fst check_result] in
  prompt <-
    (if truthy (snd check_result) then
       match snd check_result with
       | VList names =>
           joined <- lift (py_join ", " names) ;;
           ret (prompt +:+ fstr [nl; "**Fix Versions:** "; joined])
       | other => ret (prompt +:+ fstr [nl; "**Fix Version:** "; py_str other])
       end
     else ret prompt) ;;
  ai_response <- call_method (ai_client self) "ask_openai" (AskOpenAI prompt) ;;
  if truthy ai_response then lift (py_strip ai_response) else ret (VStr EmptyString).

(** *** EpicAnalysisHandler *)

Record ticket_info : Type :=
  TicketInfo { ti_key : pyval; ti_title : pyval; ti_status : pyval; ti_team : pyval }.

(** The loop [for issue in epic_issues[:20]] with its [tickets_info.append]. *)
Fixpoint collect_tickets (self : Handler) (issues : list pyval) (tickets_info : list ticket_info)
  : M (list ticket_info) :=
  match issues with
  | [] => ret tickets_info
  | issue :: rest =>
      issue_key <- lift (py_get issue "key" VNone) ;;
      details <- call_method (jira_client self) "fetch_issue_details"
                   (FetchIssueDetails issue_key) ;;
      title <- lift (py_get details "title" (VStr EmptyString)) ;;
      status <- lift (py_get details "status" (VStr EmptyString)) ;;
      team <- lift (py_get details "assigned_teams" (VStr EmptyString)) ;;
      collect_tickets self rest (tickets_info ++ [TicketInfo issue_key title status team])
  end.

(** One bullet of the story list. *)
Definition ticket_line (t : ticket_info) : string :=
  fstr [ "- ["; py_str (ti_key t); "] "; py_str (ti_title t);
         " (Status: "; py_str (ti_status t); ", Team: "; py_str (ti_team t); ")" ].

Definition epic_prompt (epic_key epic_title primary_team : pyval) (tickets_text : string)
  : string :=
  fstr [ "Analyze the following epic and its stories:"; nl; nl;
         "**Epic:** "; py_str epic_key; " - "; py_str epic_title; nl;
         "**Primary Team:** "; py_str primary_team; nl; nl;
         "**Stories:**"; nl; tickets_text; nl; nl;
         "Provide:"; nl;
         "1. Cross-team dependencies (stories requiring teams other than the primary)"; nl;
         "2. Stories with unclear scope"; nl;
         "3. Dependencies and blockers"; nl;
         "4. Risks and issues"; nl;
         "5. Summary and recommendations"; nl ].

Definition epic_key_of (request_data : pydict) : pyval :=
  py_or (get_none request_data "epicKey") (get_none request_data "ticketKey").

Definition handle_epic_analysis_body (self : Handler) (request_data : pydict) : M pyval :=
  let epic_key := epic_key_of request_data in
  let primary_team := get_or request_data "primaryOwningTeam" (VStr EmptyString) in
  let epic_title := get_or request_data "title" (VStr EmptyString) in
  let jql_query := fstr [String dquote "Epic Link"; String dquote " = "; py_str epic_key] in
  found <- call_method (jira_client self) "jira" (JiraJql jql_query) ;;
  epic_issues <- lift (py_get found "issues" (VList [])) ;;
  issues <- lift (py_take_items 20 epic_issues) ;;
  tickets_info <- collect_tickets self issues [] ;;
  let tickets_text := join nl (map ticket_line tickets_info) in
  let prompt := epic_prompt epic_key epic_title primary_team tickets_text in
  result <- call_method (ai_client self) "ask_openai" (AskOpenAI prompt) ;;
  if truthy result then ret result
  else ret (VStr (fstr ["Unable to analyze epic "; py_str epic_key])).

Definition handle_epic_analysis (self : Handler) (request_data : pydict) : M pyval :=
  try_catch
    (handle_epic_analysis_body self request_data)
    (fun e => ret (VStr (fstr [ "Error analyzing epic "; py_str (epic_key_of request_data);
                                ": "; exn_msg e ]))).

End Handlers.

(* ================================================================== *)
(** ** config.py and clients/jira.py *)
(* ================================================================== *)

Module Jira.

(** [JiraFieldIds], the typed dictionary of custom field identifiers. *)
Record JiraFieldIds : Type :=
  FieldIds { test_result : string; validator : string; team : string }.

(** The three tables [jira.py] imports from the deployment's [config]. *)
Record Config : Type :=
  MkConfig { JIRA_FIELDS : JiraFieldIds;
             JIRA_TRANSITIONS : pydict;
             TEST_RESULT_VALUES : pydict }.

(** The tables of [config_example.py]. *)
Definition config_example : Config :=
  MkConfig
    (FieldIds "customfield_XXXXX" "customfield_XXXXX" "customfield_XXXXX")
    [ ("backlog", VStr "XXX"); ("open", VStr "XXX"); ("in_progress", VStr "XXX");
      ("resolved", VStr "XXX"); ("closed", VStr "XXX"); ("reopened", VStr "XXX") ]
    [ ("pass", VDict [("id", VStr "XXXXX")]);
      ("fail", VDict [("id", VStr "XXXXX")]);
      ("in_progress", VDict [("id", VStr "XXXXX")]);
      ("blocked", VDict [("value", VStr "Blocked")]);
      ("not_tested", VDict [("value", VStr "Not Tested")]) ].

(** The defaults [jira.py] falls back to when no [config] can be imported. *)
Definition config_fallback : Config :=
  MkConfig (FieldIds "customfield_XXXXX" "customfield_XXXXX" "customfield_XXXXX") [] [].

(** A [JiraClient]: the configuration it reads and the REST endpoint its
    [httpx] client talks to.  An [Http] call answers with the decoded JSON
    body, or raises what the request or [raise_for_status] raises. *)
Record JiraClient : Type := MkJira { config : Config; http : oracle }.

Definition success (fields : pydict) : pyval := VDict (("status", VStr "success") :: fields).

Definition get_issue (self : JiraClient) (issue_key : string) : M pyval :=
  perform (http self) (Http GET (fstr ["/issue/"; issue_key]) VNone).

(** [get_issue_full]: the request, then the summary dictionary computed
    from the response (lines 68-133), here the function [summarize]. *)
Definition get_issue_full (summarize : pyval -> result pyval) (self : JiraClient)
           (issue_key : string) : M pyval :=
  data <- perform (http self)
            (Http GET (fstr ["/issue/"; issue_key])
               (VDict [("expand", VStr "renderedFields,changelog")])) ;;
  lift (summarize data).

Definition assign_issue (self : JiraClient) (issue_key username : string) : M pyval :=
  perform (http self)
    (Http PUT (fstr ["/issue/"; issue_key; "/assignee"]) (VDict [("name", VStr username)])) ;;
  ret (success [("issue_key", VStr issue_key); ("assignee", VStr username)]).

Definition set_validator (self : JiraClient) (issue_key username : string) : M pyval :=
  perform (http self)
    (Http PUT (fstr ["/issue/"; issue_key])
       (VDict [("fields",
                VDict [(validator (JIRA_FIELDS (config self)),
                        VDict [("name", VStr username)])])])) ;;
  ret (success [("issue_key", VStr issue_key); ("validator", VStr username)]).

Definition invalid_test_result (cfg : Config) (result : string) : exn :=
  Exn ValueError
    (fstr [ "Invalid test result: "; result; ". Must be one of ";
            py_repr (VList (map VStr (keys (TEST_RESULT_VALUES cfg)))) ]).

(** [set_test_result]: the membership test [result.lower() not in
    TEST_RESULT_VALUES] and the later [TEST_RESULT_VALUES[result.lower()]]
    are one lookup here. *)
Definition set_test_result (self : JiraClient) (issue_key result : string) : M pyval :=
  match dict_get (lower result) (TEST_RESULT_VALUES (config self)) with
  | None => raise (invalid_test_result (config self) result)
  | Some value =>
      perform (http self)
        (Http PUT (fstr ["/issue/"; issue_key])
           (VDict [("fields",
                    VDict [(test_result (JIRA_FIELDS (config self)), value)])])) ;;
      ret (success [("issue_key", VStr issue_key); ("test_result", VStr result)])
  end.

Definition add_comment (self : JiraClient) (issue_key comment : string) : M pyval :=
  data <- perform (http self)
            (Http POST (fstr ["/issue/"; issue_key; "/comment"])
               (VDict [("body", VStr comment)])) ;;
  comment_id <- lift (py_get data "id" VNone) ;;
  ret (success [("issue_key", VStr issue_key); ("comment_id", comment_id)]).

Definition unknown_transition (cfg : Config) (transition_name : string) : exn :=
  Exn ValueError
    (fstr [ "Unknown transition: "; transition_name; ". ";
            "Must be one of "; py_repr (VList (map VStr (keys (JIRA_TRANSITIONS cfg)))) ]).

Definition transition_issue (self : JiraClient) (issue_key transition_name : string)
  : M pyval :=
  let transition_id := get_none (JIRA_TRANSITIONS (config self)) (lower transition_name) in
  if negb (truthy transition_id) then
    raise (unknown_transition (config self) transition_name)
  else
    perform (http self)
      (Http POST (fstr ["/issue/"; issue_key; "/transitions"])
         (VDict [("transition", VDict [("id", transition_id)])])) ;;
    ret (success [("issue_key", VStr issue_key); ("transition", VStr transition_name)]).

(** [results["operations"].append(op)] *)
Definition operations_append (op : string) : M unit :=
  d <- get_results ;;
  match dict_get "operations" d with
  | Some (VList ops) => put_results (dict_set "operations" (VList (ops ++ [VStr op])) d)
  | Some other => raise (attribute_error other "append")
  | None => raise (Exn KeyError (repr_str "operations"))
  end.

(** [results["status"] = "success"; return results] *)
Definition return_success : M pyval :=
  d <- get_results ;;
  put_results (dict_set "status" (VStr "success") d) ;;
  d <- get_results ;;
  ret (VDict d).

Definition claim_for_qa (self : JiraClient) (issue_key username : string) : M pyval :=
  put_results [ ("issue_key", VStr issue_key);
                ("username", VStr username);
                ("operations", VList []) ] ;;
  assign_issue self issue_key username ;;
  operations_append "assigned" ;;
  set_validator self issue_key username ;;
  operations_append "validator_set" ;;
  set_test_result self issue_key "in_progress" ;;
  operations_append "test_result_in_progress" ;;
  return_success.

Definition resolve_pass (self : JiraClient) (issue_key comment : string) : M pyval :=
  put_results [ ("issue_key", VStr issue_key); ("operations", VList []) ] ;;
  add_comment self issue_key comment ;;
  operations_append "comment_added" ;;
  transition_issue self issue_key "resolved" ;;
  operations_append "transitioned_to_resolved" ;;
  set_test_result self issue_key "pass" ;;
  operations_append "test_result_pass" ;;
  return_success.

Definition fail_and_reopen (self : JiraClient) (issue_key comment : string) : M pyval :=
  put_results [ ("issue_key", VStr issue_key); ("operations", VList []) ] ;;
  add_comment self issue_key comment ;;
  operations_append "comment_added" ;;
  transition_issue self issue_key "reopened" ;;
  operations_append "transitioned_to_reopened" ;;
  set_test_result self issue_key "fail" ;;
  operations_append "test_result_fail" ;;
  return_success.

(** [v[k]] for a string [k] *)
Definition py_index (v : pyval) (k : string) : result pyval :=
  match v with
  | VDict d =>
      match dict_get k d with
      | Some x => Ok x
      | None => Raise (Exn KeyError (repr_str k))
      end
  | VStr _ => Raise (Exn TypeError "string indices must be integers, not 'str'")
  | VList _ => Raise (Exn TypeError "list indices must be integers or slices, not str")
  | _ => Raise (not_subscriptable v)
  end.

Definition create_subtask (self : JiraClient) (parent_key summary description : string)
  : M pyval :=
  parent <- get_issue self parent_key ;;
  fields <- lift (py_index parent "fields") ;;
  project <- lift (py_index fields "project") ;;
  project_key <- lift (py_index project "key") ;;
  let fields :=
    VDict [ ("project", VDict [("key", project_key)]);
            ("parent", VDict [("key", VStr parent_key)]);
            ("issuetype", VDict [("name", VStr "Sub-task")]);
            ("summary", VStr summary);
            ("description", VStr description) ] in
  try_catch
    (perform (http self) (Http POST "/issue" (VDict [("fields", fields)])))
    (fun e => ret VNone).

Definition update_issue (self : JiraClient) (issue_key : string)
           (summary description : option string) : M pyval :=
  let fields : pydict := [] in
  let fields := match summary with
                | Some s => dict_set "summary" (VStr s) fields
                | None => fields
                end in
  let fields := match description with
                | Some s => dict_set "description" (VStr s) fields
                | None => fields
                end in
  if negb (truthy (VDict fields)) then
    ret (VDict [("status", VStr "error"); ("error", VStr "No fields to update")])
  else
    perform (http self) (Http PUT (fstr ["/issue/"; issue_key]) (VDict [("fields", VDict fields)])) ;;
    ret (success [ ("issue_key", VStr issue_key);
                   ("updated_fields", VList (map VStr (keys fields))) ]).

End Jira.

Import Jira.

(* ================================================================== *)
(** ** server.py: the tracker tools *)
(* ================================================================== *)

Module Server.

(** What the tool functions find in their process: the [JIRA_URL]
    environment variable and what a constructed [JiraClient] reads and
    reaches. *)
Record Process : Type :=
  MkProcess { JIRA_URL : string; jira_config : Config; jira_http : oracle }.

(** [get_jira()]: [JiraClient()] raises when [JIRA_URL] is empty. *)
Definition get_jira (p : Process) : M JiraClient :=
  if String.eqb (JIRA_URL p) EmptyString then
    raise (Exn ValueError "JIRA_URL environment variable is required")
  else ret (MkJira (jira_config p) (jira_http p)).

Definition error_envelope (msg : string) : pyval :=
  VDict [("status", VStr "error"); ("error", VStr msg)].

Definition qa_claim_ticket (p : Process) (issue_key username : string) : M pyval :=
  jira <- get_jira p ;;
  claim_for_qa jira issue_key username.

Definition qa_add_comment (p : Process) (issue_key comment : string) : M pyval :=
  jira <- get_jira p ;;
  add_comment jira issue_key comment.

Definition qa_get_issue_details (summarize : pyval -> result pyval) (p : Process)
           (issue_key : string) : M pyval :=
  jira <- get_jira p ;;
  try_catch
    (issue <- get_issue_full summarize jira issue_key ;;
     ret (VDict [("status", VStr "success"); ("issue", issue)]))
    (fun e => ret (error_envelope (exn_msg e))).

Definition qa_transition_ticket (p : Process) (issue_key transition : string) : M pyval :=
  jira <- get_jira p ;;
  try_catch
    (transition_issue jira issue_key transition)
    (fun e =>
       match exn_cls e with
       | ValueError => ret (error_envelope (exn_msg e))
       | _ => ret (error_envelope (fstr ["Failed to transition: "; exn_msg e]))
       end).

Definition qa_create_subtask (p : Process) (parent_key summary description : string)
  : M pyval :=
  jira <- get_jira p ;;
  try_catch
    (result <- create_subtask jira parent_key summary description ;;
     if truthy result then
       ret (VDict [ ("status", VStr "success"); ("parent_key", VStr parent_key);
                    ("subtask", result) ])
     else ret (error_envelope "Failed to create subtask"))
    (fun e => ret (error_envelope (exn_msg e))).

Definition qa_update_issue (p : Process) (issue_key : string)
           (summary description : option string) : M pyval :=
  jira <- get_jira p ;;
  try_catch
    (update_issue jira issue_key summary description)
    (fun e => ret (error_envelope (exn_msg e))).

End Server.

Import Handlers Server.

(* ================================================================== *)
(** ** clients/jira.py: issue summary and issue creation *)
(* ================================================================== *)

Module JiraIssues.

(** A loop [for x in items: out.append(f(x))] or a comprehension
    [[f(x) for x in items]]: the first failing [f(x)] ends it. *)
Fixpoint collect (f : pyval -> result pyval) (items : list pyval) : result (list pyval) :=
  match items with
  | [] => Ok []
  | x :: rest =>
      y <~ f x ;;
      ys <~ collect f rest ;;
      Ok (y :: ys)
  end.

(** [v.get(k1, d1).get(k2, d2)] *)
Definition get2 (v : pyval) (k1 : string) (d1 : pyval) (k2 : string) (d2 : pyval)
  : result pyval :=
  x <~ py_get v k1 d1 ;;
  py_get x k2 d2.

(** [fields.get(k, {}).get(attr) if fields.get(k) else None] *)
Definition get_if_set (fields : pyval) (k attr : string) : result pyval :=
  set <~ py_get fields k VNone ;;
  if truthy set then get2 fields k (VDict []) attr VNone else Ok VNone.

(** The entry appended to [comments] for the comment [c]. *)
Definition comment_entry (c : pyval) : result pyval :=
  id <~ py_get c "id" VNone ;;
  author <~ get2 c "author" (VDict []) "displayName" (VStr "Unknown") ;;
  body <~ py_get c "body" (VStr EmptyString) ;;
  created <~ py_get c "created" VNone ;;
  updated <~ py_get c "updated" VNone ;;
  Ok (VDict [ ("id", id); ("author", author); ("body", body);
              ("created", created); ("updated", updated) ]).

(** The entry appended to [subtasks] for the subtask [st]. *)
Definition subtask_entry (st : pyval) : result pyval :=
  key <~ py_get st "key" VNone ;;
  summary <~ get2 st "fields" (VDict []) "summary" VNone ;;
  status_obj <~ get2 st "fields" (VDict []) "status" (VDict []) ;;
  status <~ py_get status_obj "name" VNone ;;
  Ok (VDict [("key", key); ("summary", summary); ("status", status)]).

(** The entry for the linked issue [issue], in the given direction. *)
Definition link_entry (link_type : pyval) (direction : string) (issue : pyval)
  : result pyval :=
  key <~ py_get issue "key" VNone ;;
  summary <~ get2 issue "fields" (VDict []) "summary" VNone ;;
  Ok (VDict [ ("type", link_type); ("direction", VStr direction);
              ("key", key); ("summary", summary) ]).

(** The loop over [issuelinks]: a link adds an entry when it has an
    [outwardIssue], else when it has an [inwardIssue], else nothing. *)
Fixpoint link_entries (items : list pyval) : result (list pyval) :=
  match items with
  | [] => Ok []
  | link :: rest =>
      link_type <~ get2 link "type" (VDict []) "name" (VStr EmptyString) ;;
      entry <~
        (match link with
         | VDict d =>
             match dict_get "outwardIssue" d, dict_get "inwardIssue" d with
             | Some out, _ => e <~ link_entry link_type "outward" out ;; Ok [e]
             | None, Some inw => e <~ link_entry link_type "inward" inw ;; Ok [e]
             | None, None => Ok []
             end
         | _ => Raise (attribute_error link "get")
         end) ;;
      entries <~ link_entries rest ;;
      Ok (entry ++ entries)
  end.

(** Lines 68-133 of [get_issue_full]: the summary dictionary computed from
    the decoded response [data]. *)
Definition issue_summary (cfg : Config) (data : pyval) : result pyval :=
  fields <~ py_get data "fields" (VDict []) ;;
  raw <~ get2 fields "comment" (VDict []) "comments" (VList []) ;;
  items <~ py_iter raw ;;
  comments <~ collect comment_entry items ;;
  raw <~ py_get fields "subtasks" (VList []) ;;
  items <~ py_iter raw ;;
  subtasks <~ collect subtask_entry items ;;
  raw <~ py_get fields "fixVersions" (VList []) ;;
  items <~ py_iter raw ;;
  fix_versions <~ collect (fun v => py_get v "name" VNone) items ;;
  labels <~ py_get fields "labels" (VList []) ;;
  raw <~ py_get fields "issuelinks" (VList []) ;;
  items <~ py_iter raw ;;
  links <~ link_entries items ;;
  key <~ py_get data "key" VNone ;;
  summary <~ py_get fields "summary" VNone ;;
  description <~ py_get fields "description" VNone ;;
  type <~ get2 fields "issuetype" (VDict []) "name" VNone ;;
  status <~ get2 fields "status" (VDict []) "name" VNone ;;
  priority <~ get2 fields "priority" (VDict []) "name" VNone ;;
  assignee <~ get_if_set fields "assignee" "displayName" ;;
  reporter <~ get_if_set fields "reporter" "displayName" ;;
  created <~ py_get fields "created" VNone ;;
  updated <~ py_get fields "updated" VNone ;;
  validator <~ get_if_set fields (validator (JIRA_FIELDS cfg)) "displayName" ;;
  test_result <~ get_if_set fields (test_result (JIRA_FIELDS cfg)) "value" ;;
  Ok (VDict [ ("key", key); ("summary", summary); ("description", description);
              ("type", type); ("status", status); ("priority", priority);
              ("assignee", assignee); ("reporter", reporter);
              ("created", created); ("updated", updated);
              ("fix_versions", VList fix_versions); ("labels", labels);
              ("subtasks", VList subtasks); ("comments", VList comments);
              ("links", VList links);
              ("validator", validator); ("test_result", test_result) ]).

(** [JiraClient.get_issue_full] with its own summary. *)
Definition get_issue_full_summary (self : JiraClient) (issue_key : string) : M pyval :=
  get_issue_full (issue_summary (config self)) self issue_key.

(** An optional string argument is used when it is given and not empty. *)
Definition given (arg : option string) : option string :=
  match arg with
  | Some s => if String.eqb s EmptyString then None else Some s
  | None => None
  end.

Definition create_issue (self : JiraClient) (project issue_type summary description : string)
           (epic_link fix_version : option string) : M pyval :=
  let fields : pydict :=
    [ ("project", VDict [("key", VStr project)]);
      ("issuetype", VDict [("name", VStr issue_type)]);
      ("summary", VStr summary);
      ("description", VStr description) ] in
  let fields := match given epic_link with
                | Some link => dict_set "customfield_12340" (VStr link) fields
                | None => fields
                end in
  let fields := match given fix_version with
                | Some version =>
                    dict_set "fixVersions" (VList [VDict [("name", VStr version)]]) fields
                | None => fields
                end in
  try_catch
    (perform (http self) (Http POST "/issue" (VDict [("fields", VDict fields)])))
    (fun e => ret VNone).

End JiraIssues.

Import JiraIssues.

(* ================================================================== *)
(** ** handlers.py: EpicAnalysisHandler.summarize_comments *)
(* ================================================================== *)

Module EpicComments.

(** [[c.strip() for c in comments if isinstance(c, str) and c.strip()]] *)
Fixpoint stripped_texts (comments : list pyval) : list string :=
  match comments with
  | [] => []
  | VStr c :: rest =>
      if String.eqb (strip c) EmptyString then stripped_texts rest
      else strip c :: stripped_texts rest
  | _ :: rest => stripped_texts rest
  end.

Definition summary_prompt (combined_text : string) : string :=
  fstr [ "Summarize the following Jira comments into a concise overview focusing on key points, ";
         "people, questions, or blockers:"; nl; nl;
         combined_text; nl; nl;
         "Provide a summary that captures the essence without losing important details." ].

Definition summarize_comments (self : Handler) (comments : list pyval) : M pyval :=
  let combined_text := join (nl +:+ nl) (stripped_texts comments) in
  if String.eqb combined_text EmptyString then ret (VStr EmptyString)
  else
    summary <- call_method (ai_client self) "ask_openai"
                 (AskOpenAI (summary_prompt combined_text)) ;;
    match summary with
    | VStr s => ret (VStr (strip s))
    | _ => ret (VStr EmptyString)
    end.

End EpicComments.

Import EpicComments.

(* ================================================================== *)
(** ** server.py: the analysis tools *)
(* ================================================================== *)

Module AiTools.

(** The six handler objects [get_handlers] builds. *)
Record HandlerTable : Type :=
  MkTable { h_comment_summary : Handler;
            h_test_cases : Handler;
            h_root_cause : Handler;
            h_reproduction_steps : Handler;
            h_story_analysis : Handler;
            h_epic_analysis : Handler }.

(** The [JiraClient] object as the handlers see it.  The handlers call
    [jira_client.jira.jql], [jira_client.jira.issue] and
    [jira_client.fetch_issue_details]; [JiraClient] has no attribute [jira]
    and no attribute [fetch_issue_details], so each of these raises
    [AttributeError] at the attribute lookup.  The trace entry of such a
    call records the attempt. *)
Definition no_attribute (attr : string) : exn :=
  Exn AttributeError (fstr ["'JiraClient' object has no attribute '"; attr; "'"]).

Definition jira_object : oracle :=
  fun _ c =>
    match c with
    | FetchIssueDetails _ => Raise (no_attribute "fetch_issue_details")
    | _ => Raise (no_attribute "jira")
    end.

(** [get_handlers()], for a process whose model client is [ai] ([None] when
    it could not be initialised): [None] without a model client or when
    [get_jira()] raises. *)
Definition get_handlers (p : Process) (ai : option oracle) : M (option HandlerTable) :=
  match ai with
  | None => ret None
  | Some ai_client =>
      try_catch
        (get_jira p ;;
         ret (Some (MkTable (MkHandler (Some ai_client) (Some jira_object))
                            (MkHandler (Some ai_client) None)
                            (MkHandler (Some ai_client) None)
                            (MkHandler (Some ai_client) None)
                            (MkHandler (Some ai_client) (Some jira_object))
                            (MkHandler (Some ai_client) (Some jira_object)))))
        (fun e => ret None)
  end.

(** [issue["fields"][k]] *)
Definition field_index (issue : pyval) (k : string) : result pyval :=
  fields <~ py_index issue "fields" ;;
  py_index fields k.

(** [issue["fields"].get(k, default)] *)
Definition field_get (issue : pyval) (k : string) (default : pyval) : result pyval :=
  fields <~ py_index issue "fields" ;;
  py_get fields k default.

(** The part shared by qa_generate_test_cases, qa_root_cause_analysis and
    qa_generate_reproduction_steps: title and description are fetched from
    the tracker when one of them is empty, the handler [handle] is run and
    its result returned under [result_key]. *)
Definition text_tool (handle : Handler -> pydict -> M pyval) (pick : HandlerTable -> Handler)
           (result_key : string) (p : Process) (ai : option oracle)
           (issue_key title description : string) : M pyval :=
  handlers <- get_handlers p ai ;;
  match handlers with
  | None => ret (error_envelope "AI client not available")
  | Some table =>
      texts <-
        (if negb (truthy (VStr title)) || negb (truthy (VStr description)) then
           jira <- get_jira p ;;
           issue <- get_issue jira issue_key ;;
           if truthy issue then
             title <- (if truthy (VStr title) then ret (VStr title)
                       else lift (field_index issue "summary")) ;;
             description <- (if truthy (VStr description) then ret (VStr description)
                             else lift (field_get issue "description" (VStr EmptyString))) ;;
             ret (title, description)
           else ret (VStr title, VStr description)
         else ret (VStr title, VStr description)) ;;
      let request_data :=
        [ ("ticketKey", VStr issue_key); ("title", fst texts); ("description", snd texts) ] in
      result <- handle (pick table) request_data ;;
      ret (VDict [ ("status", VStr "success"); ("issue_key", VStr issue_key);
                   (result_key, result) ])
  end.

Definition qa_generate_test_cases : Process -> option oracle -> string -> string -> string -> M pyval :=
  text_tool handle_test_cases h_test_cases "test_cases".

Definition qa_root_cause_analysis : Process -> option oracle -> string -> string -> string -> M pyval :=
  text_tool handle_root_cause h_root_cause "analysis".

Definition qa_generate_reproduction_steps : Process -> option oracle -> string -> string -> string -> M pyval :=
  text_tool handle_reproduction_steps h_reproduction_steps "steps".

(** One entry of the [comments] comprehension of the tools. *)
Definition tool_comment (c : pyval) : result pyval :=
  author <~ get2 c "author" (VDict []) "displayName" (VStr "Unknown") ;;
  content <~ py_get c "body" (VStr EmptyString) ;;
  Ok (VDict [("author", author); ("content", content)]).

(** [[{...} for c in issue["fields"].get("comment", {}).get("comments", [])]] *)
Definition tool_comments (issue : pyval) : result (list pyval) :=
  comment <~ field_get issue "comment" (VDict []) ;;
  raw <~ py_get comment "comments" (VList []) ;;
  items <~ py_iter raw ;;
  collect tool_comment items.

Definition qa_summarize_comments (p : Process) (ai : option oracle) (issue_key : string)
  : M pyval :=
  handlers <- get_handlers p ai ;;
  match handlers with
  | None => ret (error_envelope "AI client not available")
  | Some table =>
      jira <- get_jira p ;;
      issue <- get_issue jira issue_key ;;
      if negb (truthy issue) then
        ret (error_envelope (fstr ["Issue "; issue_key; " not found"]))
      else
        comments <- lift (tool_comments issue) ;;
        title <- lift (field_index issue "summary") ;;
        description <- lift (field_get issue "description" (VStr EmptyString)) ;;
        let request_data :=
          [ ("ticketKey", VStr issue_key); ("title", title);
            ("description", description); ("comments", VList comments) ] in
        result <- handle_comment_summary (h_comment_summary table) request_data ;;
        ret (VDict [ ("status", VStr "success"); ("issue_key", VStr issue_key);
                     ("summary", result) ])
  end.

Definition qa_analyze_story (p : Process) (ai : option oracle) (issue_key : string)
  : M pyval :=
  handlers <- get_handlers p ai ;;
  match handlers with
  | None => ret (error_envelope "AI client not available")
  | Some table =>
      jira <- get_jira p ;;
      issue <- get_issue jira issue_key ;;
      if negb (truthy issue) then
        ret (error_envelope (fstr ["Issue "; issue_key; " not found"]))
      else
        comments <- lift (tool_comments issue) ;;
        title <- lift (field_index issue "summary") ;;
        description <- lift (field_get issue "description" (VStr EmptyString)) ;;
        status <- lift (s <~ field_index issue "status" ;; py_index s "name") ;;
        issue_type <- lift (t <~ field_index issue "issuetype" ;; py_index t "name") ;;
        let request_data :=
          [ ("ticketKey", VStr issue_key); ("title", title);
            ("description", description); ("status", status);
            ("issueType", issue_type); ("comments", VList comments) ] in
        result <- handle (h_story_analysis table) request_data ;;
        ret (VDict [ ("status", VStr "success"); ("issue_key", VStr issue_key);
                     ("analysis", result) ])
  end.

Definition qa_analyze_epic (p : Process) (ai : option oracle) (epic_key primary_team : string)
  : M pyval :=
  handlers <- get_handlers p ai ;;
  match handlers with
  | None => ret (error_envelope "AI client not available")
  | Some table =>
      jira <- get_jira p ;;
      issue <- get_issue jira epic_key ;;
      if negb (truthy issue) then
        ret (error_envelope (fstr ["Epic "; epic_key; " not found"]))
      else
        title <- lift (field_index issue "summary") ;;
        let request_data :=
          [ ("epicKey", VStr epic_key); ("ticketKey", VStr epic_key);
            ("title", title); ("primaryOwningTeam", VStr primary_team) ] in
        result <- handle_epic_analysis (h_epic_analysis table) request_data ;;
        ret (VDict [ ("status", VStr "success"); ("epic_key", VStr epic_key);
                     ("analysis", result) ])
  end.

End AiTools.

Import AiTools.

(* ================================================================== *)
(** ** clients/ai.py: asking the model *)
(* ================================================================== *)

Module AiClient.

(** What [AIClient.ask_openai] does that can be observed from outside. *)
Inductive event : Type :=
| TokenRequest
| Completion (prompt : string)
| Sleep (seconds : nat).

(** The services behind an [AIClient], each knowing the events before it:
    [access_token] is what [get_access_token()] returns or raises;
    [completion] is what the body of the [try] of one attempt evaluates
    to, the request and the read of [choices[0].message.content].  The
    construction of the SDK client between the two makes no request and is
    taken to succeed. *)
Record AIClient : Type :=
  MkAIClient { access_token : list event -> result pyval;
               completion : list event -> string -> result pyval }.

(** The loop [for attempt in range(1, max_retries + 1)], with the
    iterations left and the current [retry_delay]; after the loop,
    [return None]. *)
Fixpoint attempts (self : AIClient) (prompt : string) (left retry_delay : nat)
         (trace : list event) : result pyval * list event :=
  match left with
  | 0 => (Ok VNone, trace)
  | S left' =>
      match completion self trace prompt with
      | Ok content => (Ok content, trace ++ [Completion prompt])
      | Raise _ =>
          attempts self prompt left' (retry_delay * 2)
            (trace ++ [Completion prompt; Sleep retry_delay])
      end
  end.

Definition ask_openai (self : AIClient) (prompt : string) (trace : list event)
  : result pyval * list event :=
  match access_token self trace with
  | Raise e => (Raise e, trace ++ [TokenRequest])
  | Ok token =>
      if negb (truthy token) then (Ok VNone, trace ++ [TokenRequest])
      else
        let retry_delay := 1 in
        let max_retries := 5 in
        attempts self prompt max_retries retry_delay (trace ++ [TokenRequest])
  end.

End AiClient.

Import AiClient.

(* ================================================================== *)
(** ** Vocabulary of the properties *)
(* ================================================================== *)

(** *** Substrings *)

(** [t] occurs in [s]. *)
Definition contains (s t : string) : Prop := exists a b, s = a +:+ t +:+ b.

(** The [parts] occur in [s] one after the other, without overlap. *)
Fixpoint in_order (parts : list string) (s : string) : Prop :=
  match parts with
  | [] => True
  | p :: ps => exists a b, s = a +:+ p +:+ b /\ in_order ps b
  end.

Fixpoint is_prefix (t s : string) : bool :=
  match t, s with
  | EmptyString, _ => true
  | String a t', String b s' => Ascii.eqb a b && is_prefix t' s'
  | String _ _, EmptyString => false
  end.

Fixpoint is_infix (t s : string) : bool :=
  is_prefix t s ||
  match s with
  | EmptyString => false
  | String _ s' => is_infix t s'
  end.

(** *** Registry and prompt *)

Definition registered (p : Persona) : bool :=
  match personas_get (personas new_PromptBuilder) p with
  | Some _ => true
  | None => false
  end.

(** The five blocks, separated by blank lines. *)
Definition five_blocks (pc : persona_context) (t : template) (ticket_context : string)
  : string :=
  fstr [ introduction pc; nl; nl; instructions t; nl; nl; ticket_context; nl; nl;
         output_format t; nl; nl; style_guide pc ].

(** *** Comments *)

(** The body of a well-formed comment: a dict whose [content] is a string
    (an absent [content] counts as the empty string). *)
Definition comment_body (c : pyval) : option string :=
  match c with
  | VDict d =>
      match get_or d "content" (VStr EmptyString) with
      | VStr s => Some s
      | _ => None
      end
  | _ => None
  end.

Definition comment_author (c : pyval) : string :=
  match c with
  | VDict d => py_str (get_or d "author" (VStr "Unknown"))
  | _ => EmptyString
  end.

(** A body as the context shows it. *)
Definition shown_body (body : string) : string :=
  if Nat.ltb 200 (String.length body) then str_take 200 body +:+ "..." else body.

Definition comment_line (i : nat) (c : pyval) (body : string) : string :=
  fstr [str_of_nat i; ". "; comment_author c; ": "; shown_body body; nl].

Definition is_comment (c : pyval) : bool :=
  match comment_body c with
  | Some _ => true
  | None => false
  end.

(** A ticket whose comments can be formatted: none (absent, empty or any
    falsy value), or a list whose first three entries are comments. *)
Definition comments_well_formed (ticket_data : pydict) : bool :=
  match get_or ticket_data "comments" (VList []) with
  | VList cs => forallb is_comment (firstn 3 cs)
  | other => negb (truthy other)
  end.

(** *** Epic analysis *)


Definition is_dict (v : pyval) : Prop := exists d, v = VDict d.








(** *** Tracker client and workflows *)

Definition succeeded {A} (r : result A) : bool :=
  match r with
  | Ok _ => true
  | Raise _ => false
  end.

(** The request [set_test_result] sends for the configured option [v]. *)
Definition test_result_request (self : JiraClient) (issue_key : string) (v : pyval) : call :=
  Http PUT (fstr ["/issue/"; issue_key])
       (VDict [("fields", VDict [(test_result (JIRA_FIELDS (config self)), v)])]).

(** The request [transition_issue] sends for the transition identifier [id]. *)
Definition transition_request (issue_key : string) (id : pyval) : call :=
  Http POST (fstr ["/issue/"; issue_key; "/transitions"])
       (VDict [("transition", VDict [("id", id)])]).

(** A workflow step: the client call and the entry logged once it returns. *)
Definition step : Type := (M pyval * string)%type.

(** The shape the three workflows share: each step, then its log entry,
    then the next step; [k] is what follows the last step. *)
Definition run_steps (steps : list step) (k : M pyval) : M pyval :=
  fold_right (fun s rest => fst s ;; operations_append (snd s) ;; rest) k steps.

Inductive workflow_kind : Type :=
| ClaimForQA (username : string)
| ResolvePass (comment : string)
| FailAndReopen (comment : string).

Definition run_workflow (self : JiraClient) (issue_key : string) (wk : workflow_kind)
  : M pyval :=
  match wk with
  | ClaimForQA username => claim_for_qa self issue_key username
  | ResolvePass comment => resolve_pass self issue_key comment
  | FailAndReopen comment => fail_and_reopen self issue_key comment
  end.

Definition steps_of (self : JiraClient) (issue_key : string) (wk : workflow_kind)
  : list step :=
  match wk with
  | ClaimForQA username =>
      [ (assign_issue self issue_key username, "assigned");
        (set_validator self issue_key username, "validator_set");
        (set_test_result self issue_key "in_progress", "test_result_in_progress") ]
  | ResolvePass comment =>
      [ (add_comment self issue_key comment, "comment_added");
        (transition_issue self issue_key "resolved", "transitioned_to_resolved");
        (set_test_result self issue_key "pass", "test_result_pass") ]
  | FailAndReopen comment =>
      [ (add_comment self issue_key comment, "comment_added");
        (transition_issue self issue_key "reopened", "transitioned_to_reopened");
        (set_test_result self issue_key "fail", "test_result_fail") ]
  end.

Definition labels_of (wk : workflow_kind) : list string :=
  match wk with
  | ClaimForQA _ => ["assigned"; "validator_set"; "test_result_in_progress"]
  | ResolvePass _ => ["comment_added"; "transitioned_to_resolved"; "test_result_pass"]
  | FailAndReopen _ => ["comment_added"; "transitioned_to_reopened"; "test_result_fail"]
  end.

(** The fields [results] starts with, before its [operations]. *)
Definition identity_of (issue_key : string) (wk : workflow_kind) : pydict :=
  match wk with
  | ClaimForQA username => [("issue_key", VStr issue_key); ("username", VStr username)]
  | _ => [("issue_key", VStr issue_key)]
  end.

(** How many steps complete, from state [w], before the first that raises. *)
Fixpoint completed_steps (steps : list step) (w : world) : nat :=
  match steps with
  | [] => 0
  | (m, label) :: rest =>
      match m w with
      | (Ok _, w') => S (completed_steps rest (snd (operations_append label w')))
      | (Raise _, _) => 0
      end
  end.

(** The operation log held in [results]. *)
Definition operations (w : world) : list pyval :=
  match dict_get "operations" (results w) with
  | Some (VList ops) => ops
  | _ => []
  end.

(** The call each step makes once its validation passes. *)
Definition calls_of (self : JiraClient) (issue_key : string) (wk : workflow_kind)
  : list call :=
  let options := TEST_RESULT_VALUES (config self) in
  let transitions := JIRA_TRANSITIONS (config self) in
  let comment_request comment :=
    Http POST (fstr ["/issue/"; issue_key; "/comment"]) (VDict [("body", VStr comment)]) in
  match wk with
  | ClaimForQA username =>
      [ Http PUT (fstr ["/issue/"; issue_key; "/assignee"]) (VDict [("name", VStr username)]);
        Http PUT (fstr ["/issue/"; issue_key])
             (VDict [("fields",
                      VDict [(validator (JIRA_FIELDS (config self)),
                              VDict [("name", VStr username)])])]);
        test_result_request self issue_key (get_none options "in_progress") ]
  | ResolvePass comment =>
      [ comment_request comment;
        transition_request issue_key (get_none transitions "resolved");
        test_result_request self issue_key (get_none options "pass") ]
  | FailAndReopen comment =>
      [ comment_request comment;
        transition_request issue_key (get_none transitions "reopened");
        test_result_request self issue_key (get_none options "fail") ]
  end.

(** A client method [m] that leaves [results] alone and, when it returns,
    has made the one call [c]. *)
Definition makes_call (m : M pyval) (c : call) : Prop :=
  forall w : world,
    results (snd (m w)) = results w /\
    (succeeded (fst (m w)) = true -> calls (snd (m w)) = calls w ++ [c]).

(** *** Handlers *)

(** The four handlers built on a prompt template. *)
Inductive template_handler : Type :=
| TestCases | CommentSummary | RootCause | ReproductionSteps.

Definition kind_of (h : template_handler) : string :=
  match h with
  | TestCases => "test cases"
  | CommentSummary => "comment summary"
  | RootCause => "root cause analysis"
  | ReproductionSteps => "reproduction steps"
  end.

Definition run_handler (h : template_handler) : Handler -> pydict -> M pyval :=
  match h with
  | TestCases => handle_test_cases
  | CommentSummary => handle_comment_summary
  | RootCause => handle_root_cause
  | ReproductionSteps => handle_reproduction_steps
  end.

(** The [try] block of each. *)
Definition run_handler_body (h : template_handler) : Handler -> pydict -> M pyval :=
  match h with
  | TestCases => handle_test_cases_body
  | CommentSummary => handle_comment_summary_body
  | RootCause => handle_root_cause_body
  | ReproductionSteps => handle_reproduction_steps_body
  end.

(** The prompt a handler builds from the payload alone. *)
Definition prompt_of (h : template_handler) (request_data : pydict) : result string :=
  match h with
  | TestCases => build_test_cases_prompt new_PromptBuilder request_data SENIOR_QA
  | RootCause => build_root_cause_prompt new_PromptBuilder request_data TECHNICAL_LEADER
  | ReproductionSteps =>
      build_reproduction_steps_prompt new_PromptBuilder request_data TECHNICAL_LEADER
  | CommentSummary =>
      build_comment_summary_prompt new_PromptBuilder request_data BUSINESS_ANALYST
  end.

Definition unable_to_generate (kind : string) (ticket_key : pyval) : pyval :=
  VStr (fstr ["Unable to generate "; kind; " for "; py_str ticket_key]).

Definition error_analyzing_epic (request_data : pydict) (e : exn) : pyval :=
  VStr (fstr ["Error analyzing epic "; py_str (epic_key_of request_data); ": "; exn_msg e]).

(** *** Tools *)

(** A result envelope: a dict whose [status] is [success], or is [error]
    with an [error] string. *)
Definition is_envelope (v : pyval) : Prop :=
  exists d,
    v = VDict d /\
    (dict_get "status" d = Some (VStr "success") \/
     (dict_get "status" d = Some (VStr "error") /\
      exists msg, dict_get "error" d = Some (VStr msg))).

(** The tracker tools that wrap their client call in [try]. *)
Inductive guarded_tool : Type :=
| GetIssueDetails (summarize : pyval -> result pyval) (issue_key : string)
| TransitionTicket (issue_key transition : string)
| CreateSubtask (parent_key summary description : string)
| UpdateIssue (issue_key : string) (summary description : option string).

Definition run_tool (p : Process) (t : guarded_tool) : M pyval :=
  match t with
  | GetIssueDetails summarize issue_key => qa_get_issue_details summarize p issue_key
  | TransitionTicket issue_key transition => qa_transition_ticket p issue_key transition
  | CreateSubtask parent_key summary description =>
      qa_create_subtask p parent_key summary description
  | UpdateIssue issue_key summary description =>
      qa_update_issue p issue_key summary description
  end.

(** The client call each of them guards. *)
Definition client_call (jira : JiraClient) (t : guarded_tool) : M pyval :=
  match t with
  | GetIssueDetails summarize issue_key => get_issue_full summarize jira issue_key
  | TransitionTicket issue_key transition => transition_issue jira issue_key transition
  | CreateSubtask parent_key summary description =>
      create_subtask jira parent_key summary description
  | UpdateIssue issue_key summary description =>
      update_issue jira issue_key summary description
  end.

(** The [error] string a guarded tool reports for the exception [e]. *)
Definition reported (t : guarded_tool) (e : exn) : string :=
  match t, exn_cls e with
  | TransitionTicket _ _, ValueError => exn_msg e
  | TransitionTicket _ _, _ => fstr ["Failed to transition: "; exn_msg e]
  | _, _ => exn_msg e
  end.

(** *** Collaborators of the examples *)

(** A comment body of 250 characters. *)
Definition long_body : string := string_of_list_ascii (repeat "x"%char 250).

(** A tracker with 25 stories under the epic, and a model that answers. *)
Definition demo_issues : list pyval :=
  map (fun n => VDict [("key", VStr ("S-" +:+ str_of_nat n))]) (seq 1 25).

Definition demo_tracker : oracle :=
  fun _ c =>
    match c with
    | JiraJql _ => Ok (VDict [("issues", VList demo_issues)])
    | FetchIssueDetails k =>
        Ok (VDict [ ("title", VStr ("Story " +:+ py_str k)); ("status", VStr "Open");
                    ("assigned_teams", VStr "core") ])
    | _ => Raise (Exn Exception "unexpected call")
    end.


Definition demo_model : oracle := fun _ _ => Ok (VStr "analysis").

(** An endpoint that accepts every request, one that refuses every request. *)
Definition always_ok : oracle := fun _ _ => Ok (VDict []).

(** A tracker endpoint that refuses the second request it receives. *)
Definition refuses_second : oracle :=
  fun history _ =>
    match history with
    | [_] => Raise (Exn HTTPError "400 Bad Request")
    | _ => Ok (VDict [])
    end.

Definition refusing : oracle := fun _ _ => Raise (Exn HTTPError "503 Service Unavailable").

(** *** Further vocabulary: prompts *)

(** The lines the context shows for a list of comments, numbered from [i]. *)
Fixpoint comment_lines (i : nat) (cs : list pyval) : string :=
  match cs with
  | [] => EmptyString
  | c :: rest =>
      match comment_body c with
      | Some b => comment_line i c b +:+ comment_lines (S i) rest
      | None => comment_lines (S i) rest
      end
  end.

(** The heading that precedes the comment lines. *)
Definition comments_heading : string := fstr [nl; "**Recent Comments:**"; nl].

(** *** Further vocabulary: handlers *)

(** A comment [summarize_comments] leaves out: not a string, or a string
    that is empty once stripped. *)
Definition blank (c : pyval) : bool :=
  match c with
  | VStr s => String.eqb (strip s) EmptyString
  | _ => true
  end.

(** [fv.get("name", default)] for a fix version that is a dict. *)
Definition fix_version_name (default : string) (fv : pyval) : pyval :=
  match fv with
  | VDict d => get_or d "name" (VStr default)
  | _ => VNone
  end.

(** The ticket data [handle_comment_summary] builds its prompt from. *)
Definition summary_ticket (request_data : pydict) : pydict :=
  [ ("ticketKey", get_or request_data "ticketKey" (VStr EmptyString));
    ("comments", get_or request_data "comments" (VList []));
    ("title", get_or request_data "title" (VStr EmptyString));
    ("description", get_or request_data "description" (VStr EmptyString)) ].

(** What asking the model for [prompt] and stripping its answer gives from
    [w]: the stripped answer (the empty string for an empty one), or the
    exception of the call; the call is logged. *)
Definition ask_and_strip (ai : oracle) (prompt : string) (w : world) : result pyval * world :=
  (match ai (calls w) (AskOpenAI prompt) with
   | Ok r => if truthy r then py_strip r else Ok (VStr EmptyString)
   | Raise e => Raise e
   end,
   World (calls w ++ [AskOpenAI prompt]) (results w)).

(** *** Further vocabulary: epic analysis *)

(** The query epic analysis sends for the issues of an epic. *)
Definition epic_query (request_data : pydict) : call :=
  JiraJql (fstr [String dquote "Epic Link"; String dquote " = ";
                 py_str (epic_key_of request_data)]).

(** The calls one epic analysis may add: none; or the epic query, then at
    most 20 details requests, then at most one model call. *)
Definition epic_call_shape (request_data : pydict) (added : list call) : Prop :=
  added = [] \/
  exists (ks : list pyval) (model : list call),
    added = epic_query request_data :: map FetchIssueDetails ks ++ model /\
    List.length ks <= 20 /\
    (model = [] \/ exists prompt, model = [AskOpenAI prompt]).

(** *** Further vocabulary: creating and updating issues *)

(** The [fields] an update carries: the arguments that are not [None], the
    summary first. *)
Definition update_fields (summary description : option string) : pydict :=
  match summary with Some s => [("summary", VStr s)] | None => [] end ++
  match description with Some s => [("description", VStr s)] | None => [] end.

(** The request that creates an issue with the given [fields]. *)
Definition create_request (fields : pydict) : call :=
  Http POST "/issue" (VDict [("fields", VDict fields)]).

(** What a creation returns for the answer to its POST: the decoded body,
    or [None] when the request raised. *)
Definition created (answer : result pyval) : pyval :=
  match answer with
  | Ok r => r
  | Raise _ => VNone
  end.

(** [parent["fields"]["project"]["key"]] *)
Definition parent_project_key (parent : pyval) : result pyval :=
  fields <~ py_index parent "fields" ;;
  project <~ py_index fields "project" ;;
  py_index project "key".

(** *** Further vocabulary: the model tools of the server *)

(** The six tools of [server.py] that need the model. *)
Inductive ai_tool : Type :=
| GenerateTestCases (issue_key title description : string)
| SummarizeComments (issue_key : string)
| RootCauseAnalysis (issue_key title description : string)
| GenerateReproductionSteps (issue_key title description : string)
| AnalyzeStory (issue_key : string)
| AnalyzeEpic (epic_key primary_team : string).

Definition run_ai_tool (p : Process) (ai : option oracle) (t : ai_tool) : M pyval :=
  match t with
  | GenerateTestCases k title description => qa_generate_test_cases p ai k title description
  | SummarizeComments k => qa_summarize_comments p ai k
  | RootCauseAnalysis k title description => qa_root_cause_analysis p ai k title description
  | GenerateReproductionSteps k title description =>
      qa_generate_reproduction_steps p ai k title description
  | AnalyzeStory k => qa_analyze_story p ai k
  | AnalyzeEpic k primary_team => qa_analyze_epic p ai k primary_team
  end.

(** The tool in front of a template handler other than the comment
    summary, and the key its result is returned under. *)
Definition text_tool_of (h : template_handler)
  : Process -> option oracle -> string -> string -> string -> M pyval :=
  match h with
  | RootCause => qa_root_cause_analysis
  | ReproductionSteps => qa_generate_reproduction_steps
  | _ => qa_generate_test_cases
  end.

Definition result_key_of (h : template_handler) : string :=
  match h with
  | RootCause => "analysis"
  | ReproductionSteps => "steps"
  | _ => "test_cases"
  end.

(** No model call was added between two traces. *)
Definition no_new_model_call (before after : list call) : Prop :=
  forall prompt, In (AskOpenAI prompt) after -> In (AskOpenAI prompt) before.

(** *** Further vocabulary: asking the model *)

(** [k] failed attempts in a row, the first followed by a sleep of
    [delay] seconds, each later one by twice the sleep before. *)
Fixpoint failed_attempts (prompt : string) (k delay : nat) : list AiClient.event :=
  match k with
  | 0 => []
  | S k' => Completion prompt :: Sleep delay :: failed_attempts prompt k' (delay * 2)
  end.

(** The seconds slept and the completion requests made in a trace. *)
Fixpoint slept (trace : list AiClient.event) : nat :=
  match trace with
  | [] => 0
  | Sleep n :: rest => n + slept rest
  | _ :: rest => slept rest
  end.

Fixpoint completions (trace : list AiClient.event) : nat :=
  match trace with
  | [] => 0
  | Completion _ :: rest => S (completions rest)
  | _ :: rest => completions rest
  end.
(* ================================================================== *)
(** ** Properties *)
(* ================================================================== *)

(** *** Substrings *)

Lemma append_nil_r (s : string) : s +:+ EmptyString = s.
Proof. induction s; simpl; congruence. Qed.

Lemma append_assoc (a b c : string) : (a +:+ b) +:+ c = a +:+ b +:+ c.
Proof. induction a; simpl; congruence. Qed.

Lemma is_prefix_append (t b : string) : is_prefix t (t +:+ b) = true.
Proof.
  induction t as [|c t IH]; simpl; [reflexivity|].
  now rewrite Ascii.eqb_refl, IH.
Qed.

Lemma is_prefix_infix (t s : string) : is_prefix t s = true -> is_infix t s = true.
Proof. destruct s; simpl; intros ->; reflexivity. Qed.

Lemma is_infix_append (a t b : string) : is_infix t (a +:+ t +:+ b) = true.
Proof.
  induction a as [|c a IH]; simpl.
  - apply is_prefix_infix, is_prefix_append.
  - rewrite IH. apply orb_true_r.
Qed.

Lemma is_infix_sound (s t : string) : is_infix t s = false -> ~ contains s t.
Proof.
  intros H (a & b & ->). rewrite is_infix_append in H. discriminate.
Qed.

Lemma in_order_cons_contains (p : string) (ps : list string) (s : string) :
  in_order (p :: ps) s -> contains s p.
Proof. intros (a & b & -> & _). now exists a, b. Qed.

(** [fstr] over a cons, to expose one piece at a time. *)
Lemma fstr_cons (p : string) (ps : list string) : fstr (p :: ps) = p +:+ fstr ps.
Proof.
  unfold fstr. destruct ps as [|q ps]; simpl; [now rewrite append_nil_r | reflexivity].
Qed.

Lemma fstr_nil : fstr [] = EmptyString.
Proof. reflexivity. Qed.

(** *** The persona registry *)

Lemma all_personas_complete (p : Persona) : In p all_personas.
Proof. destruct p; simpl; tauto. Qed.

Lemma persona_blocks_distinct (p q : Persona) (c d : persona_context) :
  personas_get _define_personas p = Some c ->
  personas_get _define_personas q = Some d ->
  p <> q ->
  introduction c <> introduction d /\ style_guide c <> style_guide d.
Proof.
  intros Hp Hq Hne.
  destruct p, q; try congruence; vm_compute in Hp, Hq; try discriminate;
    injection Hp as <-; injection Hq as <-; split; intro H; vm_compute in H; discriminate H.
Qed.

(** C4, as stated, fails: the enumeration has nine members and the registry
    has no entry for two of them. *)
Lemma persona_registry_not_total :
  ~ (forall p : Persona, In p all_personas ->
       exists c, personas_get (personas new_PromptBuilder) p = Some c).
Proof.
  intros H. destruct (H SECURITY_ENGINEER (all_personas_complete _)) as [c Hc].
  vm_compute in Hc. discriminate Hc.
Qed.

(** C4 (amended): the enumeration has exactly nine members; the registry
    built by [PromptBuilder()] has entries for seven of them, in the order
    SENIOR_QA, SENIOR_DEV, SENIOR_PO, DEVELOPMENT_TEAM, SCRUM_MASTER,
    BUSINESS_ANALYST, TECHNICAL_LEADER, and none for SECURITY_ENGINEER and
    DEVOPS_ENGINEER; two different registered personas have different
    introductions and different style guides; and the lookup the builder
    performs, [personas.get(persona, personas[SENIOR_QA])], answers for all
    nine, giving an unregistered persona the blocks of SENIOR_QA. *)
Theorem persona_registry_coverage :
  List.length all_personas = 9 /\ NoDup all_personas /\
  (forall p : Persona, In p all_personas) /\
  map fst (personas new_PromptBuilder) =
    [SENIOR_QA; SENIOR_DEV; SENIOR_PO; DEVELOPMENT_TEAM; SCRUM_MASTER;
     BUSINESS_ANALYST; TECHNICAL_LEADER] /\
  (forall p : Persona,
     personas_get (personas new_PromptBuilder) p = None <->
     (p = SECURITY_ENGINEER \/ p = DEVOPS_ENGINEER)) /\
  (forall (p q : Persona) (c d : persona_context),
     personas_get (personas new_PromptBuilder) p = Some c ->
     personas_get (personas new_PromptBuilder) q = Some d ->
     p <> q ->
     introduction c <> introduction d /\ style_guide c <> style_guide d) /\
  (exists qa : persona_context,
     personas_index (personas new_PromptBuilder) SENIOR_QA = Ok qa /\
     forall p : Persona,
       personas_get_or (personas new_PromptBuilder) p qa =
         match personas_get (personas new_PromptBuilder) p with
         | Some c => c
         | None => qa
         end /\
       (registered p = false ->
        personas_get_or (personas new_PromptBuilder) p qa = qa)).
Proof.
  split; [reflexivity|].
  split.
  { repeat constructor; simpl; intuition discriminate. }
  split; [exact all_personas_complete|].
  split; [reflexivity|].
  split.
  { intros p; split.
    - destruct p; intros H; try (vm_compute in H; discriminate H); tauto.
    - intros [-> | ->]; reflexivity. }
  split.
  { intros p q c d. apply persona_blocks_distinct. }
  eexists; split; [reflexivity|].
  intros p; split.
  - unfold personas_get_or. destruct (personas_get _ p); reflexivity.
  - unfold registered, personas_get_or.
    destruct (personas_get _ p); [discriminate | reflexivity].
Qed.

Lemma persona_registry_coverage_witness :
  personas_get (personas new_PromptBuilder) DEVOPS_ENGINEER = None /\
  (exists qa, personas_index (personas new_PromptBuilder) SENIOR_QA = Ok qa /\
              personas_get_or (personas new_PromptBuilder) DEVOPS_ENGINEER qa = qa).
Proof.
  destruct persona_registry_coverage as (_ & _ & _ & _ & Hnone & _ & qa & Hqa & Hall).
  split.
  - apply Hnone. right. reflexivity.
  - exists qa. split; [exact Hqa|]. apply (Hall DEVOPS_ENGINEER). reflexivity.
Defined.

(** *** The prompt builder *)

Lemma in_order_here (p : string) (ps : list string) (b : string) :
  in_order ps b -> in_order (p :: ps) (p +:+ b).
Proof. intros H. exists EmptyString, b. split; [reflexivity | exact H]. Qed.

Lemma in_order_skip (p : string) (ps : list string) (q s : string) :
  in_order (p :: ps) s -> in_order (p :: ps) (q +:+ s).
Proof.
  intros (a & b & -> & H). exists (q +:+ a), b.
  split; [now rewrite append_assoc | exact H].
Qed.

Lemma contains_here (t b : string) : contains (t +:+ b) t.
Proof. now exists EmptyString, b. Qed.

Lemma contains_skip (q s t : string) : contains s t -> contains (q +:+ s) t.
Proof. intros (a & b & ->). exists (q +:+ a), b. now rewrite append_assoc. Qed.

Lemma contains_append_l (s r t : string) : contains s t -> contains (s +:+ r) t.
Proof.
  intros (a & b & ->). exists a, (b +:+ r). now rewrite !append_assoc.
Qed.

(** Splits an [fstr] into its pieces and walks to the wanted ones. *)
Ltac split_fstr := rewrite ?fstr_cons, ?fstr_nil.
Ltac find_in_order :=
  repeat first [ exact I | apply in_order_here | apply in_order_skip ].
Ltac find_contains :=
  repeat first [ apply contains_here | apply contains_skip ].

Lemma five_blocks_in_order (pc : persona_context) (t : template) (c : string) :
  in_order [introduction pc; instructions t; c; output_format t; style_guide pc]
           (five_blocks pc t c).
Proof. unfold five_blocks. split_fstr. find_in_order. Qed.

Lemma default_persona_registered :
  exists qa, personas_index (personas new_PromptBuilder) SENIOR_QA = Ok qa.
Proof. eexists; reflexivity. Qed.

Lemma default_template_registered :
  exists dt, templates_index (templates new_PromptBuilder) "default" = Ok dt.
Proof. eexists; reflexivity. Qed.

(** With the registries of [PromptBuilder()], the [try] block fails only
    where the ticket context fails. *)
Lemma build_analysis_prompt_body_eq
      (td : pydict) (analysis_type : string) (p : Persona) (ctx : option pydict) :
  exists pc t,
    (forall c, personas_get (personas new_PromptBuilder) p = Some c -> pc = c) /\
    (forall x, templates_get (templates new_PromptBuilder) analysis_type = Some x -> t = x) /\
    build_analysis_prompt_body new_PromptBuilder td analysis_type p ctx =
      (c <~ _format_ticket_context td ctx ;; Ok (five_blocks pc t c)).
Proof.
  destruct default_persona_registered as [qa Hqa].
  destruct default_template_registered as [dt Hdt].
  exists (personas_get_or (personas new_PromptBuilder) p qa),
         (templates_get_or (templates new_PromptBuilder) analysis_type dt).
  split; [|split].
  - intros c Hc. unfold personas_get_or. now rewrite Hc.
  - intros x Hx. unfold templates_get_or. now rewrite Hx.
  - unfold build_analysis_prompt_body. rewrite Hqa, Hdt. reflexivity.
Qed.

Lemma enumerate_comments_extends (items : list pyval) :
  forall (i : nat) (acc out : string),
    enumerate_comments i items acc = Ok out -> exists rest, out = acc +:+ rest.
Proof.
  induction items as [|c items IH]; intros i acc out H; cbn [enumerate_comments] in H.
  - injection H as <-. exists EmptyString. now rewrite append_nil_r.
  - destruct (format_comment i c) as [line|e]; cbn [rbind] in H; [|discriminate].
    apply IH in H. destruct H as [rest ->]. exists (line +:+ rest).
    now rewrite append_assoc.
Qed.

(** The ticket context always starts with the ticket-information header. *)
Lemma format_ticket_context_header (td : pydict) (ctx : option pydict) (c : string) :
  _format_ticket_context td ctx = Ok c ->
  exists rest, c = ticket_information td +:+ rest.
Proof.
  unfold _format_ticket_context.
  destruct (truthy (get_or td "comments" (VList []))).
  - destruct (py_take_items 3 _) as [items|e]; cbn [rbind]; [|discriminate].
    intros H. apply enumerate_comments_extends in H. destruct H as [rest ->].
    eexists. rewrite append_assoc. reflexivity.
  - intros H. injection H as <-. exists EmptyString. now rewrite append_nil_r.
Qed.

Lemma ticket_information_has_key (td : pydict) :
  in_order ["- **Key:** "; py_str (get_or td "ticketKey" (VStr "Unknown"))]
           (ticket_information td).
Proof. unfold ticket_information. split_fstr. find_in_order. Qed.

Lemma fallback_has_key_and_label (td : pydict) (analysis_type : string) :
  in_order [analysis_type; py_str (get_or td "ticketKey" (VStr "Unknown")); analysis_type]
           (_get_fallback_prompt td analysis_type).
Proof. unfold _get_fallback_prompt. split_fstr. find_in_order. Qed.

(** C3, as stated, fails: a ticket with only its key gets the regular
    five-block prompt, not the fallback prompt, and the regular prompt does
    not carry the analysis-type label. *)
Lemma minimal_ticket_not_fallback :
  let td := [("ticketKey", VStr "T-1")] in
  exists out,
    build_analysis_prompt new_PromptBuilder td "test-cases" SENIOR_QA None = Ok out /\
    out <> _get_fallback_prompt td "test-cases" /\
    ~ contains out "test-cases".
Proof.
  eexists. split; [reflexivity|]. split.
  - intros H. vm_compute in H. discriminate H.
  - apply is_infix_sound. vm_compute. reflexivity.
Qed.

(** C3 (amended): [build_analysis_prompt] never raises, for any ticket-data
    dictionary, analysis type, persona and extra context.  When its [try]
    block raises, the result is the fallback prompt, which contains the
    analysis-type label, then the ticket key, then the label again, and
    which depends on the ticket data only through the ticket key, title
    and description.  A ticket that has only its key does not take the
    fallback: it yields the regular five-block prompt, whose ticket context
    shows the key and the defaults [No title provided], [story] and
    [No description available]. *)
Theorem build_analysis_prompt_never_raises
        (td : pydict) (analysis_type : string) (p : Persona) (ctx : option pydict) :
  (exists out, build_analysis_prompt new_PromptBuilder td analysis_type p ctx = Ok out) /\
  (forall e,
     build_analysis_prompt_body new_PromptBuilder td analysis_type p ctx = Raise e ->
     build_analysis_prompt new_PromptBuilder td analysis_type p ctx =
       Ok (_get_fallback_prompt td analysis_type) /\
     in_order [analysis_type; py_str (get_or td "ticketKey" (VStr "Unknown")); analysis_type]
              (_get_fallback_prompt td analysis_type) /\
     (forall td',
        dict_get "ticketKey" td' = dict_get "ticketKey" td ->
        dict_get "title" td' = dict_get "title" td ->
        dict_get "description" td' = dict_get "description" td ->
        _get_fallback_prompt td' analysis_type = _get_fallback_prompt td analysis_type)) /\
  (forall k,
     td = [("ticketKey", k)] ->
     exists pc t,
       build_analysis_prompt new_PromptBuilder td analysis_type p ctx =
         Ok (five_blocks pc t (ticket_information td)) /\
       ticket_information td =
         fstr [ nl; "**Ticket Information:**"; nl;
                "- **Key:** "; py_str k; nl;
                "- **Title:** No title provided"; nl;
                "- **Type:** story"; nl;
                "- **Description:** No description available"; nl ] /\
       contains (ticket_information td) (py_str k)).
Proof.
  split; [|split].
  - unfold build_analysis_prompt.
    destruct (build_analysis_prompt_body _ _ _ _ _); simpl; eauto.
  - intros e He. split; [|split].
    + unfold build_analysis_prompt. rewrite He. reflexivity.
    + apply fallback_has_key_and_label.
    + intros td' Hk Ht Hd. unfold _get_fallback_prompt, get_or.
      rewrite Hk, Ht, Hd. reflexivity.
  - intros k ->.
    destruct (build_analysis_prompt_body_eq [("ticketKey", k)] analysis_type p ctx)
      as (pc & t & _ & _ & Hbody).
    exists pc, t. split; [|split].
    + unfold build_analysis_prompt. rewrite Hbody. reflexivity.
    + reflexivity.
    + unfold ticket_information. split_fstr. simpl get_or. find_contains.
Qed.

Lemma build_analysis_prompt_never_raises_witness :
  let td := [("ticketKey", VStr "T-1"); ("comments", VList [VStr "LGTM"])] in
  build_analysis_prompt new_PromptBuilder td "root-cause-analysis" TECHNICAL_LEADER None =
    Ok (_get_fallback_prompt td "root-cause-analysis") /\
  (exists pc t,
     build_analysis_prompt new_PromptBuilder [("ticketKey", VStr "T-1")]
       "root-cause-analysis" TECHNICAL_LEADER None =
       Ok (five_blocks pc t (ticket_information [("ticketKey", VStr "T-1")]))).
Proof.
  split.
  - apply (build_analysis_prompt_never_raises
             [("ticketKey", VStr "T-1"); ("comments", VList [VStr "LGTM"])]
             "root-cause-analysis" TECHNICAL_LEADER None)
      with (e := attribute_error (VStr "LGTM") "get").
    reflexivity.
  - destruct (build_analysis_prompt_never_raises
                [("ticketKey", VStr "T-1")] "root-cause-analysis" TECHNICAL_LEADER None)
      as (_ & _ & H).
    destruct (H (VStr "T-1") eq_refl) as (pc & t & Hout & _).
    exists pc, t. exact Hout.
Defined.

(** C7, as stated, fails: for a registered pair and a ticket whose comments
    are plain strings, formatting the context raises and the fallback
    prompt is returned, which does not contain the persona introduction. *)
Lemma malformed_comments_lose_blocks :
  let td := [("ticketKey", VStr "T-1"); ("comments", VList [VStr "LGTM"])] in
  exists pc t out,
    personas_get (personas new_PromptBuilder) SENIOR_QA = Some pc /\
    templates_get (templates new_PromptBuilder) "test-cases" = Some t /\
    build_analysis_prompt new_PromptBuilder td "test-cases" SENIOR_QA None = Ok out /\
    out = _get_fallback_prompt td "test-cases" /\
    ~ contains out (introduction pc) /\
    (forall c, ~ in_order [introduction pc; instructions t; c;
                           output_format t; style_guide pc] out).
Proof.
  do 3 eexists. split; [reflexivity|]. split; [reflexivity|]. split; [reflexivity|].
  split; [reflexivity|].
  match goal with
  | |- ~ contains ?o ?i /\ _ =>
      assert (Hno : ~ contains o i) by (apply is_infix_sound; vm_compute; reflexivity)
  end.
  split; [exact Hno|].
  intros c H. apply in_order_cons_contains in H. exact (Hno H).
Qed.

(** *** Comments in the ticket context *)

Lemma str_take_prefix (n : nat) (s : string) : exists r, s = str_take n s +:+ r.
Proof.
  unfold str_take. revert n. induction s as [|c s IH]; intros n.
  - exists EmptyString. destruct n; reflexivity.
  - destruct n as [|n]; simpl.
    + eexists; reflexivity.
    + destruct (IH n) as [r Hr]. exists r. now rewrite <- Hr.
Qed.

Lemma str_take_length (n : nat) (s : string) :
  n <= String.length s -> String.length (str_take n s) = n.
Proof.
  unfold str_take. revert n. induction s as [|c s IH]; intros n Hn; simpl in Hn.
  - assert (n = 0) as -> by lia. reflexivity.
  - destruct n as [|n]; simpl; [reflexivity|]. rewrite IH; [reflexivity | lia].
Qed.

Lemma format_comment_wf (i : nat) (c : pyval) (b : string) :
  comment_body c = Some b -> format_comment i c = Ok (comment_line i c b).
Proof.
  unfold comment_body, format_comment, comment_line, shown_body.
  destruct c as [| | | |l|d]; try discriminate.
  cbn [py_get rbind comment_author].
  destruct (get_or d "content" (VStr EmptyString)) as [| | |s| |]; try discriminate.
  intros H. injection H as ->. cbn [py_len rbind].
  destruct (Nat.ltb 200 (String.length b)); reflexivity.
Qed.

Lemma enumerate_comments_wf (items : list pyval) :
  forall (i : nat) (acc : string),
    forallb is_comment items = true ->
    exists out, enumerate_comments i items acc = Ok out.
Proof.
  induction items as [|c items IH]; intros i acc H; cbn [enumerate_comments].
  - now exists acc.
  - cbn [forallb] in H. apply andb_true_iff in H. destruct H as [Hc Hrest].
    unfold is_comment in Hc. destruct (comment_body c) as [b|] eqn:Hb; [|discriminate].
    rewrite (format_comment_wf i c b Hb). cbn [rbind]. now apply IH.
Qed.

Lemma format_ticket_context_wf (td : pydict) (ctx : option pydict) :
  comments_well_formed td = true -> exists c, _format_ticket_context td ctx = Ok c.
Proof.
  unfold comments_well_formed, _format_ticket_context.
  destruct (get_or td "comments" (VList [])) as [|b|z|s|cs|d]; cbn [truthy negb];
    intros H; try rewrite (negb_true_iff _) in H; try rewrite H; eauto; try discriminate.
  destruct cs as [|c cs]; [eauto|].
  cbn [py_take_items rbind]. now apply enumerate_comments_wf.
Qed.

(** C7 (amended): for any persona and template that the registry defines
    and any ticket data whose ticket context formats without raising, the
    prompt is exactly the persona introduction, the template instructions,
    the ticket context, the template output format and the persona style
    guide, in this order and separated by blank lines, and the ticket
    context starts with the ticket-information header, which shows the
    ticket key.  The context formats without raising whenever the ticket
    has no comments or its first three comments are dicts whose content is
    a string or absent.  When formatting raises, the fallback prompt is
    returned instead. *)
Theorem analysis_prompt_blocks_in_order
        (p : Persona) (analysis_type : string) (pc : persona_context) (t : template)
        (td : pydict) (ctx : option pydict) :
  personas_get (personas new_PromptBuilder) p = Some pc ->
  templates_get (templates new_PromptBuilder) analysis_type = Some t ->
  (forall c,
     _format_ticket_context td ctx = Ok c ->
     build_analysis_prompt new_PromptBuilder td analysis_type p ctx =
       Ok (five_blocks pc t c) /\
     in_order [introduction pc; instructions t; c; output_format t; style_guide pc]
              (five_blocks pc t c) /\
     (exists rest, c = ticket_information td +:+ rest) /\
     in_order ["- **Key:** "; py_str (get_or td "ticketKey" (VStr "Unknown"))] c) /\
  (comments_well_formed td = true -> exists c, _format_ticket_context td ctx = Ok c) /\
  (forall e,
     _format_ticket_context td ctx = Raise e ->
     build_analysis_prompt new_PromptBuilder td analysis_type p ctx =
       Ok (_get_fallback_prompt td analysis_type)).
Proof.
  intros Hp Ht.
  destruct (build_analysis_prompt_body_eq td analysis_type p ctx)
    as (pc' & t' & Hpc & Htt & Hbody).
  rewrite (Hpc _ Hp), (Htt _ Ht) in Hbody.
  split; [|split].
  - intros c Hc. rewrite Hc in Hbody.
    split; [|split; [|split]].
    + unfold build_analysis_prompt. rewrite Hbody. reflexivity.
    + apply five_blocks_in_order.
    + apply (format_ticket_context_header td ctx c Hc).
    + destruct (format_ticket_context_header td ctx c Hc) as [rest ->].
      destruct (ticket_information_has_key td) as (a & b & E & a' & b' & E' & _).
      rewrite E, E'.
      exists a, (a' +:+ py_str (get_or td "ticketKey" (VStr "Unknown")) +:+ b' +:+ rest).
      split; [now rewrite !append_assoc|].
      exists a', (b' +:+ rest). split; [reflexivity | exact I].
  - apply format_ticket_context_wf.
  - intros e He. rewrite He in Hbody.
    unfold build_analysis_prompt. rewrite Hbody. reflexivity.
Qed.

Lemma analysis_prompt_blocks_in_order_witness :
  let td := [ ("ticketKey", VStr "TEST-123"); ("title", VStr "Login fails");
              ("comments", VList [VDict [("author", VStr "alice"); ("content", VStr "LGTM")]]) ] in
  exists pc t c,
    build_analysis_prompt new_PromptBuilder td "test-cases" SENIOR_QA None =
      Ok (five_blocks pc t c) /\
    in_order ["- **Key:** "; "TEST-123"] c.
Proof.
  intros td.
  destruct (analysis_prompt_blocks_in_order SENIOR_QA "test-cases" _ _ td None
              eq_refl eq_refl) as (Hblocks & Hwf & _).
  destruct (Hwf eq_refl) as [c Hc].
  destruct (Hblocks c Hc) as (Hout & _ & _ & Hkey).
  do 3 eexists. split; [exact Hout | exact Hkey].
Defined.

(** *** The first three comments *)

(** C8: when a ticket has more than three comments and the first three are
    well-formed, the ticket context is the ticket-information header, the
    [Recent Comments] heading and one line for each of the first three
    comments, in their order, and nothing for the others; a body of more
    than 200 characters is shown as its first 200 characters followed by
    [...], a body of at most 200 characters is shown as it is. *)
Theorem first_three_comments_truncated
        (td : pydict) (ctx : option pydict) (cs : list pyval) :
  dict_get "comments" td = Some (VList cs) ->
  3 < List.length cs ->
  (forall c, In c (firstn 3 cs) -> exists b, comment_body c = Some b) ->
  exists c1 c2 c3 b1 b2 b3,
    firstn 3 cs = [c1; c2; c3] /\
    comment_body c1 = Some b1 /\ comment_body c2 = Some b2 /\ comment_body c3 = Some b3 /\
    _format_ticket_context td ctx =
      Ok (ticket_information td +:+ fstr [nl; "**Recent Comments:**"; nl] +:+
          comment_line 1 c1 b1 +:+ comment_line 2 c2 b2 +:+ comment_line 3 c3 b3) /\
    (forall i c b, in_order [comment_author c; shown_body b] (comment_line i c b)) /\
    (forall b, String.length b <= 200 -> shown_body b = b) /\
    (forall b, 200 < String.length b ->
       shown_body b = str_take 200 b +:+ "..." /\
       String.length (str_take 200 b) = 200 /\
       exists r, b = str_take 200 b +:+ r).
Proof.
  intros Hcs Hlen Hwf.
  destruct cs as [|c1 [|c2 [|c3 [|c4 cs]]]]; simpl in Hlen; try lia.
  cbn [firstn] in Hwf.
  destruct (Hwf c1) as [b1 H1]; [simpl; tauto|].
  destruct (Hwf c2) as [b2 H2]; [simpl; tauto|].
  destruct (Hwf c3) as [b3 H3]; [simpl; tauto|].
  exists c1, c2, c3, b1, b2, b3.
  repeat (split; [reflexivity || assumption|]).
  split; [|split; [|split]].
  - unfold _format_ticket_context, get_or. rewrite Hcs.
    cbn [truthy py_take_items firstn rbind enumerate_comments].
    rewrite (format_comment_wf 1 c1 b1 H1). cbn [rbind].
    rewrite (format_comment_wf 2 c2 b2 H2). cbn [rbind].
    rewrite (format_comment_wf 3 c3 b3 H3). cbn [rbind].
    now rewrite !append_assoc.
  - intros i c b. unfold comment_line. split_fstr. find_in_order.
  - intros b Hb. unfold shown_body.
    destruct (Nat.ltb_spec 200 (String.length b)); [lia | reflexivity].
  - intros b Hb. split; [|split].
    + unfold shown_body.
      destruct (Nat.ltb_spec 200 (String.length b)); [reflexivity | lia].
    + apply str_take_length. lia.
    + apply str_take_prefix.
Qed.

Lemma first_three_comments_truncated_witness :
  let comment a b := VDict [("author", VStr a); ("content", VStr b)] in
  let cs := [comment "ann" "first"; comment "bob" long_body; comment "cy" "third";
             comment "dan" "fourth"] in
  _format_ticket_context [("ticketKey", VStr "T-1"); ("comments", VList cs)] None =
    Ok (ticket_information [("ticketKey", VStr "T-1")] +:+
        fstr [nl; "**Recent Comments:**"; nl] +:+
        fstr ["1. ann: first"; nl] +:+
        fstr ["2. bob: "; string_of_list_ascii (repeat "x"%char 200); "..."; nl] +:+
        fstr ["3. cy: third"; nl]).
Proof.
  intros comment cs.
  destruct (first_three_comments_truncated
              [("ticketKey", VStr "T-1"); ("comments", VList cs)] None cs)
    as (c1 & c2 & c3 & b1 & b2 & b3 & Hf & H1 & H2 & H3 & Hout & _).
  - reflexivity.
  - simpl. lia.
  - intros c [<- | [<- | [<- | []]]]; eexists; reflexivity.
  - rewrite Hout. injection Hf as <- <- <-.
    injection H1 as <-. injection H2 as <-. injection H3 as <-.
    vm_compute. reflexivity.
Defined.

Lemma world_eta (w : world) : World (calls w) (results w) = w.
Proof. destruct w; reflexivity. Qed.

(** *** Epic analysis *)


Lemma join_cons2 (sep x y : string) (l : list string) :
  join sep (x :: y :: l) = x +:+ sep +:+ join sep (y :: l).
Proof. reflexivity. Qed.







(** *** Validation in the tracker client *)

Lemma dict_get_none (k : string) (d : pydict) :
  dict_get k d = None <-> ~ In k (keys d).
Proof.
  induction d as [|[k' v] d IH]; simpl.
  - tauto.
  - destruct (String.eqb_spec k k') as [->|Hne].
    + split; [discriminate | tauto].
    + rewrite IH. split; [intros H [E|H']; [congruence | tauto] | tauto].
Qed.

Lemma contains_join (sep x : string) (l : list string) :
  In x l -> contains (join sep l) x.
Proof.
  induction l as [|y [|z l] IH]; intros Hin.
  - destruct Hin.
  - destruct Hin as [->|[]]. exists EmptyString, EmptyString. simpl. now rewrite append_nil_r.
  - rewrite join_cons2. destruct Hin as [->|Hin].
    + apply contains_here.
    + do 2 apply contains_skip. now apply IH.
Qed.

(** Every key of a table occurs, as Python prints it, in the printed list
    of its keys. *)
Lemma keys_listed (d : pydict) (k : string) :
  In k (keys d) -> contains (py_repr (VList (map VStr (keys d)))) (repr_str k).
Proof.
  intros Hin. cbn [py_repr]. rewrite map_map. cbn [py_repr].
  apply contains_skip, contains_append_l, contains_join.
  apply in_map_iff. now exists k.
Qed.

(** C6: a test result whose lowercase form is not a key of the configured
    table makes [set_test_result] raise [ValueError] with no call made and
    a message that lists the configured keys; a transition name whose
    lowercase form is not a configured name makes [transition_issue] raise
    likewise, listing the configured names.  With the tables of
    [config_example.py] the first message lists the five values pass, fail,
    in_progress, blocked, not_tested. *)
Theorem invalid_values_fail_before_any_call
        (self : JiraClient) (issue_key value : string) (w : world) :
  (~ In (lower value) (keys (TEST_RESULT_VALUES (config self))) ->
   set_test_result self issue_key value w =
     (Raise (Exn ValueError
               (fstr [ "Invalid test result: "; value; ". Must be one of ";
                       py_repr (VList (map VStr (keys (TEST_RESULT_VALUES (config self))))) ])),
      w) /\
   forall k, In k (keys (TEST_RESULT_VALUES (config self))) ->
             contains (exn_msg (invalid_test_result (config self) value)) (repr_str k)) /\
  (~ In (lower value) (keys (JIRA_TRANSITIONS (config self))) ->
   transition_issue self issue_key value w =
     (Raise (Exn ValueError
               (fstr [ "Unknown transition: "; value; ". "; "Must be one of ";
                       py_repr (VList (map VStr (keys (JIRA_TRANSITIONS (config self))))) ])),
      w) /\
   forall k, In k (keys (JIRA_TRANSITIONS (config self))) ->
             contains (exn_msg (unknown_transition (config self) value)) (repr_str k)) /\
  exn_msg (invalid_test_result config_example "maybe") =
    "Invalid test result: maybe. Must be one of ['pass', 'fail', 'in_progress', 'blocked', 'not_tested']" /\
  exn_msg (unknown_transition config_example "merge") =
    "Unknown transition: merge. Must be one of ['backlog', 'open', 'in_progress', 'resolved', 'closed', 'reopened']".
Proof.
  split; [|split; [|split; reflexivity]].
  - intros Hnot. apply dict_get_none in Hnot. split.
    + unfold set_test_result. rewrite Hnot. reflexivity.
    + intros k Hk. unfold invalid_test_result. cbn [exn_msg]. split_fstr.
      do 3 apply contains_skip. apply contains_append_l. now apply keys_listed.
  - intros Hnot. apply dict_get_none in Hnot. split.
    + unfold transition_issue, get_none, get_or. rewrite Hnot. reflexivity.
    + intros k Hk. unfold unknown_transition. cbn [exn_msg]. split_fstr.
      do 4 apply contains_skip. apply contains_append_l. now apply keys_listed.
Qed.

Lemma invalid_values_fail_before_any_call_witness :
  set_test_result (MkJira config_example always_ok) "TEST-123" "maybe" (World [] []) =
    (Raise (Exn ValueError
       "Invalid test result: maybe. Must be one of ['pass', 'fail', 'in_progress', 'blocked', 'not_tested']"),
     World [] []) /\
  transition_issue (MkJira config_example always_ok) "TEST-123" "merge" (World [] []) =
    (Raise (Exn ValueError
       "Unknown transition: merge. Must be one of ['backlog', 'open', 'in_progress', 'resolved', 'closed', 'reopened']"),
     World [] []).
Proof.
  split.
  - refine (proj1 (proj1 (invalid_values_fail_before_any_call
                            (MkJira config_example always_ok) "TEST-123" "maybe" (World [] []))
                         _)).
    vm_compute. intuition discriminate.
  - refine (proj1 (proj1 (proj2 (invalid_values_fail_before_any_call
                                   (MkJira config_example always_ok) "TEST-123" "merge"
                                   (World [] [])))
                         _)).
    vm_compute. intuition discriminate.
Defined.

(** *** Case-insensitive validation *)

Lemma lower_char_idempotent (c : ascii) : lower_char (lower_char c) = lower_char c.
Proof. destruct c as [[] [] [] [] [] [] [] []]; reflexivity. Qed.

Lemma lower_idempotent (s : string) : lower (lower s) = lower s.
Proof.
  induction s as [|c s IH]; simpl; [reflexivity|].
  now rewrite lower_char_idempotent, IH.
Qed.

(** C10, as stated, fails for transitions: a name configured with an empty
    identifier is a key of the table, yet [transition_issue] rejects it, in
    any spelling, before any call. *)
Lemma empty_transition_id_rejected :
  let cfg := MkConfig (JIRA_FIELDS config_example) [("resolved", VStr EmptyString)] [] in
  In (lower "Resolved") (keys (JIRA_TRANSITIONS cfg)) /\
  transition_issue (MkJira cfg always_ok) "TEST-123" "Resolved" (World [] []) =
    (Raise (Exn ValueError "Unknown transition: Resolved. Must be one of ['resolved']"),
     World [] []) /\
  transition_issue (MkJira cfg always_ok) "TEST-123" "resolved" (World [] []) =
    (Raise (Exn ValueError "Unknown transition: resolved. Must be one of ['resolved']"),
     World [] []).
Proof. split; [left; reflexivity | split; reflexivity]. Qed.

(** C10 (amended): two inputs with the same lowercase form get the same
    validation outcome, the same request and the same success or failure
    from [set_test_result], and likewise from [transition_issue]; in
    particular an input behaves as its lowercase form.  An input whose
    lowercase form is a configured test-result key passes validation and
    the option configured for that key is sent.  An input whose lowercase
    form is a configured transition name passes validation, and the
    configured identifier is sent, when that identifier is not empty (not
    falsy); a name configured with an empty identifier is rejected as an
    unknown transition, with no call made. *)
Theorem validation_case_insensitive
        (self : JiraClient) (issue_key a b : string) (w : world) :
  lower a = lower b ->
  lower (lower a) = lower a /\
  (calls (snd (set_test_result self issue_key a w)) =
     calls (snd (set_test_result self issue_key b w)) /\
   succeeded (fst (set_test_result self issue_key a w)) =
     succeeded (fst (set_test_result self issue_key b w))) /\
  (calls (snd (transition_issue self issue_key a w)) =
     calls (snd (transition_issue self issue_key b w)) /\
   succeeded (fst (transition_issue self issue_key a w)) =
     succeeded (fst (transition_issue self issue_key b w))) /\
  (forall v,
     dict_get (lower a) (TEST_RESULT_VALUES (config self)) = Some v ->
     calls (snd (set_test_result self issue_key a w)) =
       calls w ++ [test_result_request self issue_key v]) /\
  (forall id,
     dict_get (lower a) (JIRA_TRANSITIONS (config self)) = Some id ->
     (truthy id = true ->
      calls (snd (transition_issue self issue_key a w)) =
        calls w ++ [transition_request issue_key id]) /\
     (truthy id = false ->
      transition_issue self issue_key a w =
        (Raise (unknown_transition (config self) a), w))).
Proof.
  intros Hab. split; [apply lower_idempotent|].
  split; [|split; [|split]].
  - unfold set_test_result. rewrite Hab.
    destruct (dict_get (lower b) _) as [v|]; [|split; reflexivity].
    unfold bind, perform, ret.
    destruct (http self (calls w) _); split; reflexivity.
  - unfold transition_issue. rewrite Hab.
    destruct (truthy _); cbn [negb]; [|split; reflexivity].
    unfold bind, perform, ret.
    destruct (http self (calls w) _); split; reflexivity.
  - intros v Hv. unfold set_test_result, test_result_request. rewrite Hv.
    unfold bind, perform, ret.
    destruct (http self (calls w) _); reflexivity.
  - intros id Hid. unfold transition_issue, transition_request, get_none, get_or.
    rewrite Hid. split; intros ->; cbn [negb]; [|reflexivity].
    unfold bind, perform, ret.
    destruct (http self (calls w) _); reflexivity.
Qed.

Lemma validation_case_insensitive_witness :
  calls (snd (set_test_result (MkJira config_example always_ok) "TEST-123" "In_Progress"
                (World [] []))) =
    [Http PUT "/issue/TEST-123"
       (VDict [("fields", VDict [("customfield_XXXXX", VDict [("id", VStr "XXXXX")])])])] /\
  calls (snd (transition_issue (MkJira config_example always_ok) "TEST-123" "ReOpened"
                (World [] []))) =
    [Http POST "/issue/TEST-123/transitions"
       (VDict [("transition", VDict [("id", VStr "XXX")])])].
Proof.
  destruct (validation_case_insensitive (MkJira config_example always_ok) "TEST-123"
              "In_Progress" "in_progress" (World [] []) eq_refl)
    as (_ & _ & _ & Hset & _).
  destruct (validation_case_insensitive (MkJira config_example always_ok) "TEST-123"
              "ReOpened" "reopened" (World [] []) eq_refl)
    as (_ & _ & _ & _ & Htr).
  split.
  - apply (Hset (VDict [("id", VStr "XXXXX")])). reflexivity.
  - apply (Htr (VStr "XXX")); reflexivity.
Defined.

(** *** Workflows and their operation log *)

Lemma dict_get_set_same (k : string) (v : pyval) (d : pydict) :
  dict_get k (dict_set k v d) = Some v.
Proof.
  induction d as [|[k' v'] d IH]; simpl.
  - now rewrite String.eqb_refl.
  - destruct (String.eqb_spec k k') as [->|Hne]; simpl.
    + now rewrite String.eqb_refl.
    + destruct (String.eqb_spec k k'); [congruence | exact IH].
Qed.

Lemma dict_set_twice (k : string) (v v' : pyval) (d : pydict) :
  dict_set k v (dict_set k v' d) = dict_set k v d.
Proof.
  induction d as [|[k' x] d IH]; simpl.
  - now rewrite String.eqb_refl.
  - destruct (String.eqb_spec k k') as [->|Hne]; simpl.
    + now rewrite String.eqb_refl.
    + destruct (String.eqb_spec k k'); [congruence | now rewrite IH].
Qed.

Lemma dict_set_same (k : string) (v : pyval) (d : pydict) :
  dict_get k d = Some v -> dict_set k v d = d.
Proof.
  induction d as [|[k' x] d IH]; simpl; [discriminate|].
  destruct (String.eqb_spec k k') as [->|Hne].
  - intros H. injection H as ->. reflexivity.
  - intros H. now rewrite IH.
Qed.

Lemma operations_append_run (label : string) (w : world) (ops : list pyval) :
  dict_get "operations" (results w) = Some (VList ops) ->
  operations_append label w =
    (Ok tt, World (calls w) (dict_set "operations" (VList (ops ++ [VStr label])) (results w))).
Proof.
  intros H. unfold operations_append, bind, get_results. rewrite H. reflexivity.
Qed.

Ltac run_client :=
  intros w; unfold bind, perform, ret, raise, lift, get_none, get_or;
  repeat match goal with
         | |- context [match ?x with _ => _ end] =>
             destruct x; cbn [fst snd results calls succeeded negb]
         end;
  (split; [reflexivity | first [discriminate | reflexivity]]).

Lemma assign_issue_call self k u :
  makes_call (assign_issue self k u)
    (Http PUT (fstr ["/issue/"; k; "/assignee"]) (VDict [("name", VStr u)])).
Proof. unfold assign_issue. run_client. Qed.

Lemma set_validator_call self k u :
  makes_call (set_validator self k u)
    (Http PUT (fstr ["/issue/"; k])
       (VDict [("fields",
                VDict [(validator (JIRA_FIELDS (config self)), VDict [("name", VStr u)])])])).
Proof. unfold set_validator. run_client. Qed.

Lemma set_test_result_call self k r :
  makes_call (set_test_result self k r)
    (test_result_request self k (get_none (TEST_RESULT_VALUES (config self)) (lower r))).
Proof. unfold set_test_result, test_result_request. run_client. Qed.

Lemma add_comment_call self k c :
  makes_call (add_comment self k c)
    (Http POST (fstr ["/issue/"; k; "/comment"]) (VDict [("body", VStr c)])).
Proof. unfold add_comment. run_client. Qed.

Lemma transition_issue_call self k t :
  makes_call (transition_issue self k t)
    (transition_request k (get_none (JIRA_TRANSITIONS (config self)) (lower t))).
Proof. unfold transition_issue, transition_request. run_client. Qed.

Lemma steps_make_calls self k wk :
  Forall2 (fun (s : step) c => makes_call (fst s) c) (steps_of self k wk) (calls_of self k wk).
Proof.
  destruct wk; cbn [steps_of calls_of];
    (constructor; [|constructor; [|constructor; [|constructor]]]); cbn [fst].
  - exact (assign_issue_call _ _ _).
  - exact (set_validator_call _ _ _).
  - exact (set_test_result_call self k "in_progress").
  - exact (add_comment_call _ _ _).
  - exact (transition_issue_call self k "resolved").
  - exact (set_test_result_call self k "pass").
  - exact (add_comment_call _ _ _).
  - exact (transition_issue_call self k "reopened").
  - exact (set_test_result_call self k "fail").
Qed.

(** Running the steps from a state whose log is [ops]: the log grows by the
    entries of the steps that completed; either all completed, each having
    made its call, and [k] runs next, or the first failing step's exception
    ends the run. *)
Lemma run_steps_log (k : M pyval) (steps : list step) :
  forall (cs : list call) (w : world) (ops : list pyval),
    Forall2 (fun (s : step) c => makes_call (fst s) c) steps cs ->
    dict_get "operations" (results w) = Some (VList ops) ->
    let n := completed_steps steps w in
    let logged := dict_set "operations"
                    (VList (ops ++ map VStr (firstn n (map snd steps)))) (results w) in
    (n = List.length steps /\
     exists w1, results w1 = logged /\ calls w1 = calls w ++ cs /\
                run_steps steps k w = k w1) \/
    (n < List.length steps /\
     exists e w1, results w1 = logged /\ run_steps steps k w = (Raise e, w1)).
Proof.
  induction steps as [|[m label] steps IH]; intros cs w ops Hq Hops.
  - inversion Hq; subst.
    left. split; [reflexivity|]. exists w. split; [|split; [|reflexivity]].
    + cbn. rewrite app_nil_r. symmetry. now apply dict_set_same.
    + now rewrite app_nil_r.
  - inversion Hq as [|? c ? cs' Hm Hq']; subst. cbn [fst] in Hm.
    cbn [completed_steps run_steps fold_right fst snd List.length map].
    fold (run_steps steps k).
    destruct (Hm w) as [Hres Hcall]. clear Hm.
    destruct (m w) as [[a|e] w1] eqn:Em; cbn [fst snd succeeded] in Hres, Hcall.
    + assert (Hops1 : dict_get "operations" (results w1) = Some (VList ops))
        by now rewrite Hres.
      set (w2 := World (calls w1)
                   (dict_set "operations" (VList (ops ++ [VStr label])) (results w1))).
      assert (Hstep : (m ;; operations_append label ;; run_steps steps k) w =
                      run_steps steps k w2).
      { unfold bind at 1. rewrite Em. unfold bind at 1.
        rewrite (operations_append_run label w1 ops Hops1). reflexivity. }
      rewrite Hstep, (operations_append_run label w1 ops Hops1). cbn [snd]. fold w2.
      assert (Hlog : forall n,
                 dict_set "operations"
                   (VList ((ops ++ [VStr label]) ++ map VStr (firstn n (map snd steps))))
                   (results w2) =
                 dict_set "operations"
                   (VList (ops ++ map VStr (firstn (S n) (label :: map snd steps))))
                   (results w)).
      { intros n. unfold w2. cbn [results firstn map].
        rewrite dict_set_twice, Hres, <- app_assoc. reflexivity. }
      destruct (IH cs' w2 (ops ++ [VStr label]) Hq')
        as [(Hn & w3 & Hr & Hc & Hrun) | (Hn & e & w3 & Hr & Hrun)].
      { unfold w2. cbn [results]. apply dict_get_set_same. }
      * left. split; [now rewrite Hn|]. exists w3. split; [|split; [|exact Hrun]].
        -- rewrite Hr. apply Hlog.
        -- rewrite Hc. unfold w2. cbn [calls]. rewrite (Hcall eq_refl), <- app_assoc.
           reflexivity.
      * right. split; [lia|]. exists e, w3. split; [|exact Hrun].
        rewrite Hr. apply Hlog.
    + right. split; [lia|]. exists e, w1. split.
      * cbn [firstn map]. rewrite app_nil_r, Hres. symmetry. now apply dict_set_same.
      * unfold bind at 1. now rewrite Em.
Qed.

Lemma run_workflow_steps self k wk (w : world) :
  run_workflow self k wk w =
    run_steps (steps_of self k wk) return_success
      (World (calls w) (identity_of k wk ++ [("operations", VList [])])).
Proof. destruct wk; reflexivity. Qed.

(** C5: in each of the three workflows the operation log holds exactly the
    entries of the steps that completed, in order.  With [n] the number of
    steps that complete before the first one that raises, the log at the
    end of the run is the first [n] of the workflow's three entries; when
    all three complete the workflow returns its results with the three
    entries and status [success], having made exactly the three calls of
    its steps in order; when a step raises, the workflow raises and the log
    has no entry for that step or a later one.  For Claim-for-QA the
    entries are [assigned], [validator_set], [test_result_in_progress] and
    the calls are assign, set-validator, set-test-result(in_progress). *)
Theorem workflow_operation_log
        (self : JiraClient) (issue_key : string) (wk : workflow_kind) (w : world) :
  let run := run_workflow self issue_key wk w in
  let n := completed_steps (steps_of self issue_key wk)
             (World (calls w) (identity_of issue_key wk ++ [("operations", VList [])])) in
  map snd (steps_of self issue_key wk) = labels_of wk /\
  List.length (labels_of wk) = 3 /\
  n <= 3 /\
  operations (snd run) = map VStr (firstn n (labels_of wk)) /\
  (n = 3 ->
   fst run = Ok (VDict (identity_of issue_key wk ++
                        [ ("operations", VList (map VStr (labels_of wk)));
                          ("status", VStr "success") ])) /\
   calls (snd run) = calls w ++ calls_of self issue_key wk) /\
  (n < 3 -> exists e, fst run = Raise e) /\
  (forall v, fst run = Ok v -> n = 3).
Proof.
  intros run n.
  assert (Hlabels : map snd (steps_of self issue_key wk) = labels_of wk)
    by (destruct wk; reflexivity).
  assert (Hlen : List.length (steps_of self issue_key wk) = 3)
    by (destruct wk; reflexivity).
  assert (Hops0 : dict_get "operations"
                    (results (World (calls w)
                                (identity_of issue_key wk ++ [("operations", VList [])]))) =
                  Some (VList []))
    by (destruct wk; reflexivity).
  pose proof (run_steps_log return_success (steps_of self issue_key wk)
                (calls_of self issue_key wk) _ [] (steps_make_calls self issue_key wk) Hops0)
    as H.
  cbv zeta in H. change (completed_steps _ _) with n in H.
  rewrite Hlabels, Hlen in H. cbn [app calls results] in H.
  unfold run. rewrite run_workflow_steps.
  split; [exact Hlabels|]. split; [destruct wk; reflexivity|].
  destruct H as [(Hn & w1 & Hr & Hc & Hrun) | (Hn & e & w1 & Hr & Hrun)].
  - rewrite Hrun.
    unfold return_success, bind, get_results, put_results, ret.
    cbn [fst snd calls results]. unfold operations. cbn [results].
    rewrite Hr, Hn.
    split; [lia|]. split; [destruct wk; reflexivity|].
    split; [|split; [intros; lia | intros; reflexivity]].
    intros _. split; [destruct wk; reflexivity | exact Hc].
  - rewrite Hrun. cbn [fst snd]. unfold operations. rewrite Hr, dict_get_set_same.
    split; [lia|]. split; [reflexivity|].
    split; [intros; lia|]. split; [intros _; now exists e | discriminate].
Qed.

Lemma workflow_operation_log_witness :
  (fst (claim_for_qa (MkJira config_example always_ok) "TEST-123" "alice" (World [] [])) =
     Ok (VDict [ ("issue_key", VStr "TEST-123"); ("username", VStr "alice");
                 ("operations",
                  VList [VStr "assigned"; VStr "validator_set";
                         VStr "test_result_in_progress"]);
                 ("status", VStr "success") ]) /\
   calls (snd (claim_for_qa (MkJira config_example always_ok) "TEST-123" "alice"
                 (World [] []))) =
     [ Http PUT "/issue/TEST-123/assignee" (VDict [("name", VStr "alice")]);
       Http PUT "/issue/TEST-123"
            (VDict [("fields", VDict [("customfield_XXXXX", VDict [("name", VStr "alice")])])]);
       Http PUT "/issue/TEST-123"
            (VDict [("fields", VDict [("customfield_XXXXX", VDict [("id", VStr "XXXXX")])])]) ]) /\
  operations (snd (resolve_pass (MkJira config_example refuses_second) "TEST-123" "ok"
                     (World [] []))) =
    [VStr "comment_added"] /\
  operations (snd (claim_for_qa (MkJira config_fallback always_ok) "TEST-123" "alice"
                     (World [] []))) =
    [VStr "assigned"; VStr "validator_set"].
Proof.
  split; [|split].
  - apply (workflow_operation_log (MkJira config_example always_ok) "TEST-123"
             (ClaimForQA "alice") (World [] [])).
    reflexivity.
  - exact (proj1 (proj2 (proj2 (proj2
             (workflow_operation_log (MkJira config_example refuses_second) "TEST-123"
                (ResolvePass "ok") (World [] [])))))).
  - exact (proj1 (proj2 (proj2 (proj2
             (workflow_operation_log (MkJira config_fallback always_ok) "TEST-123"
                (ClaimForQA "alice") (World [] [])))))).
Defined.

(** *** Analysis handlers *)

Lemma build_analysis_prompt_total self td analysis_type p ctx :
  exists s, build_analysis_prompt self td analysis_type p ctx = Ok s.
Proof.
  unfold build_analysis_prompt, try_except.
  destruct (build_analysis_prompt_body _ _ _ _ _); eauto.
Qed.

(** C1, as stated, fails twice: the story-analysis handler has no handler
    boundary, so an exception of the model call leaves it as an exception;
    and the epic-analysis handler words its error differently. *)
Lemma story_handler_raises :
  fst (handle (MkHandler (Some refusing) (Some demo_tracker))
         [("ticketKey", VStr "TEST-123"); ("title", VStr "Login fails")] (World [] [])) =
    Raise (Exn HTTPError "503 Service Unavailable") /\
  fst (handle_epic_analysis (MkHandler (Some demo_model) (Some refusing))
         [("epicKey", VStr "EPIC-1")] (World [] [])) =
    Ok (VStr "Error analyzing epic EPIC-1: 503 Service Unavailable").
Proof. split; vm_compute; reflexivity. Qed.

Lemma try_catch_total {A} (body : M A) (h : exn -> A) (w : world) :
  (exists a, fst (try_catch body (fun e => ret (h e)) w) = Ok a) /\
  (forall e, fst (body w) = Raise e ->
             fst (try_catch body (fun e => ret (h e)) w) = Ok (h e)) /\
  (forall a, fst (body w) = Ok a ->
             fst (try_catch body (fun e => ret (h e)) w) = Ok a).
Proof.
  unfold try_catch, ret. destruct (body w) as [[a|e] w']; cbn [fst].
  - split; [eauto|]. split; [discriminate | trivial].
  - split; [eauto|]. split; [intros ? H; now injection H as -> | discriminate].
Qed.

Lemma run_handler_try (h : template_handler) (self : Handler) (request_data : pydict) :
  run_handler h self request_data =
    try_catch (run_handler_body h self request_data)
      (fun e => ret (error_generating (kind_of h)
                       (get_or request_data "ticketKey" (VStr EmptyString)) e)).
Proof. destruct h; reflexivity. Qed.

Lemma ask_or_unable_run (ai : oracle) (jira : option oracle) (prompt kind : string)
      (key : pyval) (w : world) :
  ask_or_unable (MkHandler (Some ai) jira) prompt kind key w =
    (match ai (calls w) (AskOpenAI prompt) with
     | Ok r => Ok (if truthy r then r else unable_to_generate kind key)
     | Raise e => Raise e
     end,
     World (calls w ++ [AskOpenAI prompt]) (results w)).
Proof.
  unfold ask_or_unable, unable_to_generate. cbn [ai_client].
  unfold bind, perform, ret. destruct (ai _ _) as [r|e]; [|reflexivity].
  destruct (truthy r); reflexivity.
Qed.

(** C1 (amended): the handlers for test cases, comment summary, root cause
    and reproduction steps never raise, whatever the payload dictionary and
    the clients do: any exception raised inside their [try] block, by the
    tracker fetch or by the model call, becomes the string
    [Error generating <kind> for '<key>': <message>], and a result of the
    block is returned as it is.  For the three handlers other than comment
    summary the outcome is decided by the model call on the prompt built
    from the payload: its text, or [Unable to generate <kind> for <key>]
    when it returns none, or the error string when it raises.  The comment
    summary handler turns a failing tracker fetch into the error string.
    The epic-analysis handler never raises either and turns any exception
    of its [try] block into [Error analyzing epic <key>: <message>]. *)
Theorem template_handlers_never_raise
        (h : template_handler) (self : Handler) (request_data : pydict) (w : world) :
  let key := get_or request_data "ticketKey" (VStr EmptyString) in
  (exists v, fst (run_handler h self request_data w) = Ok v) /\
  (forall e, fst (run_handler_body h self request_data w) = Raise e ->
             fst (run_handler h self request_data w) =
               Ok (VStr (fstr ["Error generating "; kind_of h; " for '"; py_str key; "': ";
                               exn_msg e]))) /\
  (forall v, fst (run_handler_body h self request_data w) = Ok v ->
             fst (run_handler h self request_data w) = Ok v) /\
  (forall ai, ai_client self = Some ai -> h <> CommentSummary ->
     exists prompt,
       prompt_of h request_data = Ok prompt /\
       run_handler h self request_data w =
         (match ai (calls w) (AskOpenAI prompt) with
          | Ok r => Ok (if truthy r then r else unable_to_generate (kind_of h) key)
          | Raise e => Ok (error_generating (kind_of h) key e)
          end,
          World (calls w ++ [AskOpenAI prompt]) (results w))) /\
  (forall jira e, jira_client self = Some jira -> h = CommentSummary ->
     truthy (get_or request_data "comments" (VList [])) = false ->
     jira (calls w) (FetchIssueDetails key) = Raise e ->
     run_handler h self request_data w =
       (Ok (error_generating (kind_of h) key e),
        World (calls w ++ [FetchIssueDetails key]) (results w))) /\
  (exists v, fst (handle_epic_analysis self request_data w) = Ok v) /\
  (forall e, fst (handle_epic_analysis_body self request_data w) = Raise e ->
             fst (handle_epic_analysis self request_data w) =
               Ok (error_analyzing_epic request_data e)).
Proof.
  intros key. rewrite run_handler_try.
  destruct (try_catch_total (run_handler_body h self request_data)
              (error_generating (kind_of h) key) w) as (Hex & Hraise & Hok).
  destruct (try_catch_total (handle_epic_analysis_body self request_data)
              (error_analyzing_epic request_data) w) as (Hex' & Hraise' & _).
  split; [exact Hex|]. split; [exact Hraise|]. split; [exact Hok|].
  split; [|split; [|split; [exact Hex' | exact Hraise']]].
  - intros ai Hai Hh. destruct self as [ai' jira]. cbn [ai_client] in Hai. subst ai'.
    destruct (build_analysis_prompt_total new_PromptBuilder request_data
                (match h with
                 | TestCases => "test-cases"
                 | CommentSummary => "comment-summary"
                 | RootCause => "root-cause-analysis"
                 | ReproductionSteps => "reproduction-steps"
                 end)
                (match h with
                 | TestCases => SENIOR_QA
                 | CommentSummary => BUSINESS_ANALYST
                 | _ => TECHNICAL_LEADER
                 end) None) as [prompt Hprompt].
    exists prompt. split; [destruct h; exact Hprompt|].
    unfold try_catch.
    assert (Hbody : run_handler_body h (MkHandler (Some ai) jira) request_data w =
                    ask_or_unable (MkHandler (Some ai) jira) prompt (kind_of h) key w).
    { destruct h; try congruence;
        cbn [run_handler_body];
        unfold handle_test_cases_body, handle_root_cause_body, handle_reproduction_steps_body,
               build_test_cases_prompt, build_root_cause_prompt, build_reproduction_steps_prompt,
               prompt_builder;
        unfold bind at 1, lift at 1; rewrite Hprompt; reflexivity. }
    rewrite Hbody, ask_or_unable_run.
    destruct (ai _ _); reflexivity.
  - intros jira e Hj -> Hfalsy Hfetch. destruct self as [ai jira']. cbn [jira_client] in Hj.
    subst jira'. unfold try_catch. cbn [run_handler_body kind_of].
    unfold handle_comment_summary_body. fold key. rewrite Hfalsy. cbn [negb jira_client].
    unfold bind at 1. unfold bind at 1, perform at 1. rewrite Hfetch. reflexivity.
Qed.

Lemma template_handlers_never_raise_witness :
  fst (handle_root_cause (MkHandler (Some refusing) None)
         [("ticketKey", VStr "TEST-123")] (World [] [])) =
    Ok (VStr "Error generating root cause analysis for 'TEST-123': 503 Service Unavailable") /\
  fst (handle_comment_summary (MkHandler (Some demo_model) (Some refusing))
         [("ticketKey", VStr "TEST-123")] (World [] [])) =
    Ok (VStr "Error generating comment summary for 'TEST-123': 503 Service Unavailable").
Proof.
  split.
  - refine (proj1 (proj2 (template_handlers_never_raise RootCause
                            (MkHandler (Some refusing) None)
                            [("ticketKey", VStr "TEST-123")] (World [] [])))
                  (Exn HTTPError "503 Service Unavailable") _).
    reflexivity.
  - destruct (template_handlers_never_raise CommentSummary
                (MkHandler (Some demo_model) (Some refusing))
                [("ticketKey", VStr "TEST-123")] (World [] []))
      as (_ & _ & _ & _ & H & _).
    pose proof (H refusing (Exn HTTPError "503 Service Unavailable")
                  eq_refl eq_refl eq_refl eq_refl) as E.
    cbn [run_handler] in E. rewrite E. reflexivity.
Defined.

(** *** Tool envelopes *)

(** C2, as stated, fails: [qa_claim_ticket] returns what the client's
    workflow returns and has no [try], so an exception of a tracker call
    leaves the tool as an exception. *)
Lemma claim_ticket_raises :
  fst (qa_claim_ticket (MkProcess "https://jira.example.com" config_example refusing)
         "TEST-123" "alice" (World [] [])) =
    Raise (Exn HTTPError "503 Service Unavailable").
Proof. reflexivity. Qed.

Lemma get_jira_ok (p : Process) (w : world) :
  JIRA_URL p <> EmptyString ->
  get_jira p w = (Ok (MkJira (jira_config p) (jira_http p)), w).
Proof.
  intros H. unfold get_jira. apply String.eqb_neq in H. now rewrite H.
Qed.

Lemma success_is_envelope (fields : pydict) : is_envelope (success fields).
Proof. exists (("status", VStr "success") :: fields). split; [reflexivity | left; reflexivity]. Qed.

Lemma error_is_envelope (msg : string) : is_envelope (error_envelope msg).
Proof.
  eexists. split; [reflexivity|]. right. split; [reflexivity | now exists msg].
Qed.

(** What each guarded client call returns, when it returns, is either an
    envelope already or is wrapped into one by its tool. *)
Lemma run_tool_try (p : Process) (t : guarded_tool) (w : world) :
  JIRA_URL p <> EmptyString ->
  let jira := MkJira (jira_config p) (jira_http p) in
  match client_call jira t w with
  | (Raise e, w') => run_tool p t w = (Ok (error_envelope (reported t e)), w')
  | (Ok r, w') => exists v, run_tool p t w = (Ok v, w') /\ is_envelope v
  end.
Proof.
  intros Hurl jira.
  assert (Hj : forall (k : JiraClient -> M pyval),
             bind (get_jira p) k w = k jira w)
    by (intros k; unfold bind; now rewrite (get_jira_ok p w Hurl)).
  destruct t as [summarize key | key tr | parent summ desc | key summ desc];
    cbn [client_call run_tool];
    unfold qa_get_issue_details, qa_transition_ticket, qa_create_subtask, qa_update_issue;
    rewrite Hj; unfold try_catch.
  - destruct (get_issue_full summarize jira key w) as [[r|e] w'] eqn:E.
    + eexists. split; [unfold bind; rewrite E; reflexivity|].
      eexists. split; [reflexivity | left; reflexivity].
    + unfold bind. rewrite E. reflexivity.
  - destruct (transition_issue jira key tr w) as [[r|e] w'] eqn:E.
    + exists r. split; [reflexivity|].
      unfold transition_issue in E.
      destruct (negb _) in E; [discriminate|].
      unfold bind, perform, ret in E.
      destruct (http jira _ _) in E; [|discriminate].
      injection E as <- _. apply success_is_envelope.
    + unfold reported. destruct (exn_cls e); reflexivity.
  - destruct (create_subtask jira parent summ desc w) as [[r|e] w'] eqn:E.
    + unfold bind at 1. rewrite E.
      destruct (truthy r); eexists; (split; [reflexivity|]).
      * eexists. split; [reflexivity | left; reflexivity].
      * apply error_is_envelope.
    + unfold bind at 1. rewrite E. reflexivity.
  - destruct (update_issue jira key summ desc w) as [[r|e] w'] eqn:E; [|reflexivity].
    exists r. split; [reflexivity|].
    unfold update_issue in E.
    destruct (negb _) in E.
    + injection E as <- _. apply error_is_envelope.
    + unfold bind, perform, ret in E.
      destruct (http jira _ _) in E; [|discriminate].
      injection E as <- _. apply success_is_envelope.
Qed.

(** C2 (amended): the tools qa_get_issue_details, qa_transition_ticket,
    qa_create_subtask and qa_update_issue, run in a process whose
    [JIRA_URL] is set, never raise and always return an envelope: a dict
    with status [success], or with status [error] and an error string.  An
    exception [e] of their client call becomes the error envelope carrying
    [str(e)] (for qa_transition_ticket, [Failed to transition: ] followed
    by [str(e)] unless [e] is a [ValueError]).  When [JIRA_URL] is not set,
    building the client raises [ValueError] out of the tool. *)
Theorem guarded_tools_return_envelopes (p : Process) (t : guarded_tool) (w : world) :
  (JIRA_URL p <> EmptyString ->
   (exists v, fst (run_tool p t w) = Ok v /\ is_envelope v) /\
   (forall e, fst (client_call (MkJira (jira_config p) (jira_http p)) t w) = Raise e ->
              fst (run_tool p t w) = Ok (error_envelope (reported t e)))) /\
  (JIRA_URL p = EmptyString ->
   run_tool p t w =
     (Raise (Exn ValueError "JIRA_URL environment variable is required"), w)).
Proof.
  split.
  - intros Hurl. pose proof (run_tool_try p t w Hurl) as H. cbv zeta in H.
    destruct (client_call _ t w) as [[r|e] w']; cbn [fst].
    + destruct H as (v & -> & Hv). split; [now exists v | discriminate].
    + rewrite H. split.
      * eexists. split; [reflexivity | apply error_is_envelope].
      * intros e' He. now injection He as ->.
  - intros Hurl.
    destruct t; cbn [run_tool];
      unfold qa_get_issue_details, qa_transition_ticket, qa_create_subtask, qa_update_issue,
             bind, get_jira; rewrite Hurl; reflexivity.
Qed.

Lemma guarded_tools_return_envelopes_witness :
  fst (qa_transition_ticket (MkProcess "https://jira.example.com" config_example refusing)
         "TEST-123" "resolved" (World [] [])) =
    Ok (error_envelope "Failed to transition: 503 Service Unavailable") /\
  (exists v,
     fst (qa_update_issue (MkProcess "https://jira.example.com" config_example always_ok)
            "TEST-123" (Some "New summary") None (World [] [])) = Ok v /\
     is_envelope v).
Proof.
  split.
  - refine (proj2 (proj1 (guarded_tools_return_envelopes
                            (MkProcess "https://jira.example.com" config_example refusing)
                            (TransitionTicket "TEST-123" "resolved") (World [] []))
                         _)
                  (Exn HTTPError "503 Service Unavailable") _).
    + discriminate.
    + reflexivity.
  - refine (proj1 (proj1 (guarded_tools_return_envelopes
                            (MkProcess "https://jira.example.com" config_example always_ok)
                            (UpdateIssue "TEST-123" (Some "New summary") None) (World [] []))
                         _)).
    discriminate.
Defined.

(* ================================================================== *)
(** ** Further properties *)
(* ================================================================== *)

(** *** Registry fall-backs and comments in the prompt *)

Lemma templates_get_none (reg : list (string * template)) (k : string) :
  templates_get reg k = None <-> ~ In k (keys reg).
Proof.
  induction reg as [|[k' t] reg IH]; simpl.
  - tauto.
  - destruct (String.eqb_spec k k') as [->|Hne].
    + split; [discriminate | tauto].
    + rewrite IH. split; [intros H [E|H']; [congruence | tauto] | tauto].
Qed.

(** With the registries of [PromptBuilder()], the [try] block resolves the
    persona and the template through their defaults and then formats. *)
Lemma build_analysis_prompt_resolved
      (td : pydict) (analysis_type : string) (p : Persona) (ctx : option pydict) :
  exists qa dt,
    personas_get (personas new_PromptBuilder) SENIOR_QA = Some qa /\
    templates_get (templates new_PromptBuilder) "default" = Some dt /\
    build_analysis_prompt_body new_PromptBuilder td analysis_type p ctx =
      (c <~ _format_ticket_context td ctx ;;
       Ok (five_blocks (personas_get_or (personas new_PromptBuilder) p qa)
                       (templates_get_or (templates new_PromptBuilder) analysis_type dt) c)).
Proof. do 2 eexists. split; [reflexivity|]. split; reflexivity. Qed.

(** X1: an analysis type that is not one of the six registry keys gets the
    instructions and output format of the [default] template, and a persona
    without a registry entry gets the introduction and style guide of
    SENIOR_QA; a registered type or persona gets its own blocks. *)
Theorem prompt_uses_registry_defaults
        (td : pydict) (analysis_type : string) (p : Persona) (ctx : option pydict)
        (c : string) :
  _format_ticket_context td ctx = Ok c ->
  exists pc t,
    build_analysis_prompt new_PromptBuilder td analysis_type p ctx = Ok (five_blocks pc t c) /\
    (~ In analysis_type
          ["test-cases"; "comment-summary"; "root-cause-analysis"; "reproduction-steps";
           "epic-analysis"; "default"] ->
     templates_get (templates new_PromptBuilder) "default" = Some t) /\
    (forall x, templates_get (templates new_PromptBuilder) analysis_type = Some x -> t = x) /\
    (personas_get (personas new_PromptBuilder) p = None ->
     personas_get (personas new_PromptBuilder) SENIOR_QA = Some pc) /\
    (forall x, personas_get (personas new_PromptBuilder) p = Some x -> pc = x).
Proof.
  intros Hc.
  destruct (build_analysis_prompt_resolved td analysis_type p ctx) as (qa & dt & Hqa & Hdt & Hbody).
  exists (personas_get_or (personas new_PromptBuilder) p qa),
         (templates_get_or (templates new_PromptBuilder) analysis_type dt).
  split; [|split; [|split; [|split]]].
  - unfold build_analysis_prompt. rewrite Hbody, Hc. reflexivity.
  - intros Hnot.
    assert (Hn : templates_get (templates new_PromptBuilder) analysis_type = None)
      by (apply templates_get_none; exact Hnot).
    unfold templates_get_or. rewrite Hn. exact Hdt.
  - intros x Hx. unfold templates_get_or. now rewrite Hx.
  - intros Hn. unfold personas_get_or. rewrite Hn. exact Hqa.
  - intros x Hx. unfold personas_get_or. now rewrite Hx.
Qed.

Lemma prompt_uses_registry_defaults_witness :
  exists pc t,
    build_analysis_prompt new_PromptBuilder [("ticketKey", VStr "T-1")] "security-review"
      DEVOPS_ENGINEER None = Ok (five_blocks pc t (ticket_information [("ticketKey", VStr "T-1")])) /\
    instructions t = "Analyze this Jira ticket and provide comprehensive insights." /\
    style_guide pc = style_guide (snd (hd (SENIOR_QA, PersonaContext EmptyString EmptyString)
                                          _define_personas)).
Proof.
  destruct (prompt_uses_registry_defaults [("ticketKey", VStr "T-1")] "security-review"
              DEVOPS_ENGINEER None (ticket_information [("ticketKey", VStr "T-1")]) eq_refl)
    as (pc & t & Hout & Ht & _ & Hp & _).
  exists pc, t. split; [exact Hout|]. split.
  - assert (E : templates_get (templates new_PromptBuilder) "default" = Some t).
    { apply Ht. vm_compute. intuition discriminate. }
    vm_compute in E. injection E as <-. reflexivity.
  - assert (E : personas_get (personas new_PromptBuilder) SENIOR_QA = Some pc)
      by (apply Hp; reflexivity).
    vm_compute in E. injection E as <-. reflexivity.
Defined.

Lemma dict_get_set_other (k k' : string) (v : pyval) (d : pydict) :
  k <> k' -> dict_get k (dict_set k' v d) = dict_get k d.
Proof.
  intros Hne. induction d as [|[k0 v0] d IH]; simpl.
  - destruct (String.eqb_spec k k'); [congruence | reflexivity].
  - destruct (String.eqb_spec k' k0) as [->|Hne0]; simpl.
    + destruct (String.eqb_spec k k0); [congruence | reflexivity].
    + destruct (String.eqb_spec k k0); [reflexivity | exact IH].
Qed.

Lemma get_or_set_other (k k' : string) (v x : pyval) (d : pydict) :
  k <> k' -> get_or (dict_set k' v d) k x = get_or d k x.
Proof. intros H. unfold get_or. now rewrite dict_get_set_other. Qed.

Lemma get_or_set_same (k : string) (v x : pyval) (d : pydict) :
  get_or (dict_set k v d) k x = v.
Proof. unfold get_or. now rewrite dict_get_set_same. Qed.

Lemma ticket_information_set_comments (v : pyval) (td : pydict) :
  ticket_information (dict_set "comments" v td) = ticket_information td.
Proof.
  unfold ticket_information.
  rewrite !get_or_set_other by discriminate. reflexivity.
Qed.

Lemma fallback_set_comments (v : pyval) (td : pydict) (analysis_type : string) :
  _get_fallback_prompt (dict_set "comments" v td) analysis_type =
  _get_fallback_prompt td analysis_type.
Proof.
  unfold _get_fallback_prompt.
  rewrite !get_or_set_other by discriminate. reflexivity.
Qed.

Lemma firstn_3_twice {A} (l : list A) : firstn 3 (firstn 3 l) = firstn 3 l.
Proof. destruct l as [|a [|b [|c l]]]; reflexivity. Qed.

(** X2: comments after the third have no influence on the prompt, whatever
    they are: replacing the comment list by its first three entries changes
    neither the ticket context nor the prompt (regular or fallback). *)
Theorem prompt_ignores_later_comments
        (td : pydict) (analysis_type : string) (p : Persona) (ctx : option pydict)
        (cs : list pyval) :
  _format_ticket_context (dict_set "comments" (VList cs) td) ctx =
    _format_ticket_context (dict_set "comments" (VList (firstn 3 cs)) td) ctx /\
  build_analysis_prompt new_PromptBuilder (dict_set "comments" (VList cs) td)
    analysis_type p ctx =
    build_analysis_prompt new_PromptBuilder (dict_set "comments" (VList (firstn 3 cs)) td)
      analysis_type p ctx.
Proof.
  assert (Hctx : _format_ticket_context (dict_set "comments" (VList cs) td) ctx =
                 _format_ticket_context (dict_set "comments" (VList (firstn 3 cs)) td) ctx).
  { unfold _format_ticket_context.
    rewrite !get_or_set_same, !ticket_information_set_comments.
    cbn [py_take_items]. rewrite firstn_3_twice.
    destruct cs as [|c cs]; reflexivity. }
  split; [exact Hctx|].
  destruct (build_analysis_prompt_resolved (dict_set "comments" (VList cs) td)
              analysis_type p ctx) as (qa & dt & Hqa & Hdt & H1).
  destruct (build_analysis_prompt_resolved (dict_set "comments" (VList (firstn 3 cs)) td)
              analysis_type p ctx) as (qa' & dt' & Hqa' & Hdt' & H2).
  rewrite Hqa in Hqa'. injection Hqa' as <-.
  rewrite Hdt in Hdt'. injection Hdt' as <-.
  unfold build_analysis_prompt. rewrite H1, H2, Hctx, !fallback_set_comments. reflexivity.
Qed.

Lemma enumerate_comments_lines (items : list pyval) :
  forall (i : nat) (acc : string),
    forallb is_comment items = true ->
    enumerate_comments i items acc = Ok (acc +:+ comment_lines i items).
Proof.
  induction items as [|c items IH]; intros i acc H; cbn [enumerate_comments comment_lines].
  - now rewrite append_nil_r.
  - cbn [forallb] in H. apply andb_true_iff in H. destruct H as [Hc Hrest].
    unfold is_comment in Hc. destruct (comment_body c) as [b|] eqn:Hb; [|discriminate].
    rewrite (format_comment_wf i c b Hb). cbn [rbind].
    rewrite (IH (S i) _ Hrest), append_assoc. reflexivity.
Qed.

(** X3: a ticket without comments (the key absent, or its value empty or
    otherwise falsy) gets the ticket-information header alone, with no
    [Recent Comments] heading; a ticket with one or more comments, the
    first three of them well-formed, gets the header, the heading and one
    line per comment among the first three, numbered from 1: one line for
    one comment, two lines for two. *)
Theorem context_comment_lines (td : pydict) (ctx : option pydict) :
  (truthy (get_or td "comments" (VList [])) = false ->
   _format_ticket_context td ctx = Ok (ticket_information td)) /\
  (forall cs,
     dict_get "comments" td = Some (VList cs) ->
     cs <> [] ->
     forallb is_comment (firstn 3 cs) = true ->
     _format_ticket_context td ctx =
       Ok (ticket_information td +:+ comments_heading +:+ comment_lines 1 (firstn 3 cs)) /\
     (forall c1 b1, cs = [c1] -> comment_body c1 = Some b1 ->
        comment_lines 1 (firstn 3 cs) = comment_line 1 c1 b1) /\
     (forall c1 c2 b1 b2, cs = [c1; c2] ->
        comment_body c1 = Some b1 -> comment_body c2 = Some b2 ->
        comment_lines 1 (firstn 3 cs) = comment_line 1 c1 b1 +:+ comment_line 2 c2 b2)).
Proof.
  split.
  - intros H. unfold _format_ticket_context. now rewrite H.
  - intros cs Hcs Hne Hwf. split; [|split].
    + unfold _format_ticket_context, get_or. rewrite Hcs.
      destruct cs as [|c cs]; [congruence|].
      cbn [truthy py_take_items rbind].
      rewrite (enumerate_comments_lines _ 1 _ Hwf), append_assoc. reflexivity.
    + intros c1 b1 -> H1. cbn [firstn comment_lines]. rewrite H1. apply append_nil_r.
    + intros c1 c2 b1 b2 -> H1 H2. cbn [firstn comment_lines]. rewrite H1, H2.
      now rewrite append_nil_r.
Qed.

Lemma context_comment_lines_witness :
  _format_ticket_context [("ticketKey", VStr "T-1"); ("comments", VNone)] None =
    Ok (ticket_information [("ticketKey", VStr "T-1")]) /\
  _format_ticket_context
    [("ticketKey", VStr "T-1");
     ("comments", VList [VDict [("author", VStr "ann"); ("content", VStr "first")]])] None =
    Ok (ticket_information [("ticketKey", VStr "T-1")] +:+ comments_heading +:+
        fstr ["1. ann: first"; nl]).
Proof.
  split.
  - apply (context_comment_lines [("ticketKey", VStr "T-1"); ("comments", VNone)] None).
    reflexivity.
  - destruct (context_comment_lines
                [("ticketKey", VStr "T-1");
                 ("comments", VList [VDict [("author", VStr "ann"); ("content", VStr "first")]])]
                None) as [_ H].
    destruct (H [VDict [("author", VStr "ann"); ("content", VStr "first")]])
      as (Hout & _).
    + reflexivity.
    + discriminate.
    + reflexivity.
    + rewrite Hout. reflexivity.
Defined.

Lemma string_length_append (a b : string) :
  String.length (a +:+ b) = String.length a + String.length b.
Proof. induction a; simpl; congruence. Qed.

Lemma append_prefix_unique (a a' r r' : string) :
  a +:+ r = a' +:+ r' -> String.length a = String.length a' -> a = a'.
Proof.
  revert a'. induction a as [|c a IH]; intros [|c' a'] H Hlen; try discriminate Hlen.
  - reflexivity.
  - cbn [String.append] in H. injection H as -> H. injection Hlen as Hlen.
    now rewrite (IH a' H Hlen).
Qed.

(** X4: the body of a comment takes at most 203 characters of its line in
    the context: a body of at most 200 characters is copied, a longer one
    is shown as its first 200 characters followed by three dots. *)
Theorem comment_line_bounded (i : nat) (c : pyval) (b : string) :
  comment_body c = Some b ->
  exists shown,
    format_comment i c =
      Ok (fstr [str_of_nat i; ". "; comment_author c; ": "; shown; nl]) /\
    String.length shown <= 203 /\
    (String.length b <= 200 -> shown = b) /\
    (200 < String.length b ->
     exists kept rest,
       b = kept +:+ rest /\ String.length kept = 200 /\ shown = kept +:+ "...").
Proof.
  intros Hb. exists (shown_body b). split; [exact (format_comment_wf i c b Hb)|].
  unfold shown_body. destruct (Nat.ltb_spec 200 (String.length b)) as [Hlt|Hle].
  - assert (Hkept : String.length (str_take 200 b) = 200)
      by (apply str_take_length; lia).
    split; [rewrite string_length_append, Hkept; cbn; lia|].
    split; [lia|]. intros _.
    destruct (str_take_prefix 200 b) as [rest Hrest].
    exists (str_take 200 b), rest. now repeat split.
  - split; [lia|]. split; [reflexivity | lia].
Qed.

Lemma comment_line_bounded_witness :
  let body := string_of_list_ascii (repeat "a"%char 200 ++ repeat "b"%char 50) in
  format_comment 2 (VDict [("author", VStr "bob"); ("content", VStr body)]) =
    Ok (fstr ["2"; ". "; "bob"; ": ";
              string_of_list_ascii (repeat "a"%char 200) +:+ "..."; nl]).
Proof.
  intros body.
  destruct (comment_line_bounded 2 (VDict [("author", VStr "bob"); ("content", VStr body)])
              body eq_refl) as (shown & Hline & _ & _ & Hlong).
  destruct Hlong as (kept & rest & Hsplit & Hlen & ->); [vm_compute; lia|].
  rewrite Hline.
  assert (Hkept : kept = string_of_list_ascii (repeat "a"%char 200)).
  { apply (append_prefix_unique kept _ rest (string_of_list_ascii (repeat "b"%char 50)));
      [rewrite <- Hsplit; vm_compute; reflexivity | rewrite Hlen; vm_compute; reflexivity]. }
  rewrite Hkept. reflexivity.
Defined.

(** X5: [build_story_analysis_prompt] never raises and returns the
    introduction of the persona alone, that of DEVELOPMENT_TEAM for a
    persona without a registry entry; the ticket data has no influence on
    it. *)
Theorem story_prompt_is_introduction (td : pydict) (p : Persona) :
  exists pc,
    build_story_analysis_prompt new_PromptBuilder td p = Ok (introduction pc) /\
    (forall td', build_story_analysis_prompt new_PromptBuilder td' p = Ok (introduction pc)) /\
    (forall x, personas_get (personas new_PromptBuilder) p = Some x -> pc = x) /\
    (personas_get (personas new_PromptBuilder) p = None ->
     personas_get (personas new_PromptBuilder) DEVELOPMENT_TEAM = Some pc).
Proof.
  assert (Hdev : exists dev, personas_get (personas new_PromptBuilder) DEVELOPMENT_TEAM = Some dev)
    by (eexists; reflexivity).
  destruct Hdev as [dev Hdev].
  exists (personas_get_or (personas new_PromptBuilder) p dev).
  assert (Hrun : forall d, build_story_analysis_prompt new_PromptBuilder d p =
                           Ok (introduction (personas_get_or (personas new_PromptBuilder) p dev))).
  { intros d. unfold build_story_analysis_prompt, personas_index. rewrite Hdev. reflexivity. }
  split; [apply Hrun|]. split; [exact Hrun|]. split.
  - intros x Hx. unfold personas_get_or. now rewrite Hx.
  - intros Hn. unfold personas_get_or. rewrite Hn. exact Hdev.
Qed.

Lemma story_prompt_is_introduction_witness :
  exists pc,
    build_story_analysis_prompt new_PromptBuilder [("ticketKey", VStr "TEST-1")]
      SECURITY_ENGINEER = Ok (introduction pc) /\
    personas_get (personas new_PromptBuilder) DEVELOPMENT_TEAM = Some pc.
Proof.
  destruct (story_prompt_is_introduction [("ticketKey", VStr "TEST-1")] SECURITY_ENGINEER)
    as (pc & Hrun & _ & _ & Hdev).
  exists pc. split; [exact Hrun | apply Hdev; reflexivity].
Defined.

(** *** Comment summaries *)

Lemma stripped_texts_blank (comments : list pyval) :
  forallb blank comments = true -> stripped_texts comments = [].
Proof.
  induction comments as [|c comments IH]; intros H; [reflexivity|].
  cbn [forallb] in H. apply andb_true_iff in H. destruct H as [Hc Hrest].
  destruct c; cbn [stripped_texts]; auto.
  cbn [blank] in Hc. rewrite Hc. auto.
Qed.

Lemma stripped_texts_spec (comments : list pyval) (t : string) :
  In t (stripped_texts comments) <->
  exists c, In (VStr c) comments /\ t = strip c /\ strip c <> EmptyString.
Proof.
  induction comments as [|x comments IH]; cbn [stripped_texts].
  - split; [intros [] | intros (c & [] & _)].
  - assert (Hskip : (exists c, In (VStr c) comments /\ t = strip c /\ strip c <> EmptyString) ->
                    exists c, In (VStr c) (x :: comments) /\ t = strip c /\ strip c <> EmptyString).
    { intros (c & Hin & H). exists c. split; [now right | exact H]. }
    destruct x as [| | |s| |];
      try (rewrite IH; split; [exact Hskip | intros (c & [E|Hin] & H); [discriminate | eauto]]).
    destruct (String.eqb_spec (strip s) EmptyString) as [He|Hne].
    + rewrite IH. split; [exact Hskip|].
      intros (c & [E|Hin] & Ht & Hn); [injection E as <-; congruence | eauto].
    + cbn [In]. rewrite IH. split.
      * intros [<-|H]; [exists s; split; [now left | now split] | now apply Hskip].
      * intros (c & [E|Hin] & Ht & Hn); [injection E as <-; now left | right; eauto].
Qed.

Lemma stripped_texts_not_blank (comments : list pyval) :
  forallb blank comments = false -> stripped_texts comments <> [].
Proof.
  induction comments as [|c comments IH]; cbn [forallb]; [discriminate|].
  intros H. apply andb_false_iff in H.
  destruct c as [| | |s| |]; cbn [blank stripped_texts] in *;
    try (destruct H as [H|H]; [discriminate | now apply IH]).
  destruct (String.eqb (strip s) EmptyString); [|discriminate].
  destruct H as [H|H]; [discriminate | now apply IH].
Qed.

Lemma join_not_empty (sep : string) (l : list string) :
  l <> [] -> (forall t, In t l -> t <> EmptyString) -> join sep l <> EmptyString.
Proof.
  intros Hne Hall. destruct l as [|x [|y l]]; [congruence| |].
  - cbn. apply Hall. now left.
  - rewrite join_cons2. assert (Hx : x <> EmptyString) by (apply Hall; now left).
    destruct x; [congruence | discriminate].
Qed.

(** X6: [summarize_comments] returns the empty string and makes no call,
    not even with a missing model client, when the list holds nothing to
    summarise: every entry is blank once stripped or is not a string. *)
Theorem summarize_nothing_makes_no_call
        (self : Handler) (comments : list pyval) (w : world) :
  forallb blank comments = true ->
  summarize_comments self comments w = (Ok (VStr EmptyString), w).
Proof.
  intros H. unfold summarize_comments. now rewrite (stripped_texts_blank _ H).
Qed.

Lemma summarize_nothing_makes_no_call_witness :
  summarize_comments (MkHandler None None)
    [VStr "  "; VNone; VStr EmptyString; VInt 3; VStr nl] (World [] []) =
    (Ok (VStr EmptyString), World [] []).
Proof. apply summarize_nothing_makes_no_call. reflexivity. Defined.

(** X7: when some entry is a string that is not blank, [summarize_comments]
    makes exactly one model call; its prompt holds the kept comments, which
    are the stripped non-blank strings, joined by blank lines; the answer
    is returned stripped when it is a string, an answer that is not a
    string gives the empty string, and an exception of the call leaves the
    function. *)
Theorem summarize_asks_once
        (ai : oracle) (jira : option oracle) (comments : list pyval) (w : world) :
  forallb blank comments = false ->
  let texts := stripped_texts comments in
  let prompt := summary_prompt (join (nl +:+ nl) texts) in
  texts <> [] /\
  (forall t, In t texts <->
             exists c, In (VStr c) comments /\ t = strip c /\ strip c <> EmptyString) /\
  (forall t, In t texts -> contains prompt t) /\
  summarize_comments (MkHandler (Some ai) jira) comments w =
    (match ai (calls w) (AskOpenAI prompt) with
     | Ok (VStr s) => Ok (VStr (strip s))
     | Ok _ => Ok (VStr EmptyString)
     | Raise e => Raise e
     end,
     World (calls w ++ [AskOpenAI prompt]) (results w)).
Proof.
  intros H texts prompt.
  assert (Hne : texts <> []) by now apply stripped_texts_not_blank.
  split; [exact Hne|]. split; [apply stripped_texts_spec|]. split.
  - intros t Ht. unfold prompt, summary_prompt. split_fstr.
    do 4 apply contains_skip. apply contains_append_l. now apply contains_join.
  - unfold summarize_comments. fold texts.
    destruct (String.eqb_spec (join (nl +:+ nl) texts) EmptyString) as [He|_].
    + exfalso. revert He. apply join_not_empty; [exact Hne|].
      intros t Ht. apply stripped_texts_spec in Ht. destruct Ht as (c & _ & -> & Hn). exact Hn.
    + fold prompt. cbn [call_method ai_client]. unfold bind, perform, ret.
      destruct (ai (calls w) (AskOpenAI prompt)) as [[| | |s| |]|e]; reflexivity.
Qed.

Lemma summarize_asks_once_witness :
  summarize_comments (MkHandler (Some demo_model) None)
    [VStr "  blocked by infra "; VNone; VStr "retest on staging"] (World [] []) =
    (Ok (VStr "analysis"),
     World [AskOpenAI (summary_prompt (fstr ["blocked by infra"; nl; nl; "retest on staging"]))]
           []).
Proof.
  refine (proj2 (proj2 (proj2 (summarize_asks_once demo_model None
            [VStr "  blocked by infra "; VNone; VStr "retest on staging"] (World [] []) _)))).
  reflexivity.
Defined.

(** *** Handlers without collaborators *)

(** X8: without a model client the handlers for test cases, root cause and
    reproduction steps return [Unable to generate <kind> for <key>] and
    make no call. *)
Theorem no_model_client_unable
        (h : template_handler) (jira : option oracle) (request_data : pydict) (w : world) :
  h <> CommentSummary ->
  run_handler h (MkHandler None jira) request_data w =
    (Ok (unable_to_generate (kind_of h)
           (get_or request_data "ticketKey" (VStr EmptyString))), w).
Proof.
  intros Hh.
  destruct (build_analysis_prompt_total new_PromptBuilder request_data
              (match h with
               | TestCases => "test-cases"
               | CommentSummary => "comment-summary"
               | RootCause => "root-cause-analysis"
               | ReproductionSteps => "reproduction-steps"
               end)
              (match h with
               | TestCases => SENIOR_QA
               | CommentSummary => BUSINESS_ANALYST
               | _ => TECHNICAL_LEADER
               end) None) as [prompt Hprompt].
  destruct h; try congruence;
    cbn [run_handler];
    unfold handle_test_cases, handle_root_cause, handle_reproduction_steps, try_catch,
           handle_test_cases_body, handle_root_cause_body, handle_reproduction_steps_body,
           build_test_cases_prompt, build_root_cause_prompt, build_reproduction_steps_prompt,
           prompt_builder;
    unfold bind at 1, lift at 1; rewrite Hprompt; reflexivity.
Qed.

Lemma no_model_client_unable_witness :
  handle_test_cases (MkHandler None None) [("ticketKey", VStr "TEST-123")] (World [] []) =
    (Ok (VStr "Unable to generate test cases for TEST-123"), World [] []).
Proof.
  apply (no_model_client_unable TestCases None [("ticketKey", VStr "TEST-123")] (World [] [])).
  discriminate.
Defined.

(** X9: the comment-summary handler asks the tracker only when the payload
    brings no comments.  With comments in the payload no tracker call is
    made and the prompt is built from the payload's key, comments, title
    and description alone; with no comments and no tracker client, or with
    a tracker that finds none either, it returns [No comments found for
    <key>] without calling the model. *)
Theorem comment_summary_fetches_only_when_empty
        (self : Handler) (request_data : pydict) (w : world) :
  let key := get_or request_data "ticketKey" (VStr EmptyString) in
  let comments := get_or request_data "comments" (VList []) in
  (truthy comments = true ->
   exists prompt,
     build_comment_summary_prompt new_PromptBuilder (summary_ticket request_data)
       BUSINESS_ANALYST = Ok prompt /\
     handle_comment_summary self request_data w =
       try_catch (ask_or_unable self prompt "comment summary" key)
         (fun e => ret (error_generating "comment summary" key e)) w /\
     forall ai, ai_client self = Some ai ->
       calls (snd (handle_comment_summary self request_data w)) =
         calls w ++ [AskOpenAI prompt]) /\
  (truthy comments = false -> jira_client self = None ->
   handle_comment_summary self request_data w =
     (Ok (VStr (fstr ["No comments found for "; py_str key])), w)) /\
  (forall jira issue,
     truthy comments = false -> jira_client self = Some jira ->
     jira (calls w) (FetchIssueDetails key) = Ok (VDict issue) ->
     truthy (get_or issue "comments" (VList [])) = false ->
     handle_comment_summary self request_data w =
       (Ok (VStr (fstr ["No comments found for "; py_str key])),
        World (calls w ++ [FetchIssueDetails key]) (results w))).
Proof.
  intros key comments. split; [|split].
  - intros Ht.
    destruct (build_analysis_prompt_total new_PromptBuilder (summary_ticket request_data)
                "comment-summary" BUSINESS_ANALYST None) as [prompt Hprompt].
    exists prompt. split; [exact Hprompt|].
    assert (Hbody : handle_comment_summary_body self request_data w =
                    ask_or_unable self prompt "comment summary" key w).
    { unfold handle_comment_summary_body. fold key. fold comments. rewrite Ht. cbn [negb].
      unfold bind at 1, ret at 1. rewrite Ht. cbn [negb].
      unfold prompt_builder, build_comment_summary_prompt in *.
      unfold bind at 1, lift at 1.
      change [("ticketKey", key); ("comments", comments);
              ("title", get_or request_data "title" (VStr EmptyString));
              ("description", get_or request_data "description" (VStr EmptyString))]
        with (summary_ticket request_data).
      now rewrite Hprompt. }
    assert (Hrun : handle_comment_summary self request_data w =
                   try_catch (ask_or_unable self prompt "comment summary" key)
                     (fun e => ret (error_generating "comment summary" key e)) w).
    { unfold handle_comment_summary, try_catch. now rewrite Hbody. }
    split; [exact Hrun|].
    intros ai Hai. rewrite Hrun. destruct self as [ai' jira]. cbn [ai_client] in Hai. subst ai'.
    unfold try_catch. rewrite ask_or_unable_run.
    destruct (ai _ _); reflexivity.
  - intros Hf Hj. unfold handle_comment_summary, try_catch, handle_comment_summary_body.
    fold key. fold comments. rewrite Hf, Hj. cbn [negb].
    unfold bind at 1, ret at 1. rewrite Hf. reflexivity.
  - intros jira issue Hf Hj Hfetch Hnone.
    unfold handle_comment_summary, try_catch, handle_comment_summary_body.
    fold key. fold comments. rewrite Hf, Hj. cbn [negb].
    unfold bind at 1. unfold bind at 1, perform at 1. rewrite Hfetch.
    cbn [py_get]. unfold lift at 1. rewrite Hnone. reflexivity.
Qed.

Lemma comment_summary_fetches_only_when_empty_witness :
  handle_comment_summary (MkHandler (Some demo_model) None)
    [("ticketKey", VStr "TEST-123")] (World [] []) =
    (Ok (VStr "No comments found for TEST-123"), World [] []) /\
  (exists prompt,
     calls (snd (handle_comment_summary (MkHandler (Some demo_model) (Some refusing))
                   [("ticketKey", VStr "TEST-123"); ("comments", VList [VStr "LGTM"])]
                   (World [] []))) = [AskOpenAI prompt]).
Proof.
  split.
  - apply (comment_summary_fetches_only_when_empty (MkHandler (Some demo_model) None)
             [("ticketKey", VStr "TEST-123")] (World [] [])); reflexivity.
  - destruct (comment_summary_fetches_only_when_empty
                (MkHandler (Some demo_model) (Some refusing))
                [("ticketKey", VStr "TEST-123"); ("comments", VList [VStr "LGTM"])]
                (World [] [])) as (H & _).
    destruct (H eq_refl) as (prompt & _ & _ & Hcalls).
    exists prompt. exact (Hcalls demo_model eq_refl).
Defined.

(** *** Fix-version check and story analysis *)

(** Runs monadic code on a state by case analysis on everything it tests. *)
Ltac run_m :=
  unfold bind, lift, ret, raise, perform, call_method; cbv beta iota;
  repeat (match goal with
          | |- context [match ?x with _ => _ end] => destruct x eqn:?
          end; cbv beta iota).

Lemma check_fix_version_body_diag self ticket (w w' : world) (diag : string) (v : pyval) :
  check_fix_version_body self ticket w = (Ok (diag, v), w') ->
  In diag ["Missing fix version"; "Multiple fix versions"; "Fix version is valid"].
Proof.
  unfold check_fix_version_body. run_m;
    intros H; try discriminate H; injection H as <- _ _; simpl; tauto.
Qed.

Lemma fix_version_names_dicts (items : list pyval) :
  Forall is_dict items ->
  fix_version_names items = Ok (map (fix_version_name "N/A") items).
Proof.
  induction 1 as [|x items [d ->] _ IH]; [reflexivity|].
  cbn [fix_version_names py_get rbind map fix_version_name]. now rewrite IH.
Qed.

Lemma check_fix_version_no_client (ai : option oracle) (ticket : pydict) (w : world) :
  check_fix_version (MkHandler ai None) ticket w =
    (Ok ("Could not check fix version", VNone), w).
Proof. reflexivity. Qed.

Lemma check_fix_version_raise (ai : option oracle) (jira : oracle) (ticket : pydict)
      (w : world) (e : exn) :
  jira (calls w) (JiraIssue (get_or ticket "ticketKey" (VStr "N/A"))) = Raise e ->
  check_fix_version (MkHandler ai (Some jira)) ticket w =
    (Ok ("Could not check fix version", VNone),
     World (calls w ++ [JiraIssue (get_or ticket "ticketKey" (VStr "N/A"))]) (results w)).
Proof.
  intros He. unfold check_fix_version, try_catch, check_fix_version_body.
  cbn [jira_client call_method]. unfold bind at 1, perform at 1. rewrite He. reflexivity.
Qed.

(** X10: [check_fix_version] never raises and always answers with one of
    four diagnostics.  A tracker that cannot be asked (no client, or the
    request raises) gives [Could not check fix version].  A response whose
    [fixVersions] is absent or empty gives [Missing fix version]; one fix
    version gives [Fix version is valid] with its name; two or more give
    [Multiple fix versions] with the list of their names, in order. *)
Theorem fix_version_diagnostic (self : Handler) (ticket : pydict) (w : world) :
  let key := get_or ticket "ticketKey" (VStr "N/A") in
  (exists diag v,
     fst (check_fix_version self ticket w) = Ok (diag, v) /\
     In diag ["Missing fix version"; "Multiple fix versions"; "Fix version is valid";
              "Could not check fix version"]) /\
  (jira_client self = None ->
   check_fix_version self ticket w = (Ok ("Could not check fix version", VNone), w)) /\
  (forall jira e,
     jira_client self = Some jira ->
     jira (calls w) (JiraIssue key) = Raise e ->
     check_fix_version self ticket w =
       (Ok ("Could not check fix version", VNone),
        World (calls w ++ [JiraIssue key]) (results w))) /\
  (forall jira response fields fvs,
     jira_client self = Some jira ->
     jira (calls w) (JiraIssue key) = Ok (VDict response) ->
     get_or response "fields" (VDict []) = VDict fields ->
     get_or fields "fixVersions" (VList []) = VList fvs ->
     Forall is_dict fvs ->
     check_fix_version self ticket w =
       (Ok (match fvs with
            | [] => ("Missing fix version", VNone)
            | [fv] => ("Fix version is valid", fix_version_name EmptyString fv)
            | _ => ("Multiple fix versions", VList (map (fix_version_name "N/A") fvs))
            end),
        World (calls w ++ [JiraIssue key]) (results w))).
Proof.
  intros key. split; [|split; [|split]].
  - unfold check_fix_version, try_catch.
    destruct (check_fix_version_body self ticket w) as [[[diag v]|e] w'] eqn:E.
    + exists diag, v. split; [reflexivity|].
      apply check_fix_version_body_diag in E. simpl in *. tauto.
    + do 2 eexists. split; [reflexivity|]. simpl. tauto.
  - intros Hj. destruct self as [ai jira]. cbn [jira_client] in Hj. subst jira.
    apply check_fix_version_no_client.
  - intros jira e Hj He. destruct self as [ai jira']. cbn [jira_client] in Hj. subst jira'.
    exact (check_fix_version_raise ai jira ticket w e He).
  - intros jira response fields fvs Hj Hresp Hfields Hfvs Hd.
    unfold check_fix_version, try_catch, check_fix_version_body.
    rewrite Hj. cbn [call_method]. fold key. unfold bind at 1, perform at 1.
    rewrite Hresp. cbn [py_get]. rewrite Hfields.
    unfold bind at 1, lift at 1. cbn [py_get]. rewrite Hfvs.
    unfold bind at 1, lift at 1.
    destruct fvs as [|fv [|fv' fvs]].
    + reflexivity.
    + inversion Hd as [|? ? [d ->] _]; subst. reflexivity.
    + cbn [truthy negb py_len List.length]. unfold bind at 1, lift at 1.
      cbn [Nat.ltb Nat.leb py_iter]. unfold bind at 1, lift at 1.
      rewrite (fix_version_names_dicts _ Hd). reflexivity.
Qed.

Lemma fix_version_diagnostic_witness :
  let versions names :=
    fun (_ : list call) (_ : call) =>
      Ok (VDict [("fields",
                  VDict [("fixVersions",
                          VList (map (fun n => VDict [("name", VStr n)]) names))])]) in
  fst (check_fix_version (MkHandler None (Some (versions ["1.4"; "1.5"])))
         [("ticketKey", VStr "TEST-123")] (World [] [])) =
    Ok ("Multiple fix versions", VList [VStr "1.4"; VStr "1.5"]) /\
  fst (check_fix_version (MkHandler None (Some (versions ["1.4"])))
         [("ticketKey", VStr "TEST-123")] (World [] [])) =
    Ok ("Fix version is valid", VStr "1.4") /\
  fst (check_fix_version (MkHandler None (Some refusing))
         [("ticketKey", VStr "TEST-123")] (World [] [])) =
    Ok ("Could not check fix version", VNone).
Proof.
  intros versions. split; [|split].
  - destruct (fix_version_diagnostic (MkHandler None (Some (versions ["1.4"; "1.5"])))
                [("ticketKey", VStr "TEST-123")] (World [] [])) as (_ & _ & _ & H).
    rewrite (H (versions ["1.4"; "1.5"]) _ _ _ eq_refl eq_refl eq_refl eq_refl).
    + reflexivity.
    + repeat constructor; eexists; reflexivity.
  - destruct (fix_version_diagnostic (MkHandler None (Some (versions ["1.4"])))
                [("ticketKey", VStr "TEST-123")] (World [] [])) as (_ & _ & _ & H).
    rewrite (H (versions ["1.4"]) _ _ _ eq_refl eq_refl eq_refl eq_refl).
    + reflexivity.
    + repeat constructor; eexists; reflexivity.
  - destruct (fix_version_diagnostic (MkHandler None (Some refusing))
                [("ticketKey", VStr "TEST-123")] (World [] [])) as (_ & _ & H & _).
    rewrite (H refusing (Exn HTTPError "503 Service Unavailable") eq_refl eq_refl).
    reflexivity.
Defined.

Lemma story_comment_text_wf (td : pydict) :
  comments_well_formed td = true ->
  exists text,
    (if truthy (get_or td "comments" (VList [])) then
       items <~ py_take_items 3 (get_or td "comments" (VList [])) ;;
       enumerate_comments 1 items EmptyString
     else Ok EmptyString) = Ok text.
Proof.
  unfold comments_well_formed.
  destruct (get_or td "comments" (VList [])) as [|b|z|s|cs|d]; cbn [truthy negb];
    intros H; try rewrite (negb_true_iff _) in H; try rewrite H; eauto; try discriminate.
  destruct cs as [|c cs]; [eauto|].
  cbn [py_take_items rbind]. now apply enumerate_comments_wf.
Qed.

(** The last two statements of [handle]: ask the model, strip its answer. *)
Lemma ask_and_strip_run (ai : oracle) (prompt : string) (w : world) :
  (ai_response <- call_method (Some ai) "ask_openai" (AskOpenAI prompt) ;;
   if truthy ai_response then lift (py_strip ai_response) else ret (VStr EmptyString)) w =
  ask_and_strip ai prompt w.
Proof.
  unfold ask_and_strip, call_method, bind, perform, lift, ret.
  destruct (ai (calls w) (AskOpenAI prompt)) as [r|e]; [|reflexivity].
  destruct (truthy r); reflexivity.
Qed.


(** X11: a tracker that cannot be asked does not stop story analysis.  For
    a ticket with well-formed comments, when there is no tracker client or
    its request raises, the handler still asks the model, once and after
    the tracker attempt, with a prompt that starts with the introduction of
    DEVELOPMENT_TEAM, shows the ticket key, and ends with
    [Fix Version Check: Could not check fix version]; it returns the
    model's answer stripped, the empty string when the model gives no
    text, and lets an exception of the model call through. *)
Theorem story_survives_tracker_failure
        (ai : oracle) (jira : option oracle) (td : pydict) (w : world) :
  let key := get_or td "ticketKey" (VStr "N/A") in
  let asked := match jira with Some _ => [JiraIssue key] | None => [] end in
  comments_well_formed td = true ->
  (forall j, jira = Some j -> exists e, j (calls w) (JiraIssue key) = Raise e) ->
  exists dev middle,
    personas_get (personas new_PromptBuilder) DEVELOPMENT_TEAM = Some dev /\
    let prompt :=
      introduction dev +:+ middle +:+
      fstr [nl; nl; "**Fix Version Check:** "; "Could not check fix version"] in
    handle (MkHandler (Some ai) jira) td w =
      (match ai (calls w ++ asked) (AskOpenAI prompt) with
       | Ok r => if truthy r then py_strip r else Ok (VStr EmptyString)
       | Raise e => Raise e
       end,
       World (calls w ++ asked ++ [AskOpenAI prompt]) (results w)) /\
    in_order ["**Ticket Key:** "; py_str key; "**Recent Comments:**"; "## Story Analysis"]
             middle.
Proof.
  intros key asked Hwf Hfail.
  destruct (story_comment_text_wf td Hwf) as [text Htext].
  assert (Hdev : exists dev,
             personas_get (personas new_PromptBuilder) DEVELOPMENT_TEAM = Some dev /\
             forall d, build_story_analysis_prompt new_PromptBuilder d DEVELOPMENT_TEAM =
                       Ok (introduction dev))
    by (eexists; split; [reflexivity | intros d; reflexivity]).
  destruct Hdev as (dev & Hdev & Hstory).
  assert (Hcheck : check_fix_version (MkHandler (Some ai) jira) td
                     w =
                   (Ok ("Could not check fix version", VNone),
                    World (calls w ++ asked) (results w))).
  { destruct jira as [j|].
    - destruct (Hfail j eq_refl) as [e He].
      exact (check_fix_version_raise (Some ai) j td w e He).
    - unfold asked. rewrite app_nil_r, world_eta. apply check_fix_version_no_client. }
  assert (Hrun : exists middle,
             handle (MkHandler (Some ai) jira) td w =
               ask_and_strip ai
                 ((introduction dev +:+ middle) +:+
                  fstr [nl; nl; "**Fix Version Check:** "; "Could not check fix version"])
                 (World (calls w ++ asked) (results w)) /\
             in_order ["**Ticket Key:** "; py_str key; "**Recent Comments:**";
                       "## Story Analysis"] middle).
  { eexists. split.
    - unfold handle. fold key.
      unfold bind at 1, lift at 1. rewrite Htext.
      unfold bind at 1, lift at 1. unfold prompt_builder. rewrite Hstory.
      unfold bind at 1. rewrite Hcheck. cbn [fst snd truthy].
      unfold bind at 1, ret at 1. cbn [ai_client].
      apply ask_and_strip_run.
    - split_fstr. find_in_order. }
  destruct Hrun as (middle & Hrun & Hord).
  exists dev, middle. split; [exact Hdev|]. cbv zeta. split; [|exact Hord].
  rewrite Hrun. unfold ask_and_strip. cbn [calls results].
  now rewrite append_assoc, <- app_assoc.
Qed.

Lemma story_survives_tracker_failure_witness :
  exists prompt,
    handle (MkHandler (Some demo_model) (Some refusing))
      [("ticketKey", VStr "TEST-123"); ("title", VStr "Login fails")] (World [] []) =
      (Ok (VStr "analysis"),
       World [JiraIssue (VStr "TEST-123"); AskOpenAI prompt] []).
Proof.
  destruct (story_survives_tracker_failure demo_model (Some refusing)
              [("ticketKey", VStr "TEST-123"); ("title", VStr "Login fails")] (World [] []))
    as (dev & middle & _ & Hrun & _).
  - reflexivity.
  - intros j Hj. injection Hj as <-. eexists. reflexivity.
  - eexists. rewrite Hrun. reflexivity.
Defined.

(** *** Epic analysis: which calls are made *)

Lemma str_take_length_le (n : nat) (s : string) : String.length (str_take n s) <= n.
Proof.
  unfold str_take. revert n. induction s as [|c s IH]; intros n.
  - destruct n; simpl; lia.
  - destruct n as [|n]; simpl; [lia|]. specialize (IH n). lia.
Qed.

Lemma length_list_ascii (s : string) :
  List.length (list_ascii_of_string s) = String.length s.
Proof. induction s; simpl; congruence. Qed.

Lemma py_take_items_length (n : nat) (v : pyval) (items : list pyval) :
  py_take_items n v = Ok items -> List.length items <= n.
Proof.
  destruct v; cbn [py_take_items]; intros H; try discriminate H; injection H as <-.
  - rewrite length_map, length_list_ascii. apply str_take_length_le.
  - apply firstn_le_length.
Qed.

(** The loop over the issues asks the details of a prefix of them, one
    request per issue, and makes no other call. *)
Lemma collect_tickets_trace (self : Handler) (issues : list pyval) :
  forall (acc : list ticket_info) (w : world),
  exists ks r,
    List.length ks <= List.length issues /\
    collect_tickets self issues acc w =
      (r, World (calls w ++ map FetchIssueDetails ks) (results w)).
Proof.
  induction issues as [|issue issues IH]; intros acc w.
  - exists [], (Ok acc). cbn. rewrite app_nil_r, world_eta. split; [lia | reflexivity].
  - assert (Hstop : forall e, exists ks r,
              List.length ks <= List.length (issue :: issues) /\
              (@Raise (list ticket_info) e, w) =
              (r, World (calls w ++ map FetchIssueDetails ks) (results w))).
    { intros e. exists [], (Raise e). cbn. rewrite app_nil_r, world_eta.
      split; [lia | reflexivity]. }
    cbn [collect_tickets]. unfold bind at 1, lift at 1.
    destruct (py_get issue "key" VNone) as [k|e]; [|apply Hstop].
    unfold call_method.
    destruct (jira_client self) as [jira|]; [|apply Hstop].
    assert (Hone : forall e, exists ks r,
              List.length ks <= List.length (issue :: issues) /\
              (@Raise (list ticket_info) e, World (calls w ++ [FetchIssueDetails k]) (results w)) =
              (r, World (calls w ++ map FetchIssueDetails ks) (results w))).
    { intros e. exists [k], (Raise e). cbn [map List.length]. split; [lia | reflexivity]. }
    unfold bind at 1, perform at 1.
    destruct (jira (calls w) (FetchIssueDetails k)) as [details|e]; [|apply Hone].
    unfold bind at 1, lift at 1.
    destruct (py_get details "title" (VStr EmptyString)) as [title|e]; [|apply Hone].
    unfold bind at 1, lift at 1.
    destruct (py_get details "status" (VStr EmptyString)) as [status|e]; [|apply Hone].
    unfold bind at 1, lift at 1.
    destruct (py_get details "assigned_teams" (VStr EmptyString)) as [team|e]; [|apply Hone].
    destruct (IH (acc ++ [TicketInfo k title status team])
                 (World (calls w ++ [FetchIssueDetails k]) (results w)))
      as (ks & r & Hlen & Hrun).
    exists (k :: ks), r. split; [simpl; lia|].
    rewrite Hrun. cbn [calls results map]. now rewrite <- app_assoc.
Qed.

(** X12: whatever the payload and whatever the collaborators answer, epic
    analysis makes its calls in one fixed shape: either none at all, or the
    epic query first, then at most 20 details requests, then at most one
    model call, and nothing else.  The model is never asked before the
    tracker, and the [results] store is left alone. *)
Theorem epic_call_discipline (self : Handler) (request_data : pydict) (w : world) :
  exists added,
    snd (handle_epic_analysis self request_data w) = World (calls w ++ added) (results w) /\
    epic_call_shape request_data added.
Proof.
  assert (Hcatch : forall (r : result pyval) (w' : world),
            snd (match r with
                 | Ok a => (Ok a, w')
                 | Raise e =>
                     ret (VStr (fstr ["Error analyzing epic ";
                                      py_str (epic_key_of request_data); ": ";
                                      exn_msg e])) w'
                 end) = w')
    by (intros [a|e] w'; reflexivity).
  assert (Hshape : forall ks model,
            List.length ks <= 20 ->
            (model = [] \/ exists prompt, model = [AskOpenAI prompt]) ->
            epic_call_shape request_data
              (epic_query request_data :: map FetchIssueDetails ks ++ model))
    by (intros ks model Hlen Hm; right; exists ks, model; auto).
  unfold handle_epic_analysis, try_catch.
  destruct (handle_epic_analysis_body self request_data w) as [r w'] eqn:Ebody.
  rewrite Hcatch. change w' with (snd (r, w')). rewrite <- Ebody. clear Ebody Hcatch r w'.
  unfold handle_epic_analysis_body, call_method at 1.
  destruct (jira_client self) as [jira|] eqn:Hj.
  2:{ exists []. cbn. rewrite app_nil_r, world_eta. split; [reflexivity | now left]. }
  fold (epic_query request_data). set (q := epic_query request_data) in *.
  assert (Hq : forall (r : result pyval),
            exists added,
              snd (r, World (calls w ++ [q]) (results w)) =
                World (calls w ++ added) (results w) /\
              epic_call_shape request_data added).
  { intros r. exists [q]. split; [reflexivity|].
    apply (Hshape [] []); [simpl; lia | now left]. }
  unfold bind at 1, perform at 1.
  destruct (jira (calls w) q) as [found|e]; [|apply Hq].
  unfold bind at 1, lift at 1.
  destruct (py_get found "issues" (VList [])) as [epic_issues|e]; [|apply Hq].
  unfold bind at 1, lift at 1.
  destruct (py_take_items 20 epic_issues) as [issues|e] eqn:Htake; [|apply Hq].
  apply py_take_items_length in Htake.
  unfold bind at 1.
  destruct (collect_tickets_trace self issues [] (World (calls w ++ [q]) (results w)))
    as (ks & r & Hlen & Hrun).
  rewrite Hrun. cbn [calls results].
  destruct r as [infos|e].
  2:{ exists (q :: map FetchIssueDetails ks ++ []). split.
      - cbn [snd]. now rewrite app_nil_r, <- app_assoc.
      - apply Hshape; [lia | now left]. }
  unfold call_method.
  destruct (ai_client self) as [ai|].
  2:{ exists (q :: map FetchIssueDetails ks ++ []). split.
      - unfold bind, raise. cbn [snd]. now rewrite app_nil_r, <- app_assoc.
      - apply Hshape; [lia | now left]. }
  unfold bind, perform, ret. cbn [calls results].
  set (prompt := epic_prompt _ _ _ _).
  exists (q :: map FetchIssueDetails ks ++ [AskOpenAI prompt]). split.
  - destruct (ai _ (AskOpenAI prompt)) as [r|e];
      [destruct (truthy r)|]; cbn [snd]; f_equal;
      now rewrite <- !app_assoc.
  - apply Hshape; [lia | right; now exists prompt].
Qed.



(** *** Creating and updating issues *)

(** X14: [update_issue] sends exactly the arguments that are not [None],
    the summary first, in one PUT on the issue, and lists their names in
    [updated_fields]; an empty string is a value like any other.  With
    both arguments [None] it returns the [No fields to update] error
    without any request.  An exception of the request leaves the function. *)
Theorem update_issue_sends_given_fields
        (self : JiraClient) (issue_key : string) (summary description : option string)
        (w : world) :
  let fields := update_fields summary description in
  let request := Http PUT (fstr ["/issue/"; issue_key]) (VDict [("fields", VDict fields)]) in
  (fields = [] <-> summary = None /\ description = None) /\
  (fields = [] ->
   update_issue self issue_key summary description w =
     (Ok (VDict [("status", VStr "error"); ("error", VStr "No fields to update")]), w)) /\
  (fields <> [] ->
   update_issue self issue_key summary description w =
     (match http self (calls w) request with
      | Ok _ => Ok (success [ ("issue_key", VStr issue_key);
                              ("updated_fields", VList (map VStr (map fst fields))) ])
      | Raise e => Raise e
      end,
      World (calls w ++ [request]) (results w))).
Proof.
  cbv zeta. unfold update_fields. split; [|split].
  - destruct summary, description; cbn [app]; split;
      try discriminate; try (intros [? ?]; discriminate); auto.
  - destruct summary, description; cbn [app]; intros H; try discriminate H. reflexivity.
  - intros Hfields. unfold update_issue.
    destruct summary as [s|], description as [d|]; try (now elim Hfields);
      cbn; unfold bind, perform, ret; destruct (http self _ _); reflexivity.
Qed.

Lemma update_issue_sends_given_fields_witness :
  update_issue (MkJira config_example always_ok) "TEST-1" None None (World [] []) =
    (Ok (VDict [("status", VStr "error"); ("error", VStr "No fields to update")]),
     World [] []) /\
  update_issue (MkJira config_example always_ok) "TEST-1" None (Some EmptyString)
    (World [] []) =
    (Ok (success [ ("issue_key", VStr "TEST-1");
                   ("updated_fields", VList [VStr "description"]) ]),
     World [Http PUT "/issue/TEST-1"
              (VDict [("fields", VDict [("description", VStr EmptyString)])])] []).
Proof.
  split.
  - apply (update_issue_sends_given_fields (MkJira config_example always_ok) "TEST-1"
             None None (World [] [])). reflexivity.
  - apply (update_issue_sends_given_fields (MkJira config_example always_ok) "TEST-1"
             None (Some EmptyString) (World [] [])). discriminate.
Defined.

(** [create_subtask] step by step: the read of the parent, the project
    key taken from it, the POST. *)
Lemma create_subtask_run
      (self : JiraClient) (parent_key summary description : string) (w : world) :
  let read := Http GET (fstr ["/issue/"; parent_key]) VNone in
  let w1 := World (calls w ++ [read]) (results w) in
  create_subtask self parent_key summary description w =
    match (parent <~ http self (calls w) read ;; parent_project_key parent) with
    | Raise e => (Raise e, w1)
    | Ok project_key =>
        let post := create_request
                      [ ("project", VDict [("key", project_key)]);
                        ("parent", VDict [("key", VStr parent_key)]);
                        ("issuetype", VDict [("name", VStr "Sub-task")]);
                        ("summary", VStr summary);
                        ("description", VStr description) ] in
        (Ok (created (http self (calls w1) post)),
         World (calls w ++ [read; post]) (results w))
    end.
Proof.
  intros read w1. unfold create_subtask, get_issue, parent_project_key. fold read.
  unfold bind at 1, perform at 1. fold w1.
  destruct (http self (calls w) read) as [parent|e]; [|reflexivity].
  cbn [rbind]. unfold bind at 1, lift at 1.
  destruct (py_index parent "fields") as [fields|e]; [|reflexivity].
  cbn [rbind]. unfold bind at 1, lift at 1.
  destruct (py_index fields "project") as [project|e]; [|reflexivity].
  cbn [rbind]. unfold bind at 1, lift at 1.
  destruct (py_index project "key") as [k|e]; [|reflexivity].
  unfold try_catch, perform, ret, create_request. cbn [calls results w1].
  rewrite <- app_assoc. cbn [app].
  destruct (http self (calls w ++ [read]) (Http POST _ _)); reflexivity.
Qed.

(** X15: once the parent issue is read and holds a project key,
    [create_subtask] sends one POST for a [Sub-task] under the parent, in
    the parent's project, and returns the decoded answer; when that POST
    raises it returns [None] and does not raise. *)
Theorem create_subtask_in_parent_project
        (self : JiraClient) (parent_key summary description : string) (w : world)
        (parent project_key : pyval) :
  let read := Http GET (fstr ["/issue/"; parent_key]) VNone in
  let post := create_request
                [ ("project", VDict [("key", project_key)]);
                  ("parent", VDict [("key", VStr parent_key)]);
                  ("issuetype", VDict [("name", VStr "Sub-task")]);
                  ("summary", VStr summary);
                  ("description", VStr description) ] in
  http self (calls w) read = Ok parent ->
  parent_project_key parent = Ok project_key ->
  create_subtask self parent_key summary description w =
    (Ok (created (http self (calls w ++ [read]) post)),
     World (calls w ++ [read; post]) (results w)).
Proof.
  intros read post Hread Hkey.
  rewrite create_subtask_run. fold read. rewrite Hread. cbn [rbind]. rewrite Hkey.
  reflexivity.
Qed.

Lemma create_subtask_in_parent_project_witness :
  create_subtask
    (MkJira config_example
       (fun _ c =>
          match c with
          | Http GET _ _ => Ok (VDict [("fields", VDict [("project", VDict [("key", VStr "QA")])])])
          | _ => Raise (Exn HTTPError "400 Bad Request")
          end))
    "QA-7" "Check login" EmptyString (World [] []) =
    (Ok VNone,
     World [ Http GET "/issue/QA-7" VNone;
             create_request
               [ ("project", VDict [("key", VStr "QA")]);
                 ("parent", VDict [("key", VStr "QA-7")]);
                 ("issuetype", VDict [("name", VStr "Sub-task")]);
                 ("summary", VStr "Check login");
                 ("description", VStr EmptyString) ] ] []).
Proof.
  apply (create_subtask_in_parent_project
           (MkJira config_example
              (fun _ c =>
                 match c with
                 | Http GET _ _ =>
                     Ok (VDict [("fields", VDict [("project", VDict [("key", VStr "QA")])])])
                 | _ => Raise (Exn HTTPError "400 Bad Request")
                 end))
           "QA-7" "Check login" EmptyString (World [] [])
           (VDict [("fields", VDict [("project", VDict [("key", VStr "QA")])])]) (VStr "QA"));
    reflexivity.
Defined.

(** X16: [create_subtask] raises only before its POST.  Whenever it
    raises, the only request made is the read of the parent issue, so
    nothing was created; this is the case when the read raises and when
    the parent holds no project key. *)
Theorem create_subtask_raises_before_post
        (self : JiraClient) (parent_key summary description : string) (w : world) :
  let read := Http GET (fstr ["/issue/"; parent_key]) VNone in
  (forall e, fst (create_subtask self parent_key summary description w) = Raise e ->
     snd (create_subtask self parent_key summary description w) =
       World (calls w ++ [read]) (results w)) /\
  (forall e, http self (calls w) read = Raise e ->
     fst (create_subtask self parent_key summary description w) = Raise e) /\
  (forall parent e, http self (calls w) read = Ok parent ->
     parent_project_key parent = Raise e ->
     fst (create_subtask self parent_key summary description w) = Raise e).
Proof.
  intros read. rewrite create_subtask_run. fold read. cbv zeta.
  destruct (http self (calls w) read) as [parent|e0]; cbn [rbind].
  - destruct (parent_project_key parent) as [k|e1] eqn:Hk; cbn [fst snd];
      repeat split; intros; try discriminate; try reflexivity; congruence.
  - cbn [fst snd]. repeat split; intros; try discriminate; try reflexivity; congruence.
Qed.

Lemma create_subtask_raises_before_post_witness :
  create_subtask (MkJira config_example always_ok) "QA-7" "Check login" EmptyString
    (World [] []) =
    (Raise (Exn KeyError "'fields'"), World [Http GET "/issue/QA-7" VNone] []).
Proof.
  pose proof (create_subtask_raises_before_post (MkJira config_example always_ok)
                "QA-7" "Check login" EmptyString (World [] [])) as (Hw & _ & Hkey).
  rewrite (surjective_pairing (create_subtask _ _ _ _ _)).
  rewrite (Hw (Exn KeyError "'fields'")), (Hkey (VDict []) (Exn KeyError "'fields'"));
    reflexivity.
Defined.

(** X17: [create_issue] never raises and sends exactly one POST.  Its
    fields are the project key, the issue type, the summary and the
    description, then the epic link under [customfield_12340] and the fix
    version as a one-element list of names, each only when given and not
    empty.  It returns the decoded answer, [None] when the POST raises. *)
Theorem create_issue_one_post
        (self : JiraClient) (project issue_type summary description : string)
        (epic_link fix_version : option string) (w : world) :
  let fields :=
    [ ("project", VDict [("key", VStr project)]);
      ("issuetype", VDict [("name", VStr issue_type)]);
      ("summary", VStr summary);
      ("description", VStr description) ] ++
    match epic_link with
    | Some (String c link) => [("customfield_12340", VStr (String c link))]
    | _ => []
    end ++
    match fix_version with
    | Some (String c version) =>
        [("fixVersions", VList [VDict [("name", VStr (String c version))]])]
    | _ => []
    end in
  create_issue self project issue_type summary description epic_link fix_version w =
    (Ok (created (http self (calls w) (create_request fields))),
     World (calls w ++ [create_request fields]) (results w)).
Proof.
  cbv zeta. unfold create_issue, given, create_request, try_catch, perform, ret.
  destruct epic_link as [[|c1 l]|], fix_version as [[|c2 v]|];
    cbn [String.eqb app dict_set]; cbn;
    match goal with |- context [http self ?h ?c] => destruct (http self h c) end;
    reflexivity.
Qed.

(** *** The model tools of the server *)

Lemma get_handlers_none (p : Process) (ai : option oracle) (w : world) :
  ai = None \/ JIRA_URL p = EmptyString ->
  get_handlers p ai w = (Ok None, w).
Proof.
  intros [-> | H]; [reflexivity|].
  destruct ai as [m|]; [|reflexivity].
  unfold get_handlers, try_catch, bind, get_jira. rewrite H. reflexivity.
Qed.

Lemma get_handlers_some (p : Process) (m : oracle) (w : world) :
  JIRA_URL p <> EmptyString ->
  get_handlers p (Some m) w =
    (Ok (Some (MkTable (MkHandler (Some m) (Some jira_object))
                       (MkHandler (Some m) None)
                       (MkHandler (Some m) None)
                       (MkHandler (Some m) None)
                       (MkHandler (Some m) (Some jira_object))
                       (MkHandler (Some m) (Some jira_object)))), w).
Proof.
  intros H. unfold get_handlers, try_catch, bind. rewrite (get_jira_ok p w H). reflexivity.
Qed.

Lemma truthy_str (s : string) : s <> EmptyString -> truthy (VStr s) = true.
Proof. intros H. cbn [truthy]. apply String.eqb_neq in H. now rewrite H. Qed.

(** X18: without a model client, and also when [JIRA_URL] is not set, each
    of the six model tools answers with the error envelope [AI client not
    available] and makes no call. *)
Theorem ai_tools_unavailable (p : Process) (ai : option oracle) (t : ai_tool) (w : world) :
  ai = None \/ JIRA_URL p = EmptyString ->
  run_ai_tool p ai t w = (Ok (error_envelope "AI client not available"), w).
Proof.
  intros H.
  destruct t; cbn [run_ai_tool];
    unfold qa_generate_test_cases, qa_root_cause_analysis, qa_generate_reproduction_steps,
      text_tool, qa_summarize_comments, qa_analyze_story, qa_analyze_epic;
    unfold bind at 1; rewrite (get_handlers_none p ai w H); reflexivity.
Qed.

Lemma ai_tools_unavailable_witness :
  run_ai_tool (MkProcess EmptyString config_example always_ok) (Some demo_model)
    (AnalyzeEpic "EPIC-1" "core") (World [] []) =
    (Ok (error_envelope "AI client not available"), World [] []).
Proof.
  apply (ai_tools_unavailable (MkProcess EmptyString config_example always_ok)
           (Some demo_model) (AnalyzeEpic "EPIC-1" "core") (World [] [])).
  right. reflexivity.
Defined.

(** X19: the tools for test cases, root cause and reproduction steps do
    not ask the tracker when title and description are both given.  They
    make one model call, with the prompt built from key, title and
    description, and always answer with status [success]: the model's
    text, [Unable to generate ...] when it is empty, [Error generating ...]
    when the model call raises. *)
Theorem text_tools_use_given_texts
        (h : template_handler) (p : Process) (m : oracle)
        (issue_key title description : string) (w : world) :
  h <> CommentSummary ->
  JIRA_URL p <> EmptyString ->
  title <> EmptyString ->
  description <> EmptyString ->
  let request_data :=
    [ ("ticketKey", VStr issue_key); ("title", VStr title);
      ("description", VStr description) ] in
  exists prompt,
    prompt_of h request_data = Ok prompt /\
    text_tool_of h p (Some m) issue_key title description w =
      (Ok (VDict [ ("status", VStr "success"); ("issue_key", VStr issue_key);
                   (result_key_of h,
                    match m (calls w) (AskOpenAI prompt) with
                    | Ok r => if truthy r then r
                              else unable_to_generate (kind_of h) (VStr issue_key)
                    | Raise e => error_generating (kind_of h) (VStr issue_key) e
                    end) ]),
       World (calls w ++ [AskOpenAI prompt]) (results w)).
Proof.
  intros Hh Hurl Ht Hd request_data.
  assert (Hprompt : exists prompt, prompt_of h request_data = Ok prompt).
  { destruct h; cbn [prompt_of];
      unfold build_test_cases_prompt, build_root_cause_prompt,
        build_reproduction_steps_prompt, build_comment_summary_prompt;
      apply build_analysis_prompt_total. }
  destruct Hprompt as [prompt Hprompt]. exists prompt. split; [exact Hprompt|].
  destruct h; try (now elim Hh); cbn [text_tool_of result_key_of kind_of prompt_of] in *;
    unfold qa_generate_test_cases, qa_root_cause_analysis, qa_generate_reproduction_steps,
      text_tool;
    (unfold bind at 1; rewrite (get_handlers_some p m w Hurl);
     rewrite (truthy_str title Ht), (truthy_str description Hd); cbn [negb orb];
     unfold bind at 1, ret at 1; cbn [fst snd];
     fold request_data;
     unfold handle_test_cases, handle_root_cause, handle_reproduction_steps,
       handle_test_cases_body, handle_root_cause_body, handle_reproduction_steps_body,
       prompt_builder;
     cbn [h_test_cases h_root_cause h_reproduction_steps];
     unfold bind at 1, try_catch at 1, bind at 1, lift at 1;
     rewrite Hprompt, ask_or_unable_run;
     unfold ret, unable_to_generate, error_generating; cbn [get_or dict_get String.eqb];
     destruct (m (calls w) (AskOpenAI prompt)) as [r|e]; [destruct (truthy r)|];
     reflexivity).
Qed.

Lemma text_tools_use_given_texts_witness :
  exists prompt,
    qa_root_cause_analysis (MkProcess "https://jira.example.com" config_example refusing)
      (Some refusing) "TEST-123" "Login fails" "Error 500 on submit" (World [] []) =
      (Ok (VDict [ ("status", VStr "success"); ("issue_key", VStr "TEST-123");
                   ("analysis",
                    VStr ("Error generating root cause analysis for 'TEST-123': " +:+
                          "503 Service Unavailable")) ]),
       World [AskOpenAI prompt] []).
Proof.
  destruct (text_tools_use_given_texts RootCause
              (MkProcess "https://jira.example.com" config_example refusing) refusing
              "TEST-123" "Login fails" "Error 500 on submit" (World [] []))
    as (prompt & _ & Hrun); try discriminate.
  exists prompt. exact Hrun.
Defined.

(** The request the tools read an issue with. *)
Lemma get_issue_run (jira : JiraClient) (issue_key : string) (w : world) :
  get_issue jira issue_key w =
    (http jira (calls w) (Http GET (fstr ["/issue/"; issue_key]) VNone),
     World (calls w ++ [Http GET (fstr ["/issue/"; issue_key]) VNone]) (results w)).
Proof. reflexivity. Qed.

Lemma py_or_same (a : pyval) : py_or a a = a.
Proof. unfold py_or. now destruct (truthy a). Qed.

(** X20: epic analysis never reaches the model through the server.  The
    handler is given the [JiraClient], which has no attribute [jira]: once
    the epic is read and has a summary, [qa_analyze_epic] answers with
    status [success] and the analysis text [Error analyzing epic <key>:
    'JiraClient' object has no attribute 'jira'], whatever the model would
    say, and no model call is made. *)
Theorem epic_tool_never_asks_model
        (p : Process) (m : oracle) (epic_key primary_team : string) (w : world)
        (issue title : pyval) :
  JIRA_URL p <> EmptyString ->
  jira_http p (calls w) (Http GET (fstr ["/issue/"; epic_key]) VNone) = Ok issue ->
  truthy issue = true ->
  field_index issue "summary" = Ok title ->
  fst (qa_analyze_epic p (Some m) epic_key primary_team w) =
    Ok (VDict [ ("status", VStr "success"); ("epic_key", VStr epic_key);
                ("analysis",
                 VStr (fstr [ "Error analyzing epic "; epic_key; ": ";
                              "'JiraClient' object has no attribute 'jira'" ])) ]) /\
  no_new_model_call (calls w) (calls (snd (qa_analyze_epic p (Some m) epic_key primary_team w))).
Proof.
  intros Hurl Hget Htruthy Htitle.
  assert (Hrun : exists jql,
             qa_analyze_epic p (Some m) epic_key primary_team w =
               (Ok (VDict [ ("status", VStr "success"); ("epic_key", VStr epic_key);
                            ("analysis",
                             VStr (fstr [ "Error analyzing epic "; epic_key; ": ";
                                          "'JiraClient' object has no attribute 'jira'" ])) ]),
                World ((calls w ++ [Http GET (fstr ["/issue/"; epic_key]) VNone]) ++
                       [JiraJql jql]) (results w))).
  { eexists. unfold qa_analyze_epic.
    unfold bind at 1. rewrite (get_handlers_some p m w Hurl).
    unfold bind at 1. rewrite (get_jira_ok p w Hurl).
    unfold bind at 1. rewrite get_issue_run. cbn [http]. rewrite Hget, Htruthy. cbn [negb].
    unfold bind at 1, lift at 1. rewrite Htitle.
    cbn [h_epic_analysis].
    unfold handle_epic_analysis, handle_epic_analysis_body, try_catch, call_method.
    cbn [jira_client]. unfold bind, perform, ret. cbn [jira_object fst snd calls results].
    unfold epic_key_of, get_none. cbn [get_or dict_get String.eqb Ascii.eqb Bool.eqb].
    rewrite py_or_same. reflexivity. }
  destruct Hrun as [jql Hrun]. rewrite Hrun. cbn [fst snd calls].
  split; [reflexivity|].
  intros prompt Hin.
  apply in_app_or in Hin. destruct Hin as [Hin | [Hin | []]]; [|discriminate Hin].
  apply in_app_or in Hin. destruct Hin as [Hin | [Hin | []]]; [exact Hin | discriminate Hin].
Qed.

Lemma epic_tool_never_asks_model_witness :
  fst (qa_analyze_epic
         (MkProcess "https://jira.example.com" config_example
            (fun _ _ => Ok (VDict [("fields", VDict [("summary", VStr "Checkout")])])))
         (Some demo_model) "EPIC-1" "core" (World [] [])) =
    Ok (VDict [ ("status", VStr "success"); ("epic_key", VStr "EPIC-1");
                ("analysis",
                 VStr ("Error analyzing epic EPIC-1: " +:+
                       "'JiraClient' object has no attribute 'jira'")) ]).
Proof.
  apply (epic_tool_never_asks_model
           (MkProcess "https://jira.example.com" config_example
              (fun _ _ => Ok (VDict [("fields", VDict [("summary", VStr "Checkout")])])))
           demo_model "EPIC-1" "core" (World [] [])
           (VDict [("fields", VDict [("summary", VStr "Checkout")])]) (VStr "Checkout"));
    [discriminate | reflexivity | reflexivity | reflexivity].
Defined.

(** X21: through the server, a ticket without comments is never answered
    with [No comments found].  When the issue is read, has a summary and
    carries no comment, the comment-summary handler turns to the
    [JiraClient] for the comments, which has no [fetch_issue_details]:
    [qa_summarize_comments] answers with status [success] and the text
    [Error generating comment summary for '<key>': 'JiraClient' object has
    no attribute 'fetch_issue_details'], and no model call is made. *)
Theorem summarize_tool_without_comments
        (p : Process) (m : oracle) (issue_key : string) (w : world)
        (issue title description : pyval) :
  JIRA_URL p <> EmptyString ->
  jira_http p (calls w) (Http GET (fstr ["/issue/"; issue_key]) VNone) = Ok issue ->
  truthy issue = true ->
  tool_comments issue = Ok [] ->
  field_index issue "summary" = Ok title ->
  field_get issue "description" (VStr EmptyString) = Ok description ->
  fst (qa_summarize_comments p (Some m) issue_key w) =
    Ok (VDict [ ("status", VStr "success"); ("issue_key", VStr issue_key);
                ("summary",
                 VStr (fstr [ "Error generating comment summary for '"; issue_key; "': ";
                              "'JiraClient' object has no attribute 'fetch_issue_details'" ])) ])
  /\
  no_new_model_call (calls w) (calls (snd (qa_summarize_comments p (Some m) issue_key w))).
Proof.
  intros Hurl Hget Htruthy Hcomments Htitle Hdescription.
  assert (Hrun :
            qa_summarize_comments p (Some m) issue_key w =
              (Ok (VDict [ ("status", VStr "success"); ("issue_key", VStr issue_key);
                           ("summary",
                            VStr (fstr [ "Error generating comment summary for '"; issue_key;
                                         "': ";
                                         "'JiraClient' object has no attribute 'fetch_issue_details'" ])) ]),
               World ((calls w ++ [Http GET (fstr ["/issue/"; issue_key]) VNone]) ++
                      [FetchIssueDetails (VStr issue_key)]) (results w))).
  { unfold qa_summarize_comments.
    unfold bind at 1. rewrite (get_handlers_some p m w Hurl).
    unfold bind at 1. rewrite (get_jira_ok p w Hurl).
    unfold bind at 1. rewrite get_issue_run. cbn [http]. rewrite Hget, Htruthy. cbn [negb].
    unfold bind at 1, lift at 1. rewrite Hcomments.
    unfold bind at 1, lift at 1. rewrite Htitle.
    unfold bind at 1, lift at 1. rewrite Hdescription.
    cbn [h_comment_summary].
    unfold handle_comment_summary, handle_comment_summary_body, try_catch.
    cbn [jira_client get_or dict_get String.eqb Ascii.eqb Bool.eqb truthy negb].
    unfold bind, perform, ret. cbn [jira_object fst snd calls results].
    reflexivity. }
  rewrite Hrun. cbn [fst snd calls].
  split; [reflexivity|].
  intros prompt Hin.
  apply in_app_or in Hin. destruct Hin as [Hin | [Hin | []]]; [|discriminate Hin].
  apply in_app_or in Hin. destruct Hin as [Hin | [Hin | []]]; [exact Hin | discriminate Hin].
Qed.

Lemma summarize_tool_without_comments_witness :
  fst (qa_summarize_comments
         (MkProcess "https://jira.example.com" config_example
            (fun _ _ => Ok (VDict [("fields", VDict [("summary", VStr "Checkout")])])))
         (Some demo_model) "TEST-123" (World [] [])) =
    Ok (VDict [ ("status", VStr "success"); ("issue_key", VStr "TEST-123");
                ("summary",
                 VStr ("Error generating comment summary for 'TEST-123': " +:+
                       "'JiraClient' object has no attribute 'fetch_issue_details'")) ]).
Proof.
  apply (summarize_tool_without_comments
           (MkProcess "https://jira.example.com" config_example
              (fun _ _ => Ok (VDict [("fields", VDict [("summary", VStr "Checkout")])])))
           demo_model "TEST-123" (World [] [])
           (VDict [("fields", VDict [("summary", VStr "Checkout")])]) (VStr "Checkout")
           (VStr EmptyString));
    [discriminate | reflexivity | reflexivity | reflexivity | reflexivity | reflexivity].
Defined.

(** *** The summary of an issue *)

(** X22: a response without [fields], or with an empty one, is summarised
    without raising: the key is copied, every scalar entry is [None] and
    every list is empty. *)
Theorem issue_summary_without_fields (cfg : Config) (d : pydict) :
  get_or d "fields" (VDict []) = VDict [] ->
  issue_summary cfg (VDict d) =
    Ok (VDict [ ("key", get_or d "key" VNone); ("summary", VNone); ("description", VNone);
                ("type", VNone); ("status", VNone); ("priority", VNone);
                ("assignee", VNone); ("reporter", VNone);
                ("created", VNone); ("updated", VNone);
                ("fix_versions", VList []); ("labels", VList []);
                ("subtasks", VList []); ("comments", VList []);
                ("links", VList []);
                ("validator", VNone); ("test_result", VNone) ]).
Proof.
  intros H. unfold issue_summary. cbn [py_get rbind]. rewrite H. reflexivity.
Qed.

Lemma issue_summary_without_fields_witness :
  exists s,
    issue_summary config_example (VDict [("key", VStr "TEST-1")]) = Ok (VDict s) /\
    dict_get "key" s = Some (VStr "TEST-1") /\
    dict_get "comments" s = Some (VList []).
Proof.
  eexists. split.
  - apply (issue_summary_without_fields config_example [("key", VStr "TEST-1")]).
    reflexivity.
  - split; reflexivity.
Defined.

(** X23: an issue whose priority is [null] cannot be summarised.  The
    lookup of the priority name is not guarded the way those of assignee
    and reporter are, so [issue_summary] raises, and [qa_get_issue_details]
    answers with an error envelope after its one request. *)
Theorem null_priority_no_details
        (p : Process) (issue_key : string) (w : world) (d fields : pydict) :
  let read := Http GET (fstr ["/issue/"; issue_key])
                (VDict [("expand", VStr "renderedFields,changelog")]) in
  JIRA_URL p <> EmptyString ->
  jira_http p (calls w) read = Ok (VDict d) ->
  dict_get "fields" d = Some (VDict fields) ->
  dict_get "priority" fields = Some VNone ->
  (exists e, issue_summary (jira_config p) (VDict d) = Raise e) /\
  exists msg,
    qa_get_issue_details (issue_summary (jira_config p)) p issue_key w =
      (Ok (error_envelope msg), World (calls w ++ [read]) (results w)).
Proof.
  intros read Hurl Hget Hfields Hpriority.
  assert (Hraise : exists e, issue_summary (jira_config p) (VDict d) = Raise e).
  { unfold issue_summary. cbn [py_get]. unfold get_or at 1. rewrite Hfields. cbn [rbind].
    repeat match goal with
           | |- exists e, (rbind ?r _) = Raise e =>
               let E := fresh "E" in
               destruct r eqn:E; cbn [rbind]; [|eauto]
           end.
    unfold get2 in *. cbn [py_get rbind] in *.
    match goal with
    | H : py_get (get_or fields "priority" _) _ _ = Ok _ |- _ =>
        unfold get_or in H; rewrite Hpriority in H; discriminate H
    end. }
  split; [exact Hraise|].
  destruct Hraise as [e He]. exists (exn_msg e).
  unfold qa_get_issue_details. unfold bind at 1. rewrite (get_jira_ok p w Hurl).
  unfold try_catch, get_issue_full, bind, perform, lift, ret. cbn [http]. fold read.
  rewrite Hget, He. reflexivity.
Qed.

Lemma null_priority_no_details_witness :
  exists msg,
    qa_get_issue_details (issue_summary config_example)
      (MkProcess "https://jira.example.com" config_example
         (fun _ _ => Ok (VDict [ ("key", VStr "TEST-1");
                                 ("fields", VDict [ ("summary", VStr "Login fails");
                                                    ("assignee", VNone);
                                                    ("priority", VNone) ]) ])))
      "TEST-1" (World [] []) =
      (Ok (error_envelope msg),
       World [Http GET "/issue/TEST-1"
                (VDict [("expand", VStr "renderedFields,changelog")])] []).
Proof.
  destruct (null_priority_no_details
              (MkProcess "https://jira.example.com" config_example
                 (fun _ _ => Ok (VDict [ ("key", VStr "TEST-1");
                                         ("fields", VDict [ ("summary", VStr "Login fails");
                                                            ("assignee", VNone);
                                                            ("priority", VNone) ]) ])))
              "TEST-1" (World [] [])
              [ ("key", VStr "TEST-1");
                ("fields", VDict [ ("summary", VStr "Login fails");
                                   ("assignee", VNone); ("priority", VNone) ]) ]
              [ ("summary", VStr "Login fails"); ("assignee", VNone); ("priority", VNone) ])
    as (_ & msg & Hrun); [discriminate | reflexivity | reflexivity | reflexivity |].
  exists msg. exact Hrun.
Defined.

(** *** Asking the model: the retry loop *)

(** The loop runs into its first success, or fails [left] times. *)
Lemma attempts_run (self : AIClient) (prompt : string) :
  forall (left delay : nat) (trace : list event),
    (attempts self prompt left delay trace =
       (Ok VNone, trace ++ failed_attempts prompt left delay) /\
     forall k, k < left ->
       exists e, completion self (trace ++ failed_attempts prompt k delay) prompt = Raise e) \/
    (exists k content,
       k < left /\
       (forall j, j < k ->
          exists e, completion self (trace ++ failed_attempts prompt j delay) prompt = Raise e) /\
       completion self (trace ++ failed_attempts prompt k delay) prompt = Ok content /\
       attempts self prompt left delay trace =
         (Ok content, trace ++ failed_attempts prompt k delay ++ [Completion prompt])).
Proof.
  induction left as [|left IH]; intros delay trace.
  - left. cbn [attempts failed_attempts]. rewrite app_nil_r. split; [reflexivity|].
    intros k Hk. lia.
  - cbn [attempts]. destruct (completion self trace prompt) as [content|e] eqn:Hc.
    + right. exists 0, content. cbn [failed_attempts app]. rewrite app_nil_r.
      repeat split; [lia | intros j Hj; lia | exact Hc].
    + destruct (IH (delay * 2) (trace ++ [Completion prompt; Sleep delay]))
        as [[Hrun Hfail] | (k & content & Hk & Hfail & Hok & Hrun)].
      * left. rewrite Hrun. cbn [failed_attempts]. rewrite <- app_assoc. cbn [app].
        split; [reflexivity|].
        intros [|k] Hk.
        -- cbn [failed_attempts]. rewrite app_nil_r. eauto.
        -- cbn [failed_attempts]. specialize (Hfail k ltac:(lia)).
           rewrite <- app_assoc in Hfail. exact Hfail.
      * right. exists (S k), content. cbn [failed_attempts].
        rewrite <- !app_assoc in *. cbn [app] in *.
        repeat split; [lia | | exact Hok | exact Hrun].
        intros [|j] Hj.
        -- cbn [failed_attempts]. rewrite app_nil_r. eauto.
        -- cbn [failed_attempts]. specialize (Hfail j ltac:(lia)).
           rewrite <- app_assoc in Hfail. exact Hfail.
Qed.

Lemma completions_app (a b : list event) :
  completions (a ++ b) = completions a + completions b.
Proof. induction a as [|[| |] a IH]; cbn [app completions]; lia. Qed.

Lemma slept_app (a b : list event) : slept (a ++ b) = slept a + slept b.
Proof. induction a as [|[| |] a IH]; cbn [app slept]; lia. Qed.

Lemma completions_failed (prompt : string) (k : nat) :
  forall delay, completions (failed_attempts prompt k delay) = k.
Proof. induction k as [|k IH]; intros delay; cbn [failed_attempts completions]; auto. Qed.

Lemma slept_failed (prompt : string) (k : nat) :
  forall delay, slept (failed_attempts prompt k delay) = delay * (2 ^ k - 1).
Proof.
  induction k as [|k IH]; intros delay; cbn [failed_attempts slept].
  - cbn. lia.
  - rewrite IH. rewrite Nat.pow_succ_r'.
    assert (0 < 2 ^ k) by (apply Nat.neq_0_lt_0, Nat.pow_nonzero; lia). nia.
Qed.

(** X24: [ask_openai] asks for a token first and then makes at most five
    completion requests.  Every failed attempt is followed by a sleep, 1
    second after the first and twice the previous one after each next, so
    at most 31 seconds are slept.  It raises only when fetching the token
    raises, and without a token it makes no completion request and returns
    [None]. *)
Theorem ask_openai_bounded_retries (self : AIClient) (prompt : string) (trace : list event) :
  exists k added,
    snd (ask_openai self prompt trace) = trace ++ TokenRequest :: added /\
    k <= 5 /\
    (added = failed_attempts prompt k 1 \/
     added = failed_attempts prompt k 1 ++ [Completion prompt]) /\
    completions added <= 5 /\
    slept added <= 31 /\
    (forall e, fst (ask_openai self prompt trace) = Raise e <->
               access_token self trace = Raise e) /\
    (forall token, access_token self trace = Ok token -> truthy token = false ->
       added = [] /\ fst (ask_openai self prompt trace) = Ok VNone).
Proof.
  assert (Hsleep : forall k, k <= 5 -> slept (failed_attempts prompt k 1) <= 31).
  { intros k Hk. rewrite slept_failed.
    assert (2 ^ k <= 2 ^ 5) by (apply Nat.pow_le_mono_r; lia).
    change (2 ^ 5) with 32 in *. lia. }
  unfold ask_openai.
  destruct (access_token self trace) as [token|e] eqn:Htoken.
  2:{ exists 0, []. cbn [snd fst failed_attempts completions slept].
      repeat split; auto; try lia; try congruence. }
  destruct (truthy token) eqn:Htruthy; cbn [negb].
  2:{ exists 0, []. cbn [snd fst failed_attempts completions slept].
      repeat split; auto; try lia; try discriminate. }
  destruct (attempts_run self prompt 5 1 (trace ++ [TokenRequest]))
    as [[Hrun _] | (k & content & Hk & _ & _ & Hrun)]; rewrite Hrun; cbn [fst snd].
  - exists 5, (failed_attempts prompt 5 1). rewrite <- app_assoc. cbn [app].
    split; [reflexivity|]. split; [lia|]. split; [now left|].
    split; [rewrite completions_failed; lia|].
    split; [apply Hsleep; lia|].
    split; [split; intros H; discriminate H | intros t Ht; congruence].
  - exists k, (failed_attempts prompt k 1 ++ [Completion prompt]).
    rewrite <- app_assoc. cbn [app].
    split; [reflexivity|]. split; [lia|]. split; [now right|].
    split; [rewrite completions_app, completions_failed; cbn [completions]; lia|].
    split; [rewrite slept_app; cbn [slept]; specialize (Hsleep k ltac:(lia)); lia|].
    split; [split; intros H; discriminate H | intros t Ht; congruence].
Qed.

Lemma ask_openai_bounded_retries_witness :
  ask_openai (MkAIClient (fun _ => Ok VNone) (fun _ _ => Ok (VStr "unused")))
    "Summarise" [] = (Ok VNone, [TokenRequest]).
Proof.
  destruct (ask_openai_bounded_retries
              (MkAIClient (fun _ => Ok VNone) (fun _ _ => Ok (VStr "unused")))
              "Summarise" [])
    as (k & added & Hsnd & _ & _ & _ & _ & _ & Hnone).
  destruct (Hnone VNone eq_refl eq_refl) as [Hadded Hfst].
  rewrite (surjective_pairing (ask_openai _ _ _)), Hfst, Hsnd, Hadded. reflexivity.
Defined.

(** X25: when the token is there and every completion attempt raises,
    [ask_openai] gives up after exactly five attempts and returns [None]
    without raising, having slept 1, 2, 4, 8 and 16 seconds, the last
    sleep after the last attempt. *)
Theorem ask_openai_gives_up (self : AIClient) (prompt : string) (trace : list event)
        (token : pyval) :
  access_token self trace = Ok token ->
  truthy token = true ->
  (forall history, exists e, completion self history prompt = Raise e) ->
  ask_openai self prompt trace =
    (Ok VNone,
     trace ++ [ TokenRequest;
                Completion prompt; Sleep 1; Completion prompt; Sleep 2;
                Completion prompt; Sleep 4; Completion prompt; Sleep 8;
                Completion prompt; Sleep 16 ]).
Proof.
  intros Htoken Htruthy Hfail.
  unfold ask_openai. rewrite Htoken, Htruthy. cbn [negb].
  destruct (attempts_run self prompt 5 1 (trace ++ [TokenRequest]))
    as [[Hrun _] | (k & content & _ & _ & Hok & _)].
  - rewrite Hrun, <- app_assoc. reflexivity.
  - destruct (Hfail (trace ++ [TokenRequest] ++ failed_attempts prompt k 1)) as [e He].
    rewrite app_assoc in He. congruence.
Qed.

Lemma ask_openai_gives_up_witness :
  ask_openai (MkAIClient (fun _ => Ok (VStr "token"))
                (fun _ _ => Raise (Exn Exception "rate limit")))
    "Summarise" [] =
    (Ok VNone,
     [ TokenRequest;
       Completion "Summarise"; Sleep 1; Completion "Summarise"; Sleep 2;
       Completion "Summarise"; Sleep 4; Completion "Summarise"; Sleep 8;
       Completion "Summarise"; Sleep 16 ]).
Proof.
  apply (ask_openai_gives_up
           (MkAIClient (fun _ => Ok (VStr "token"))
              (fun _ _ => Raise (Exn Exception "rate limit")))
           "Summarise" [] (VStr "token")); [reflexivity | reflexivity |].
  intros history. eexists. reflexivity.
Defined.

(** X26: [ask_openai] returns the content of the first attempt that
    succeeds and stops there: with a token, when the first [k] attempts
    raise and the next one, among the five, answers, the answer is
    returned after [k] sleeps and no further request is made. *)
Theorem ask_openai_first_success (self : AIClient) (prompt : string) (trace : list event)
        (token content : pyval) (k : nat) :
  access_token self trace = Ok token ->
  truthy token = true ->
  k < 5 ->
  (forall j, j < k ->
     exists e, completion self (trace ++ TokenRequest :: failed_attempts prompt j 1) prompt =
               Raise e) ->
  completion self (trace ++ TokenRequest :: failed_attempts prompt k 1) prompt = Ok content ->
  ask_openai self prompt trace =
    (Ok content, trace ++ TokenRequest :: failed_attempts prompt k 1 ++ [Completion prompt]).
Proof.
  intros Htoken Htruthy Hk Hfail Hok.
  unfold ask_openai. rewrite Htoken, Htruthy. cbn [negb].
  assert (Hshift : forall j, (trace ++ [TokenRequest]) ++ failed_attempts prompt j 1 =
                             trace ++ TokenRequest :: failed_attempts prompt j 1)
    by (intros j; now rewrite <- app_assoc).
  destruct (attempts_run self prompt 5 1 (trace ++ [TokenRequest]))
    as [[_ Hall] | (k' & content' & Hk' & Hfail' & Hok' & Hrun)].
  - destruct (Hall k Hk) as [e He]. rewrite Hshift in He. congruence.
  - assert (k' = k).
    { destruct (Nat.lt_trichotomy k' k) as [Hlt | [Heq | Hgt]]; [|exact Heq|].
      - destruct (Hfail k' Hlt) as [e He]. rewrite Hshift in Hok'. congruence.
      - destruct (Hfail' k Hgt) as [e He]. rewrite Hshift in He. congruence. }
    subst k'. rewrite Hshift in Hok'. rewrite Hrun.
    assert (content' = content) by congruence. subst content'.
    now rewrite <- app_assoc.
Qed.

Lemma ask_openai_first_success_witness :
  ask_openai (MkAIClient (fun _ => Ok (VStr "token"))
                (fun history _ =>
                   match history with
                   | [_; _; _] => Ok (VStr "summary")
                   | _ => Raise (Exn Exception "rate limit")
                   end))
    "Summarise" [] =
    (Ok (VStr "summary"),
     [TokenRequest; Completion "Summarise"; Sleep 1; Completion "Summarise"]).
Proof.
  apply (ask_openai_first_success
           (MkAIClient (fun _ => Ok (VStr "token"))
              (fun history _ =>
                 match history with
                 | [_; _; _] => Ok (VStr "summary")
                 | _ => Raise (Exn Exception "rate limit")
                 end))
           "Summarise" [] (VStr "token") (VStr "summary") 1);
    [reflexivity | reflexivity | lia | | reflexivity].
  intros j Hj. assert (j = 0) by lia. subst j. eexists. reflexivity.
Defined.
